(** * The network registry and the chain topology manager of netd

    A shallow embedding of [server/NetworkController.cpp] and of the child
    chain installer of [server/Controllers.cpp], with the properties the
    specification states about them.

    Integers of the C++ code ([unsigned], [uid_t], [int], [int32_t]) are
    modelled as [Z]; return codes are the negated errno values the code
    returns.  [std::map<unsigned, Network*>] is a [gmap Z Network] that is
    iterated in ascending key order, the unordered maps and sets are [gmap]
    and [gset]. *)

From Stdlib Require Import ZArith List String Ascii Lia Bool.
From stdpp Require Import base tactics option list sorting gmap strings.

Local Open Scope Z_scope.

(** ** Constants *)

(** <errno.h> (Linux). *)
Definition ENOENT : Z := 2.
Definition ESRCH : Z := 3.
Definition EACCES : Z := 13.
Definition EBUSY : Z := 16.
Definition EEXIST : Z := 17.
Definition ENODEV : Z := 19.
Definition EINVAL : Z := 22.
Definition EPERM : Z := 1.
Definition ENONET : Z := 64.
Definition EREMOTEIO : Z := 121.

(** The error kinds of the specification, as the codes the registry returns
    for them.  An exhausted OEM range is reported with the same code as a
    missing network. *)
Definition NO_NETWORK : Z := - ENONET.
Definition REMOTE_IO : Z := - EREMOTEIO.
Definition PERMISSION_DENIED : Z := - EPERM.
Definition ACCESS_DENIED : Z := - EACCES.
Definition INVALID_ARG : Z := - EINVAL.
Definition EXHAUSTED : Z := - ENONET.

(** NetworkController.cpp, anonymous namespace. *)
Definition MIN_NET_ID : Z := 100.
Definition MAX_NET_ID : Z := 65535.

(** netid_client.h: the netId that stands for "no network chosen"; the
    registry writes it as the literal zero in [createPhysicalOemNetwork]. *)
Definition NETID_UNSET : Z := 0.

(** Permission.h; the value is the one the comment in
    [checkUserNetworkAccessLocked] quotes. *)
Definition PERMISSION_NONE : Z := 0.

(** UidRanges.h; the value is the one the comment in
    [getPhysicalOrUnreachableNetworkForUserLocked] quotes. *)
Definition SUB_PRIORITY_NO_DEFAULT : Z := 999.

(** Constants of headers that are not part of the sources at hand
    (NetworkController.h, Permission.h, NativeVpnType, the platform's uid
    table).  The
    development is parametric in them. *)
Class Platform := {
  LOCAL_NET_ID : Z;
  DUMMY_NET_ID : Z;
  UNREACHABLE_NET_ID : Z;
  MIN_OEM_ID : Z;
  MAX_OEM_ID : Z;
  AID_VPN : Z;
  FIRST_APPLICATION_UID : Z;
  INVALID_UID : Z;
  PERMISSION_SYSTEM : Z;
  VPN_TYPE_SERVICE : Z;
  VPN_TYPE_OEM_LEGACY : Z;
}.

(** ** Uid ranges *)

Record UidRange := { start : Z; stop : Z }.

Definition UidRanges := list UidRange.

Definition inRange (uid : Z) (r : UidRange) : bool :=
  (start r <=? uid) && (uid <=? stop r).

Definition hasUid (ranges : UidRanges) (uid : Z) : bool :=
  existsb (inRange uid) ranges.

(** ** Networks *)

Inductive NetworkType := Physical | Virtual | Local | Unreachable | Dummy.

#[global] Instance NetworkType_eq_dec : EqDecision NetworkType.
Proof. solve_decision. Defined.

(** Modelled from the spec: the Network classes (Network, PhysicalNetwork,
    VirtualNetwork, LocalNetwork, UnreachableNetwork, DummyNetwork) are not
    among the sources.  A network is its netId, its variant, its set of
    interface names, its permission, whether it is installed as the default,
    whether it is a secure VPN, its uid ranges per subsidiary priority and
    its allowlist. *)
Record Network := {
  mNetId : Z;
  mType : NetworkType;
  mInterfaces : list string;
  mPermission : Z;
  mIsDefault : bool;
  mLocal : bool;
  mSecure : bool;
  mExcludeLocalRoutes : bool;
  mUidRangeMap : gmap Z UidRanges;
  mAllowedUids : UidRanges;
}.

Definition set_mInterfaces (n : Network) (v : list string) : Network :=
  {| mNetId := mNetId n; mType := mType n; mInterfaces := v;
     mPermission := mPermission n; mIsDefault := mIsDefault n;
     mLocal := mLocal n; mSecure := mSecure n;
     mExcludeLocalRoutes := mExcludeLocalRoutes n;
     mUidRangeMap := mUidRangeMap n; mAllowedUids := mAllowedUids n |}.
Definition set_mPermission (n : Network) (v : Z) : Network :=
  {| mNetId := mNetId n; mType := mType n; mInterfaces := mInterfaces n;
     mPermission := v; mIsDefault := mIsDefault n;
     mLocal := mLocal n; mSecure := mSecure n;
     mExcludeLocalRoutes := mExcludeLocalRoutes n;
     mUidRangeMap := mUidRangeMap n; mAllowedUids := mAllowedUids n |}.
Definition set_mIsDefault (n : Network) (v : bool) : Network :=
  {| mNetId := mNetId n; mType := mType n; mInterfaces := mInterfaces n;
     mPermission := mPermission n; mIsDefault := v;
     mLocal := mLocal n; mSecure := mSecure n;
     mExcludeLocalRoutes := mExcludeLocalRoutes n;
     mUidRangeMap := mUidRangeMap n; mAllowedUids := mAllowedUids n |}.
Definition set_mUidRangeMap (n : Network) (v : gmap Z UidRanges) : Network :=
  {| mNetId := mNetId n; mType := mType n; mInterfaces := mInterfaces n;
     mPermission := mPermission n; mIsDefault := mIsDefault n;
     mLocal := mLocal n; mSecure := mSecure n;
     mExcludeLocalRoutes := mExcludeLocalRoutes n;
     mUidRangeMap := v; mAllowedUids := mAllowedUids n |}.
Definition set_mAllowedUids (n : Network) (v : UidRanges) : Network :=
  {| mNetId := mNetId n; mType := mType n; mInterfaces := mInterfaces n;
     mPermission := mPermission n; mIsDefault := mIsDefault n;
     mLocal := mLocal n; mSecure := mSecure n;
     mExcludeLocalRoutes := mExcludeLocalRoutes n;
     mUidRangeMap := mUidRangeMap n; mAllowedUids := v |}.

(** Modelled from the spec: the observers of a network. *)
Definition getNetId (n : Network) : Z := mNetId n.
Definition isPhysical (n : Network) : bool := bool_decide (mType n = Physical).
Definition isVirtual (n : Network) : bool := bool_decide (mType n = Virtual).
Definition isUnreachable (n : Network) : bool := bool_decide (mType n = Unreachable).
Definition isSecure (n : Network) : bool := mSecure n.
Definition getPermission (n : Network) : Z := mPermission n.
Definition getInterfaces (n : Network) : list string := mInterfaces n.

Definition hasInterface (n : Network) (iface : string) : bool :=
  bool_decide (iface ∈ mInterfaces n).

(** Modelled from the spec: users can be attached to Physical, Virtual and
    Unreachable networks only. *)
Definition canAddUsers (n : Network) : bool :=
  match mType n with
  | Physical | Virtual | Unreachable => true
  | Local | Dummy => false
  end.

(** The smaller of two optional subsidiary priorities. *)
Definition minPriority (a b : option Z) : option Z :=
  match a, b with
  | Some x, Some y => Some (Z.min x y)
  | Some x, None => Some x
  | None, b => b
  end.

(** Modelled from the spec: a network applies to a uid iff some attached
    range contains the uid; the subsidiary priority reported is the winning
    (numerically smallest) one among the priorities whose ranges contain the
    uid.  [None] is the C++ [false]. *)
Definition appliesToUser (n : Network) (uid : Z) : option Z :=
  map_fold (fun prio ranges acc =>
              if hasUid ranges uid then minPriority (Some prio) acc else acc)
           None (mUidRangeMap n).

(** Modelled from the spec: the boolean result of [appliesToUser]. *)
Definition appliesTo (n : Network) (uid : Z) : bool :=
  bool_decide (is_Some (appliesToUser n uid)).

(** Modelled from the spec: an empty allowlist allows every uid. *)
Definition isUidAllowed (n : Network) (uid : Z) : bool :=
  match mAllowedUids n with
  | [] => true
  | ranges => hasUid ranges uid
  end.

(** Modelled from the spec: the allowlist is replaced as a whole. *)
Definition setAllowedUids (n : Network) (ranges : UidRanges) : Network :=
  set_mAllowedUids n ranges.

(** Modelled from the spec: clearing leaves the empty allowlist. *)
Definition clearAllowedUids (n : Network) : Network := set_mAllowedUids n [].

(** Modelled from the spec: the constructors of the five variants.  A
    network starts without interfaces, users and allowlist. *)
Definition newNetwork (netId : Z) (type : NetworkType) (local secure excl : bool)
  : Network :=
  {| mNetId := netId; mType := type; mInterfaces := [];
     mPermission := PERMISSION_NONE; mIsDefault := false; mLocal := local;
     mSecure := secure; mExcludeLocalRoutes := excl;
     mUidRangeMap := ∅; mAllowedUids := [] |}.

Definition LocalNetwork (netId : Z) : Network :=
  newNetwork netId Local false false false.
Definition DummyNetwork (netId : Z) : Network :=
  newNetwork netId Dummy false false false.
Definition UnreachableNetwork (netId : Z) : Network :=
  newNetwork netId Unreachable false false false.
Definition PhysicalNetwork (netId : Z) (local : bool) : Network :=
  newNetwork netId Physical local false false.
Definition VirtualNetwork (netId : Z) (secure excl : bool) : Network :=
  newNetwork netId Virtual false secure excl.

(** ** The environment of the registry *)

(** What a network or the registry asks of its collaborators: the route
    controller (interfaces, default status, permission, users, VPN
    fallthrough routes) and the TCP socket monitor. *)
Inductive Effect :=
| ReqAddInterface (netId : Z) (iface : string)
| ReqRemoveInterface (netId : Z) (iface : string)
| ReqAddAsDefault (netId : Z)
| ReqRemoveAsDefault (netId : Z)
| ReqSetPermission (netId : Z) (permission : Z)
| ReqAddUsers (netId : Z) (ranges : UidRanges) (subPriority : Z)
| ReqRemoveUsers (netId : Z) (ranges : UidRanges) (subPriority : Z)
| ReqAddFallthrough (vpnNetId : Z) (iface : string) (permission : Z)
| ReqRemoveFallthrough (vpnNetId : Z) (iface : string) (permission : Z)
| ResumePolling
| SuspendPolling.

(** The answers of the collaborators: the return code of a request (zero is
    success), the index of an interface (zero is "none") and whether the
    resolver has name servers for a network. *)
Record Env := {
  kernel : Effect -> Z;
  getIfIndex : string -> Z;
  resolv_has_nameservers : Z -> bool;
}.

(** ** The firewall mark *)

Module Fwmark.

(** Modelled from the spec: Fwmark.h is not among the sources.  The low 20
    bits of the mark hold the netId in bits 0-15, then the two flags, then
    the permission in two bits. *)
Record t := {
  netId : Z;
  explicitlySelected : bool;
  protectedFromVpn : bool;
  permission : Z;
}.

(** Modelled from the spec: [Fwmark()] starts from the integer value
    zero. *)
Definition zero : t :=
  {| netId := 0; explicitlySelected := false; protectedFromVpn := false;
     permission := 0 |}.

(** Modelled from the spec: an assignment to a bit field keeps the low
    bits of the value. *)
Definition set_netId (m : t) (v : Z) : t :=
  {| netId := Z.land v 65535; explicitlySelected := explicitlySelected m;
     protectedFromVpn := protectedFromVpn m; permission := permission m |}.
Definition set_explicitlySelected (m : t) (b : bool) : t :=
  {| netId := netId m; explicitlySelected := b;
     protectedFromVpn := protectedFromVpn m; permission := permission m |}.
Definition set_protectedFromVpn (m : t) (b : bool) : t :=
  {| netId := netId m; explicitlySelected := explicitlySelected m;
     protectedFromVpn := b; permission := permission m |}.
Definition set_permission (m : t) (p : Z) : t :=
  {| netId := netId m; explicitlySelected := explicitlySelected m;
     protectedFromVpn := protectedFromVpn m; permission := Z.land p 3 |}.

(** Modelled from the spec: the 32-bit value of the mark. *)
Definition intValue (m : t) : Z :=
  Z.lor (Z.land (netId m) 65535)
    (Z.lor (Z.shiftl (Z.b2z (explicitlySelected m)) 16)
       (Z.lor (Z.shiftl (Z.b2z (protectedFromVpn m)) 17)
          (Z.shiftl (Z.land (permission m) 3) 18))).

(** Modelled from the spec: the fields of a 32-bit value. *)
Definition decode (v : Z) : t :=
  {| netId := Z.land v 65535;
     explicitlySelected := Z.testbit v 16;
     protectedFromVpn := Z.testbit v 17;
     permission := Z.land (Z.shiftr v 18) 3 |}.

(** The two flags and the permission of a mark, as the four bits above
    its netId. *)
Definition high (m : t) : Z :=
  Z.lor (Z.b2z (explicitlySelected m))
    (Z.lor (Z.shiftl (Z.b2z (protectedFromVpn m)) 1)
       (Z.shiftl (Z.land (permission m) 3) 2)).

End Fwmark.

(** ** The registry *)

(** The fields of the class.  [mEffects] is not a field of the C++ object:
    it lists, oldest first, the requests the registry has issued to its
    collaborators. *)
Record NetworkController := {
  mDefaultNetId : Z;
  mNetworks : gmap Z Network;
  mUsers : gmap Z Z;
  mProtectableUsers : gset (Z * Z);
  mIfindexToLastNetId : gmap Z Z;
  mAddressToIfindices : gmap string (gset Z);
  mEffects : list Effect;
}.

Definition set_mDefaultNetId (s : NetworkController) (v : Z) : NetworkController :=
  {| mDefaultNetId := v; mNetworks := mNetworks s; mUsers := mUsers s;
     mProtectableUsers := mProtectableUsers s;
     mIfindexToLastNetId := mIfindexToLastNetId s;
     mAddressToIfindices := mAddressToIfindices s; mEffects := mEffects s |}.
Definition set_mNetworks (s : NetworkController) (v : gmap Z Network) : NetworkController :=
  {| mDefaultNetId := mDefaultNetId s; mNetworks := v; mUsers := mUsers s;
     mProtectableUsers := mProtectableUsers s;
     mIfindexToLastNetId := mIfindexToLastNetId s;
     mAddressToIfindices := mAddressToIfindices s; mEffects := mEffects s |}.
Definition set_mUsers (s : NetworkController) (v : gmap Z Z) : NetworkController :=
  {| mDefaultNetId := mDefaultNetId s; mNetworks := mNetworks s; mUsers := v;
     mProtectableUsers := mProtectableUsers s;
     mIfindexToLastNetId := mIfindexToLastNetId s;
     mAddressToIfindices := mAddressToIfindices s; mEffects := mEffects s |}.
Definition set_mProtectableUsers (s : NetworkController) (v : gset (Z * Z)) : NetworkController :=
  {| mDefaultNetId := mDefaultNetId s; mNetworks := mNetworks s; mUsers := mUsers s;
     mProtectableUsers := v;
     mIfindexToLastNetId := mIfindexToLastNetId s;
     mAddressToIfindices := mAddressToIfindices s; mEffects := mEffects s |}.
Definition set_mIfindexToLastNetId (s : NetworkController) (v : gmap Z Z) : NetworkController :=
  {| mDefaultNetId := mDefaultNetId s; mNetworks := mNetworks s; mUsers := mUsers s;
     mProtectableUsers := mProtectableUsers s;
     mIfindexToLastNetId := v;
     mAddressToIfindices := mAddressToIfindices s; mEffects := mEffects s |}.
Definition set_mAddressToIfindices (s : NetworkController) (v : gmap string (gset Z)) : NetworkController :=
  {| mDefaultNetId := mDefaultNetId s; mNetworks := mNetworks s; mUsers := mUsers s;
     mProtectableUsers := mProtectableUsers s;
     mIfindexToLastNetId := mIfindexToLastNetId s;
     mAddressToIfindices := v; mEffects := mEffects s |}.
Definition emit (s : NetworkController) (es : list Effect) : NetworkController :=
  {| mDefaultNetId := mDefaultNetId s; mNetworks := mNetworks s; mUsers := mUsers s;
     mProtectableUsers := mProtectableUsers s;
     mIfindexToLastNetId := mIfindexToLastNetId s;
     mAddressToIfindices := mAddressToIfindices s; mEffects := mEffects s ++ es |}.

(** [std::map] is iterated in ascending key order. *)
Definition keyLe (a b : Z * Network) : Prop := a.1 <= b.1.

#[global] Instance keyLe_dec : RelDecision keyLe.
Proof. intros a b. unfold keyLe. apply _. Defined.

Definition inKeyOrder (m : gmap Z Network) : list (Z * Network) :=
  merge_sort keyLe (map_to_list m).

Section Queries.
Context `{Platform}.

(** *** Lookups *)

Definition getNetworkLocked (s : NetworkController) (netId : Z) : option Network :=
  mNetworks s !! netId.

Definition isValidNetworkLocked (s : NetworkController) (netId : Z) : bool :=
  match getNetworkLocked s netId with Some _ => true | None => false end.

Definition isVirtualNetworkLocked (s : NetworkController) (netId : Z) : bool :=
  match getNetworkLocked s netId with
  | Some network => isVirtual network
  | None => false
  end.

Definition getDefaultNetwork (s : NetworkController) : Z := mDefaultNetId s.

Definition getVirtualNetworkForUserLocked (s : NetworkController) (uid : Z)
  : option Network :=
  snd <$> List.find (fun e => isVirtual e.2 && appliesTo e.2 uid)
                    (inKeyOrder (mNetworks s)).

(** One round of the loop of
    [getPhysicalOrUnreachableNetworkForUserLocked]; the accumulator is
    [(bestNetwork, bestSubPriority)]. *)
Definition bestStep (uid : Z) (acc : option Network * Z) (e : Z * Network)
  : option Network * Z :=
  let network := e.2 in
  if negb (isPhysical network) && negb (isUnreachable network) then acc else
  match appliesToUser network uid with
  | None => acc
  | Some subPriority =>
      if subPriority =? SUB_PRIORITY_NO_DEFAULT then acc
      else if subPriority <? acc.2 then (Some network, subPriority)
      else acc
  end.

Definition getPhysicalOrUnreachableNetworkForUserLocked
    (s : NetworkController) (uid : Z) : option Network :=
  (fold_left (bestStep uid) (inKeyOrder (mNetworks s))
             (None, SUB_PRIORITY_NO_DEFAULT)).1.

Definition getPermissionForUserLocked (s : NetworkController) (uid : Z) : Z :=
  match mUsers s !! uid with
  | Some permission => permission
  | None => if uid <? FIRST_APPLICATION_UID then PERMISSION_SYSTEM else PERMISSION_NONE
  end.

Definition isProtectableLocked (s : NetworkController) (uid netId : Z) : bool :=
  bool_decide ((uid, NETID_UNSET) ∈ mProtectableUsers s)
  || bool_decide ((uid, netId) ∈ mProtectableUsers s).

Definition canProtectLocked (s : NetworkController) (uid netId : Z) : bool :=
  if Z.land (getPermissionForUserLocked s uid) PERMISSION_SYSTEM =? PERMISSION_SYSTEM
  then true
  else isProtectableLocked s uid netId.

Definition canProtect := canProtectLocked.

(** *** Network selection *)

Definition getNetworkForUser (s : NetworkController) (uid : Z) : Z :=
  match getVirtualNetworkForUserLocked s uid with
  | Some virtualNetwork => getNetId virtualNetwork
  | None =>
      match getPhysicalOrUnreachableNetworkForUserLocked s uid with
      | Some network => getNetId network
      | None => mDefaultNetId s
      end
  end.

Definition getNetworkForConnectLocked (s : NetworkController) (uid : Z) : Z :=
  match getPhysicalOrUnreachableNetworkForUserLocked s uid with
  | Some network => getNetId network
  | None => mDefaultNetId s
  end.

Definition getNetworkForConnect := getNetworkForConnectLocked.

(** *** Access control *)

Definition checkUserNetworkAccessLocked (s : NetworkController) (uid netId : Z) : Z :=
  match getNetworkLocked s netId with
  | None => - ENONET
  | Some network =>
      if uid =? INVALID_UID then - EREMOTEIO else
      let userPermission := getPermissionForUserLocked s uid in
      if Z.land userPermission PERMISSION_SYSTEM =? PERMISSION_SYSTEM then 0 else
      if isVirtual network then
        (if appliesTo network uid then 0 else - EPERM)
      else
      let virtualNetwork := getVirtualNetworkForUserLocked s uid in
      if match virtualNetwork with
         | Some v => isSecure v && negb (isProtectableLocked s uid netId)
         | None => false
         end
      then - EPERM else
      if isPhysical network && appliesTo network uid then 0 else
      if isUnreachable network then
        (if appliesTo network uid then 0 else - EPERM)
      else
      if negb (isUidAllowed network uid) then - EACCES else
      let networkPermission := getPermission network in
      if Z.land userPermission networkPermission =? networkPermission
      then 0 else - EACCES
  end.

Definition checkUserNetworkAccess := checkUserNetworkAccessLocked.

(** *** DNS *)

(** The result is the integer value of the mark and the netId written
    back through the pointer. *)
Definition getNetworkForDnsLocked (env : Env) (s : NetworkController)
    (netId uid : Z) : Z * Z :=
  let fwmark := Fwmark.zero in
  let fwmark := Fwmark.set_protectedFromVpn fwmark true in
  let fwmark := Fwmark.set_permission fwmark PERMISSION_SYSTEM in
  let appDefaultNetwork := getPhysicalOrUnreachableNetworkForUserLocked s uid in
  let defaultNetId :=
    match appDefaultNetwork with
    | Some n => getNetId n
    | None => mDefaultNetId s
    end in
  if (netId =? NETID_UNSET)
     && bool_decide (getVirtualNetworkForUserLocked s uid = None) then
    let netId := defaultNetId in
    let fwmark := Fwmark.set_netId fwmark netId in
    let fwmark := Fwmark.set_explicitlySelected fwmark true in
    (Fwmark.intValue fwmark, netId)
  else
    let '(fwmark, netId) :=
      if checkUserNetworkAccessLocked s uid netId =? 0 then
        let fwmark := Fwmark.set_explicitlySelected fwmark true in
        let network := getNetworkLocked s netId in
        if match network with
           | Some n => isVirtual n && negb (resolv_has_nameservers env netId)
           | None => false
           end
        then (fwmark, defaultNetId)
        else (fwmark, netId)
      else
        match getVirtualNetworkForUserLocked s uid with
        | Some virtualNetwork =>
            if resolv_has_nameservers env (getNetId virtualNetwork)
            then (Fwmark.set_explicitlySelected fwmark true, getNetId virtualNetwork)
            else (fwmark, defaultNetId)
        | None => (fwmark, defaultNetId)
        end in
    let fwmark := Fwmark.set_netId fwmark netId in
    (Fwmark.intValue fwmark, netId).

Definition NetworkController_isUidAllowed (s : NetworkController) (netId uid : Z) : bool :=
  let network := getNetworkLocked s netId in
  if (netId =? NETID_UNSET) && (mDefaultNetId s =? NETID_UNSET) then true
  else match network with
       | Some n => isUidAllowed n uid
       | None => false
       end.

End Queries.

(** ** The mutators of a network *)

#[global] Instance UidRange_eq_dec : EqDecision UidRange.
Proof. solve_decision. Defined.

(** A method of a network yields its return code, the network afterwards
    and the requests it sent. *)
Definition Outcome : Type := Z * Network * list Effect.

(** Modelled from the spec: a method that changes kernel state sends its
    request and returns the kernel's code; the in-memory fields change only
    when that code is zero.  Whether adding a present interface or removing
    an absent one is an error is the environment's answer. *)
Definition addInterface (env : Env) (n : Network) (iface : string) : Outcome :=
  let req := ReqAddInterface (mNetId n) iface in
  let ret := kernel env req in
  if ret =? 0
  then (0, set_mInterfaces n (if hasInterface n iface then mInterfaces n
                              else mInterfaces n ++ [iface]), [req])
  else (ret, n, [req]).

(** Modelled from the spec: the removal of an interface, like its
    addition. *)
Definition removeInterface (env : Env) (n : Network) (iface : string) : Outcome :=
  let req := ReqRemoveInterface (mNetId n) iface in
  let ret := kernel env req in
  if ret =? 0
  then (0, set_mInterfaces n (filter (fun i => i ≠ iface) (mInterfaces n)), [req])
  else (ret, n, [req]).

(** Modelled from the spec: the bulk removal takes the interfaces one by one
    and stops at the first that fails; the result is the code, the
    interfaces that are left and the requests sent. *)
Fixpoint clearInterfacesFrom (env : Env) (netId : Z) (ifaces : list string)
  : Z * list string * list Effect :=
  match ifaces with
  | [] => (0, [], [])
  | iface :: rest =>
      let req := ReqRemoveInterface netId iface in
      let ret := kernel env req in
      if ret =? 0 then
        let '(r, remaining, evs) := clearInterfacesFrom env netId rest in
        (r, remaining, req :: evs)
      else (ret, ifaces, [req])
  end.

(** Modelled from the spec: [clearInterfaces] on a network. *)
Definition clearInterfaces (env : Env) (n : Network) : Outcome :=
  let '(ret, remaining, evs) := clearInterfacesFrom env (mNetId n) (mInterfaces n) in
  (ret, set_mInterfaces n remaining, evs).

(** Modelled from the spec: the default status of a physical network. *)
Definition addAsDefault (env : Env) (n : Network) : Outcome :=
  let req := ReqAddAsDefault (mNetId n) in
  let ret := kernel env req in
  if ret =? 0 then (0, set_mIsDefault n true, [req]) else (ret, n, [req]).

(** Modelled from the spec: giving up the default status. *)
Definition removeAsDefault (env : Env) (n : Network) : Outcome :=
  let req := ReqRemoveAsDefault (mNetId n) in
  let ret := kernel env req in
  if ret =? 0 then (0, set_mIsDefault n false, [req]) else (ret, n, [req]).

(** Modelled from the spec: the permission of a physical network.  On a
    network without interfaces there is nothing to ask of the kernel and the
    call cannot fail, as [createPhysicalNetworkLocked] remarks. *)
Definition setPermission (env : Env) (n : Network) (permission : Z) : Outcome :=
  match mInterfaces n with
  | [] => (0, set_mPermission n permission, [])
  | _ =>
      let req := ReqSetPermission (mNetId n) permission in
      let ret := kernel env req in
      if ret =? 0 then (0, set_mPermission n permission, [req]) else (ret, n, [req])
  end.

(** Modelled from the spec: uid ranges are attached to and detached from a
    subsidiary priority. *)
Definition addUsers (env : Env) (n : Network) (ranges : UidRanges) (subPriority : Z)
  : Outcome :=
  let req := ReqAddUsers (mNetId n) ranges subPriority in
  let ret := kernel env req in
  if ret =? 0 then
    let old := default [] (mUidRangeMap n !! subPriority) in
    (0, set_mUidRangeMap n (<[subPriority := old ++ ranges]> (mUidRangeMap n)), [req])
  else (ret, n, [req]).

(** Modelled from the spec: detaching ranges; a priority without ranges
    is dropped. *)
Definition removeUsers (env : Env) (n : Network) (ranges : UidRanges) (subPriority : Z)
  : Outcome :=
  let req := ReqRemoveUsers (mNetId n) ranges subPriority in
  let ret := kernel env req in
  if ret =? 0 then
    let old := default [] (mUidRangeMap n !! subPriority) in
    let remaining := filter (fun r => r ∉ ranges) old in
    (0, set_mUidRangeMap n
          (match remaining with
           | [] => delete subPriority (mUidRangeMap n)
           | _ => <[subPriority := remaining]> (mUidRangeMap n)
           end), [req])
  else (ret, n, [req]).

(** ** The mutators of the registry *)

(** netd::aidl::NativeUidRangeConfig *)
Record NativeUidRangeConfig := {
  cfgNetId : Z;
  cfgUidRanges : list UidRange;
  cfgSubPriority : Z;
}.

(** A mutator yields its return code and the registry afterwards. *)
Definition Result : Type := Z * NetworkController.

Section Mutators.
Context `{Platform}.
Variable env : Env.

(** The constructor.  It also clears the clsact stubs of all interfaces,
    ignoring errors; that leaves the registry as it is. *)
Definition initial : NetworkController :=
  {| mDefaultNetId := NETID_UNSET;
     mNetworks :=
       <[UNREACHABLE_NET_ID := UnreachableNetwork UNREACHABLE_NET_ID]>
         (<[DUMMY_NET_ID := DummyNetwork DUMMY_NET_ID]>
            (<[LOCAL_NET_ID := LocalNetwork LOCAL_NET_ID]> ∅));
     mUsers := ∅;
     mProtectableUsers := {[ (AID_VPN, NETID_UNSET) ]};
     mIfindexToLastNetId := ∅;
     mAddressToIfindices := ∅;
     mEffects := [] |}.

(** [mNetworks[netId] = network], and the write through a [Network*]. *)
Definition putNetwork (s : NetworkController) (netId : Z) (n : Network)
  : NetworkController :=
  set_mNetworks s (<[netId := n]> (mNetworks s)).

Definition updateTcpSocketMonitorPolling (s : NetworkController) : NetworkController :=
  let physicalNetworkExists :=
    existsb (fun e => isPhysical e.2 && (MIN_NET_ID <=? getNetId e.2))
            (inKeyOrder (mNetworks s)) in
  emit s [if physicalNetworkExists then ResumePolling else SuspendPolling].

Definition setDefaultNetwork (s : NetworkController) (netId : Z) : Result :=
  if netId =? mDefaultNetId s then (0, s) else
  let r1 : Result :=
    if negb (netId =? NETID_UNSET) then
      match getNetworkLocked s netId with
      | None => (- ENONET, s)
      | Some network =>
          if negb (isPhysical network) then (- EINVAL, s) else
          let '(ret, network', evs) := addAsDefault env network in
          (ret, emit (putNetwork s netId network') evs)
      end
    else (0, s) in
  if negb (r1.1 =? 0) then r1 else
  let s := r1.2 in
  let r2 : Result :=
    if negb (mDefaultNetId s =? NETID_UNSET) then
      match getNetworkLocked s (mDefaultNetId s) with
      | None => (- ESRCH, s)
      | Some network =>
          if negb (isPhysical network) then (- ESRCH, s) else
          let '(ret, network', evs) := removeAsDefault env network in
          (ret, emit (putNetwork s (mDefaultNetId s) network') evs)
      end
    else (0, s) in
  if negb (r2.1 =? 0) then r2 else
  (0, set_mDefaultNetId r2.2 netId).

Definition createPhysicalNetworkLocked (s : NetworkController)
    (netId permission : Z) (local : bool) : Result :=
  if negb (((MIN_NET_ID <=? netId) && (netId <=? MAX_NET_ID))
           || ((MIN_OEM_ID <=? netId) && (netId <=? MAX_OEM_ID)))
  then (- EINVAL, s)
  else if isValidNetworkLocked s netId then (- EEXIST, s)
  else
    let physicalNetwork := PhysicalNetwork netId local in
    let '(ret, physicalNetwork, evs) := setPermission env physicalNetwork permission in
    if negb (ret =? 0) then (ret, emit s evs)
    else (0, updateTcpSocketMonitorPolling
               (putNetwork (emit s evs) netId physicalNetwork)).

Definition createPhysicalNetwork := createPhysicalNetworkLocked.

(** The loop that takes the candidate id from [MIN_OEM_ID] upwards while it
    is at most [MAX_OEM_ID] and leaves at the first id that is not
    registered; [fuel] bounds the number of rounds. *)
Fixpoint scanOemIds (s : NetworkController) (fuel : nat) (netId : Z) : Z :=
  match fuel with
  | O => netId
  | S fuel' =>
      if netId <=? MAX_OEM_ID then
        if negb (isValidNetworkLocked s netId) then netId
        else scanOemIds s fuel' (netId + 1)
      else netId
  end.

(** The result is the return code, the value left behind the pointer and the
    registry.  The pointer is taken to be non-null. *)
Definition createPhysicalOemNetwork (s : NetworkController) (permission : Z)
  : Z * Z * NetworkController :=
  let netId := scanOemIds s (Z.to_nat (MAX_OEM_ID + 1 - MIN_OEM_ID)) MIN_OEM_ID in
  if MAX_OEM_ID <? netId then (- ENONET, 0, s)
  else
    let '(ret, s') := createPhysicalNetworkLocked s netId permission false in
    (ret, if negb (ret =? 0) then 0 else netId, s').

(** DelegateImpl::modifyFallthrough for one VPN and one interface. *)
Definition modifyFallthrough (vpnNetId : Z) (physicalInterface : string)
    (permission : Z) (add : bool) : Z * list Effect :=
  let req := if add then ReqAddFallthrough vpnNetId physicalInterface permission
             else ReqRemoveFallthrough vpnNetId physicalInterface permission in
  (kernel env req, [req]).

(** The loop over the interfaces of the default network. *)
Fixpoint modifyFallthroughOver (vpnNetId permission : Z) (add : bool)
    (ifaces : list string) : Z * list Effect :=
  match ifaces with
  | [] => (0, [])
  | physicalInterface :: rest =>
      let '(ret, evs) := modifyFallthrough vpnNetId physicalInterface permission add in
      if negb (ret =? 0) then (ret, evs)
      else let '(ret', evs') := modifyFallthroughOver vpnNetId permission add rest in
           (ret', evs ++ evs')
  end.

Definition modifyFallthroughLocked (s : NetworkController) (vpnNetId : Z)
    (add : bool) : Result :=
  if mDefaultNetId s =? NETID_UNSET then (0, s) else
  match getNetworkLocked s (mDefaultNetId s) with
  | None => (- ESRCH, s)
  | Some network =>
      if negb (isPhysical network) then (- EINVAL, s) else
      let permission := getPermission network in
      let '(ret, evs) :=
        modifyFallthroughOver vpnNetId permission add (getInterfaces network) in
      (ret, emit s evs)
  end.

Definition createVirtualNetwork (s : NetworkController) (netId : Z)
    (secure : bool) (vpnType : Z) (excludeLocalRoutes : bool) : Result :=
  if negb ((MIN_NET_ID <=? netId) && (netId <=? MAX_NET_ID)) then (- EINVAL, s)
  else if isValidNetworkLocked s netId then (- EEXIST, s)
  else if (vpnType <? VPN_TYPE_SERVICE) || (VPN_TYPE_OEM_LEGACY <? vpnType)
  then (- EINVAL, s)
  else
    let '(ret, s1) := modifyFallthroughLocked s netId true in
    if negb (ret =? 0) then (ret, s1)
    else (0, putNetwork s1 netId (VirtualNetwork netId secure excludeLocalRoutes)).

(** [if (!ret) ret = err] *)
Definition firstError (ret err : Z) : Z :=
  if negb (err =? 0) && (ret =? 0) then err else ret.

Definition destroyNetwork (s : NetworkController) (netId : Z) : Result :=
  if (netId =? LOCAL_NET_ID) || (netId =? UNREACHABLE_NET_ID) then (- EINVAL, s)
  else if negb (isValidNetworkLocked s netId) then (- ENONET, s)
  else
    match getNetworkLocked s netId with
    | None => (- ENONET, s)
    | Some network =>
        let '(ret, network, evs) := clearInterfaces env network in
        let s := emit (putNetwork s netId network) evs in
        let '(ret, s) :=
          if mDefaultNetId s =? netId then
            let '(err, network, evs) := removeAsDefault env network in
            (firstError ret err,
             set_mDefaultNetId (emit (putNetwork s netId network) evs) NETID_UNSET)
          else if isVirtual network then
            let '(err, s) := modifyFallthroughLocked s netId false in
            (firstError ret err, s)
          else (ret, s) in
        let s := set_mNetworks s (delete netId (mNetworks s)) in
        let s := set_mIfindexToLastNetId s
                   (filter (fun kv => kv.2 ≠ netId) (mIfindexToLastNetId s)) in
        (ret, updateTcpSocketMonitorPolling s)
    end.

Definition getNetworkForInterfaceLocked (s : NetworkController) (interface : string)
  : Z :=
  match List.find (fun e => hasInterface e.2 interface) (inKeyOrder (mNetworks s)) with
  | Some entry => entry.1
  | None => NETID_UNSET
  end.

Definition addInterfaceToNetwork (s : NetworkController) (netId : Z)
    (interface : string) : Result :=
  match getNetworkLocked s netId with
  | None => (- ENONET, s)
  | Some network =>
      let existingNetId := getNetworkForInterfaceLocked s interface in
      if negb (existingNetId =? NETID_UNSET) && negb (existingNetId =? netId)
      then (- EBUSY, s)
      else
        let '(ret, network, evs) := addInterface env network interface in
        let s := emit (putNetwork s netId network) evs in
        if negb (ret =? 0) then (ret, s)
        else if negb (netId =? LOCAL_NET_ID) then
          let ifIndex := getIfIndex env interface in
          if negb (ifIndex =? 0)
          then (0, set_mIfindexToLastNetId s
                     (<[ifIndex := netId]> (mIfindexToLastNetId s)))
          else (0, s)
        else (0, s)
  end.

Definition removeInterfaceFromNetwork (s : NetworkController) (netId : Z)
    (interface : string) : Result :=
  match getNetworkLocked s netId with
  | None => (- ENONET, s)
  | Some network =>
      let '(ret, network, evs) := removeInterface env network interface in
      (ret, emit (putNetwork s netId network) evs)
  end.

Definition setPermissionForUsers (s : NetworkController) (permission : Z)
    (uids : list Z) : NetworkController :=
  fold_left (fun s uid => set_mUsers s (<[uid := permission]> (mUsers s))) uids s.

Fixpoint setPermissionForNetworks (s : NetworkController) (permission : Z)
    (netIds : list Z) : Result :=
  match netIds with
  | [] => (0, s)
  | netId :: rest =>
      match getNetworkLocked s netId with
      | None => (- ENONET, s)
      | Some network =>
          if negb (isPhysical network) then (- EINVAL, s) else
          let '(ret, network, evs) := setPermission env network permission in
          let s := emit (putNetwork s netId network) evs in
          if negb (ret =? 0) then (ret, s)
          else setPermissionForNetworks s permission rest
      end
  end.

Definition isWrongNetworkForUidRanges (netId : Z) (network : option Network) : Z :=
  match network with
  | None => - ENONET
  | Some n => if negb (canAddUsers n) then - EINVAL else 0
  end.

Definition addUsersToNetwork (s : NetworkController) (netId : Z)
    (uidRanges : UidRanges) (subPriority : Z) : Result :=
  let network := getNetworkLocked s netId in
  let ret := isWrongNetworkForUidRanges netId network in
  if negb (ret =? 0) then (ret, s) else
  match network with
  | None => (ret, s)
  | Some n =>
      let '(ret, n, evs) := addUsers env n uidRanges subPriority in
      (ret, emit (putNetwork s netId n) evs)
  end.

Definition removeUsersFromNetwork (s : NetworkController) (netId : Z)
    (uidRanges : UidRanges) (subPriority : Z) : Result :=
  let network := getNetworkLocked s netId in
  let ret := isWrongNetworkForUidRanges netId network in
  if negb (ret =? 0) then (ret, s) else
  match network with
  | None => (ret, s)
  | Some n =>
      let '(ret, n, evs) := removeUsers env n uidRanges subPriority in
      (ret, emit (putNetwork s netId n) evs)
  end.

Definition addInterfaceAddress (s : NetworkController) (ifIndex : Z)
    (address : string) : NetworkController :=
  if ifIndex =? 0 then s
  else set_mAddressToIfindices s
         (<[address := {[ifIndex]} ∪ default ∅ (mAddressToIfindices s !! address)]>
            (mAddressToIfindices s)).

(** [m[idx]] on an unordered map: a missing key is inserted with the value
    zero. *)
Definition subscript (m : gmap Z Z) (idx : Z) : Z * gmap Z Z :=
  match m !! idx with
  | Some v => (v, m)
  | None => (0, <[idx := 0]> m)
  end.

(** The loop of [removeInterfaceAddress] over the interfaces that still
    carry the address, in the order the set enumerates them.  The result
    is the value returned and the map of last netIds. *)
Fixpoint handoverLoop (s : NetworkController) (lastNetId : Z) (ifindices : list Z)
    (m : gmap Z Z) : bool * gmap Z Z :=
  match ifindices with
  | [] => (true, m)
  | idx :: rest =>
      let '(activeNetId, m) := subscript m idx in
      if (lastNetId =? activeNetId) && isVirtualNetworkLocked s activeNetId
      then (false, m)
      else handoverLoop s lastNetId rest m
  end.

Definition removeInterfaceAddress (s : NetworkController) (ifindex : Z)
    (address : string) : bool * NetworkController :=
  match mAddressToIfindices s !! address with
  | None => (true, s)
  | Some ifindices =>
      if bool_decide (ifindex ∈ ifindices) then
        let ifindices := ifindices ∖ {[ifindex]} in
        if bool_decide (size ifindices = 0%nat) then
          (true, set_mAddressToIfindices s (delete address (mAddressToIfindices s)))
        else
          let s := set_mAddressToIfindices s
                     (<[address := ifindices]> (mAddressToIfindices s)) in
          match mIfindexToLastNetId s !! ifindex with
          | None => (true, s)
          | Some lastNetId =>
              let '(r, m) := handoverLoop s lastNetId (elements ifindices)
                               (mIfindexToLastNetId s) in
              (r, set_mIfindexToLastNetId s m)
          end
      else (true, s)
  end.

Definition allowProtect (s : NetworkController) (uid netId : Z) : Result :=
  if bool_decide ((uid, netId) ∈ mProtectableUsers s) then (- EEXIST, s)
  else (0, set_mProtectableUsers s ({[ (uid, netId) ]} ∪ mProtectableUsers s)).

Definition denyProtect (s : NetworkController) (uid netId : Z) : Result :=
  if bool_decide ((uid, netId) ∈ mProtectableUsers s)
  then (0, set_mProtectableUsers s (mProtectableUsers s ∖ {[ (uid, netId) ]}))
  else (- ENOENT, s).

Definition clearAllowedUidsForAllNetworksLocked (s : NetworkController)
  : NetworkController :=
  set_mNetworks s (clearAllowedUids <$> mNetworks s).

(** The second loop of [setNetworkAllowlist]; it runs after every netId
    has been found registered.  The [UidRanges] built from the ranges of a
    config is the collection of those ranges. *)
Definition applyAllowlist (s : NetworkController) (config : NativeUidRangeConfig)
  : NetworkController :=
  match getNetworkLocked s (cfgNetId config) with
  | Some network =>
      putNetwork s (cfgNetId config) (setAllowedUids network (cfgUidRanges config))
  | None => s
  end.

Definition setNetworkAllowlist (s : NetworkController)
    (rangeConfigs : list NativeUidRangeConfig) : Result :=
  if existsb (fun config => negb (isValidNetworkLocked s (cfgNetId config)))
             rangeConfigs
  then (- ENONET, s)
  else (0, fold_left applyAllowlist rangeConfigs
             (clearAllowedUidsForAllNetworksLocked s)).

End Mutators.

(** ** Commands *)

(** The mutating entry points of the registry.  A history is a list of
    commands, each with the environment it ran in. *)
Inductive Command :=
| SetDefaultNetwork (netId : Z)
| CreatePhysicalNetwork (netId permission : Z) (local : bool)
| CreatePhysicalOemNetwork (permission : Z)
| CreateVirtualNetwork (netId : Z) (secure : bool) (vpnType : Z) (excl : bool)
| DestroyNetwork (netId : Z)
| AddInterfaceToNetwork (netId : Z) (iface : string)
| RemoveInterfaceFromNetwork (netId : Z) (iface : string)
| SetPermissionForUsers (permission : Z) (uids : list Z)
| SetPermissionForNetworks (permission : Z) (netIds : list Z)
| AddUsersToNetwork (netId : Z) (ranges : UidRanges) (subPriority : Z)
| RemoveUsersFromNetwork (netId : Z) (ranges : UidRanges) (subPriority : Z)
| AddInterfaceAddress (ifIndex : Z) (address : string)
| RemoveInterfaceAddress (ifIndex : Z) (address : string)
| AllowProtect (uid netId : Z)
| DenyProtect (uid netId : Z)
| SetNetworkAllowlist (rangeConfigs : list NativeUidRangeConfig).

Section Histories.
Context `{Platform}.

Definition execute (env : Env) (c : Command) (s : NetworkController)
  : NetworkController :=
  match c with
  | SetDefaultNetwork netId => (setDefaultNetwork env s netId).2
  | CreatePhysicalNetwork netId permission local =>
      (createPhysicalNetwork env s netId permission local).2
  | CreatePhysicalOemNetwork permission => (createPhysicalOemNetwork env s permission).2
  | CreateVirtualNetwork netId secure vpnType excl =>
      (createVirtualNetwork env s netId secure vpnType excl).2
  | DestroyNetwork netId => (destroyNetwork env s netId).2
  | AddInterfaceToNetwork netId iface => (addInterfaceToNetwork env s netId iface).2
  | RemoveInterfaceFromNetwork netId iface =>
      (removeInterfaceFromNetwork env s netId iface).2
  | SetPermissionForUsers permission uids => setPermissionForUsers s permission uids
  | SetPermissionForNetworks permission netIds =>
      (setPermissionForNetworks env s permission netIds).2
  | AddUsersToNetwork netId ranges subPriority =>
      (addUsersToNetwork env s netId ranges subPriority).2
  | RemoveUsersFromNetwork netId ranges subPriority =>
      (removeUsersFromNetwork env s netId ranges subPriority).2
  | AddInterfaceAddress ifIndex address => addInterfaceAddress s ifIndex address
  | RemoveInterfaceAddress ifIndex address => (removeInterfaceAddress s ifIndex address).2
  | AllowProtect uid netId => (allowProtect s uid netId).2
  | DenyProtect uid netId => (denyProtect s uid netId).2
  | SetNetworkAllowlist rangeConfigs => (setNetworkAllowlist s rangeConfigs).2
  end.

Definition run (history : list (Env * Command)) (s : NetworkController)
  : NetworkController :=
  fold_left (fun s step => execute step.1 step.2 s) history s.

(** The states the registry can be in: the constructor's, and what a
    command makes of one. *)
Inductive reachable : NetworkController -> Prop :=
| reachable_initial : reachable initial
| reachable_execute env c s : reachable s -> reachable (execute env c s).

End Histories.

(** ** The chain topology manager *)

Module Controllers.

Inductive IptablesTarget := V4 | V6 | V4V6.

#[global] Instance IptablesTarget_eq_dec : EqDecision IptablesTarget.
Proof. solve_decision. Defined.

(** The packet filter's restore facility in listing mode: the return code
    and the output of a command. *)
Definition Restore : Type := IptablesTarget -> string -> Z * string.

Definition nl : string := String "010"%char EmptyString.

(** The lines [std::getline] reads from a stream with the delimiter
    newline: a last line need not end in a newline, and nothing follows a
    final newline. *)
Fixpoint getlines (s : string) : list string :=
  match s with
  | EmptyString => []
  | String c rest =>
      if Ascii.eqb c "010"%char then EmptyString :: getlines rest
      else match getlines rest with
           | [] => [String c EmptyString]
           | l :: ls => String c l :: ls
           end
  end.

(** [stripPrefix p s] is what follows [p] in [s]. *)
Fixpoint stripPrefix (p s : string) : option string :=
  match p, s with
  | EmptyString, _ => Some s
  | String a p', String b s' => if Ascii.eqb a b then stripPrefix p' s' else None
  | String _ _, EmptyString => None
  end.

(** The longest prefix without a space, and what follows it. *)
Fixpoint spanNonSpace (s : string) : string * string :=
  match s with
  | EmptyString => (EmptyString, EmptyString)
  | String c rest =>
      if Ascii.eqb c " "%char then (EmptyString, s)
      else let '(w, r) := spanNonSpace rest in (String c w, r)
  end.

Definition isEmpty (s : string) : bool :=
  match s with EmptyString => true | _ => false end.

(** CHILD_CHAIN_REGEX, the extended regular expression
    [^-A ([^ ]+) -j ([^ ]+)$]: the two groups of a rule that matches.  A
    group is a non-empty run of characters other than the space; the first
    ends at the space before [-j], the second at the end of the rule. *)
Definition CHILD_CHAIN_REGEX (rule : string) : option (string * string) :=
  match stripPrefix "-A " rule with
  | None => None
  | Some r1 =>
      let '(g1, r2) := spanNonSpace r1 in
      if isEmpty g1 then None else
      match stripPrefix " -j " r2 with
      | None => None
      | Some r3 =>
          let '(g2, r4) := spanNonSpace r3 in
          if isEmpty g2 then None
          else if isEmpty r4 then Some (g1, g2) else None
      end
  end.

(** One round of the loop over the listed rules. *)
Definition noteChild (parentChain : string) (existing : gset string) (rule : string)
  : gset string :=
  match CHILD_CHAIN_REGEX rule with
  | Some (g1, g2) => if String.eqb g1 parentChain then {[g2]} ∪ existing else existing
  | None => existing
  end.

(** [None] is the call of [abort()]. *)
Definition findExistingChildChains (restore : Restore) (target : IptablesTarget)
    (table parentChain : string) : option (gset string) :=
  if bool_decide (target = V4V6) then None else
  let existing : gset string := ∅ in
  let command := "*" +:+ table +:+ nl +:+ "-S " +:+ parentChain +:+ nl
                 +:+ "COMMIT" +:+ nl in
  let '(ret, output) := restore target command in
  if ret =? -1 then Some existing
  else Some (fold_left (noteChild parentChain) (getlines output) existing).

(** One round of the loop over the child chains. *)
Definition appendChild (parentChain : string) (existingChildChains : gset string)
    (command childChain : string) : string :=
  let command := command +:+ ":" +:+ childChain +:+ " -" +:+ nl in
  if bool_decide (childChain ∉ existingChildChains)
  then command +:+ "-A " +:+ parentChain +:+ " -j " +:+ childChain +:+ nl
  else command.

(** The result is the command handed to [execIptablesRestore]; [None] is
    the call of [abort()]. *)
Definition createChildChains (restore : Restore) (target : IptablesTarget)
    (table parentChain : string) (childChains : list string) (exclusive : bool)
  : option string :=
  let command := "*" +:+ table +:+ nl in
  match (if exclusive
         then Some (command +:+ ":" +:+ parentChain +:+ " -" +:+ nl
                    +:+ "-F " +:+ parentChain +:+ nl, ∅)
         else match findExistingChildChains restore target table parentChain with
              | Some existing => Some (command, existing)
              | None => None
              end) with
  | None => None
  | Some (command, existingChildChains) =>
      let command :=
        fold_left (appendChild parentChain existingChildChains) childChains command in
      Some (command +:+ "COMMIT" +:+ nl)
  end.

(** *** The batch format *)

(** The rule forms of a batch: create-or-flush a chain, flush a built-in
    chain, link a child under its parent. *)
Definition createLine (chain : string) : string := ":" +:+ chain +:+ " -".
Definition flushLine (chain : string) : string := "-F " +:+ chain.
Definition linkLine (parent child : string) : string :=
  "-A " +:+ parent +:+ " -j " +:+ child.

(** The command that lists a chain. *)
Definition listingCommand (table parentChain : string) : string :=
  "*" +:+ table +:+ nl +:+ "-S " +:+ parentChain +:+ nl +:+ "COMMIT" +:+ nl.

(** The text whose lines are [ls], each ended by a newline. *)
Definition unlines (ls : list string) : string :=
  fold_right (fun l acc => l +:+ nl +:+ acc) EmptyString ls.

(** No character of [s] is [c]. *)
Fixpoint noneIs (c : ascii) (s : string) : bool :=
  match s with
  | EmptyString => true
  | String a rest => negb (Ascii.eqb a c) && noneIs c rest
  end.

Definition oneLine (s : string) : Prop := noneIs "010"%char s = true.

(** A chain name: not empty, without space and newline. *)
Definition validChain (name : string) : Prop :=
  name <> EmptyString /\ noneIs " "%char name = true /\ oneLine name.

Definition startsWith (p s : string) : bool :=
  match stripPrefix p s with Some _ => true | None => false end.

(** The lines a cooperative install emits for a child. *)
Definition childLines (parentChain : string) (existing : gset string)
    (childChain : string) : list string :=
  createLine childChain
  :: (if bool_decide (childChain ∉ existing) then [linkLine parentChain childChain]
      else []).

(** What can follow a run of characters other than the space: nothing, or
    a space. *)
Definition atBoundary (r : string) : Prop :=
  r = EmptyString \/ exists r', r = String " " r'.

End Controllers.

(** ** The access decision list of the specification *)

Section DecisionList.
Context `{Platform}.

(** A user holds the SYSTEM permission. *)
Definition hasSystem (permission : Z) : bool :=
  Z.land permission PERMISSION_SYSTEM =? PERMISSION_SYSTEM.

(** Some secure VPN applies to the uid. *)
Definition secureVpnApplies (s : NetworkController) (uid : Z) : bool :=
  existsb (fun e => isVirtual e.2 && isSecure e.2 && appliesTo e.2 uid)
          (map_to_list (mNetworks s)).

(** The uid may protect its sockets on the network: the protectable set
    holds the uid for any network or for this one. *)
Definition protectableOn (s : NetworkController) (uid netId : Z) : bool :=
  bool_decide ((uid, NETID_UNSET) ∈ mProtectableUsers s
               ∨ (uid, netId) ∈ mProtectableUsers s).

(** The nine steps of the access check, in the words of the
    specification. *)
Definition accessDecisionList (s : NetworkController) (uid netId : Z) : Z :=
  match mNetworks s !! netId with
  | None => NO_NETWORK
  | Some network =>
      if bool_decide (uid = INVALID_UID) then REMOTE_IO
      else if hasSystem (getPermissionForUserLocked s uid) then 0
      else if isVirtual network then
        (if appliesTo network uid then 0 else PERMISSION_DENIED)
      else if secureVpnApplies s uid && negb (protectableOn s uid netId)
      then PERMISSION_DENIED
      else if isPhysical network && appliesTo network uid then 0
      else if isUnreachable network then
        (if appliesTo network uid then 0 else PERMISSION_DENIED)
      else if negb (isUidAllowed network uid) then ACCESS_DENIED
      else if bool_decide (Z.land (getPermissionForUserLocked s uid)
                                  (getPermission network) = getPermission network)
      then 0
      else ACCESS_DENIED
  end.

(** The Virtual networks that apply to a uid. *)
Definition vpnsFor (s : NetworkController) (uid : Z) : list (Z * Network) :=
  List.filter (fun e => isVirtual e.2 && appliesTo e.2 uid)
              (map_to_list (mNetworks s)).

(** Invariant 4 of the data model: at most one Virtual network applies to
    a uid. *)
Definition atMostOneVpn (s : NetworkController) (uid : Z) : Prop :=
  (length (vpnsFor s uid) <= 1)%nat.

(** Where several Virtual networks apply to a uid, the one that decides:
    it applies to the uid and no Virtual network of a smaller netId
    does. *)
Definition decidingVpn (s : NetworkController) (uid : Z) (e : Z * Network) : bool :=
  isVirtual e.2 && appliesTo e.2 uid
  && forallb (fun e' : Z * Network =>
                negb (isVirtual e'.2 && appliesTo e'.2 uid) || (e.1 <=? e'.1))
             (map_to_list (mNetworks s)).

(** The Virtual network of the smallest netId among those that apply to
    the uid is secure. *)
Definition firstVpnSecure (s : NetworkController) (uid : Z) : bool :=
  existsb (fun e => decidingVpn s uid e && isSecure e.2) (map_to_list (mNetworks s)).

(** The decision list whose fifth step asks the Virtual network of the
    smallest netId among those that apply to the uid, where the
    specification asks whether some secure VPN applies. *)
Definition accessDecisionListInOrder (s : NetworkController) (uid netId : Z) : Z :=
  match mNetworks s !! netId with
  | None => NO_NETWORK
  | Some network =>
      if bool_decide (uid = INVALID_UID) then REMOTE_IO
      else if hasSystem (getPermissionForUserLocked s uid) then 0
      else if isVirtual network then
        (if appliesTo network uid then 0 else PERMISSION_DENIED)
      else if firstVpnSecure s uid && negb (protectableOn s uid netId)
      then PERMISSION_DENIED
      else if isPhysical network && appliesTo network uid then 0
      else if isUnreachable network then
        (if appliesTo network uid then 0 else PERMISSION_DENIED)
      else if negb (isUidAllowed network uid) then ACCESS_DENIED
      else if bool_decide (Z.land (getPermissionForUserLocked s uid)
                                  (getPermission network) = getPermission network)
      then 0
      else ACCESS_DENIED
  end.

End DecisionList.

(** ** Well-formed registries and default candidates *)

Section WellFormed.
Context `{Platform}.

(** A network nominates itself as the default of a uid at a subsidiary
    priority: it is Physical or Unreachable, applies to the uid, and the
    priority is below SUB_PRIORITY_NO_DEFAULT. *)
Definition defaultCandidate (uid : Z) (n : Network) (subPriority : Z) : Prop :=
  isPhysical n || isUnreachable n = true
  /\ appliesToUser n uid = Some subPriority
  /\ subPriority < SUB_PRIORITY_NO_DEFAULT.

(** The data model of the specification, as far as the registry keeps it
    by itself: a network is registered under its own netId, netIds are
    16-bit handles other than UNSET, and the default is UNSET or a
    registered Physical network. *)
Definition wellFormed (s : NetworkController) : Prop :=
  map_Forall (fun k n => getNetId n = k /\ 0 < k < 65536) (mNetworks s)
  /\ (mDefaultNetId s = NETID_UNSET
      \/ match mNetworks s !! mDefaultNetId s with
         | Some n => isPhysical n = true
         | None => False
         end).

(** What the registry needs of the constants of the platform: the
    sentinels and the OEM range are 16-bit handles other than UNSET. *)
Definition platformOk : Prop :=
  0 < LOCAL_NET_ID < 65536 /\ 0 < DUMMY_NET_ID < 65536
  /\ 0 < UNREACHABLE_NET_ID < 65536
  /\ 0 < MIN_OEM_ID /\ MAX_OEM_ID < 65536.

End WellFormed.

(** ** The ranges a list of configs assigns *)

(** The ranges that the configs of a list leave on a network whose
    allowlist was [ranges]: those of the last config that names the
    network, and [ranges] itself if none does. *)
Definition listedRanges (rangeConfigs : list NativeUidRangeConfig) (netId : Z)
    (ranges : UidRanges) : UidRanges :=
  fold_left (fun acc config =>
               if cfgNetId config =? netId then cfgUidRanges config else acc)
            rangeConfigs ranges.

(** Two values of a network between which its netId and its variant are
    the same. *)
Definition sameIdentity (n n' : Network) : Prop :=
  mNetId n' = mNetId n /\ mType n' = mType n.

(** ** Steps and reads *)

(** A step from [s] to [s'] that forgets no registered network and leaves
    the protectable users alone. *)
Definition keeps (s s' : NetworkController) : Prop :=
  (forall k, is_Some (mNetworks s !! k) -> is_Some (mNetworks s' !! k))
  /\ mProtectableUsers s' = mProtectableUsers s.


(** ** Sample data *)

(** The constants as the Android platform has them. *)
Definition android : Platform :=
  {| LOCAL_NET_ID := 99; DUMMY_NET_ID := 51; UNREACHABLE_NET_ID := 52;
     MIN_OEM_ID := 1; MAX_OEM_ID := 50;
     AID_VPN := 1016; FIRST_APPLICATION_UID := 10000;
     INVALID_UID := 4294967295;
     PERMISSION_SYSTEM := 3;
     VPN_TYPE_SERVICE := 1; VPN_TYPE_OEM_LEGACY := 6 |}.

(** An environment in which every request succeeds, no interface has an
    index and every network has name servers. *)
Definition quietEnv : Env :=
  {| kernel := fun _ => 0; getIfIndex := fun _ => 0;
     resolv_has_nameservers := fun _ => true |}.

(** Scenario S2 of the specification: the physical network 100 is the
    default and the secure VPN 101 applies to uid 10001. *)
Definition secureVpnHistory : list (Env * Command) :=
  [ (quietEnv, CreatePhysicalNetwork 100 PERMISSION_NONE false);
    (quietEnv, SetDefaultNetwork 100);
    (quietEnv, CreateVirtualNetwork 101 true 1 false);
    (quietEnv, AddUsersToNetwork 101 [ {| start := 10001; stop := 10001 |} ] 0) ].

Definition secureVpnState : NetworkController :=
  run (H := android) secureVpnHistory (initial (H := android)).

(** A registry whose OEM range is used up: fifty OEM networks were created
    on the Android platform. *)
Definition oemFullState : NetworkController :=
  run (H := android) (repeat (quietEnv, CreatePhysicalOemNetwork PERMISSION_NONE) 50)
      (initial (H := android)).

(** A registry with the physical network 100 and nothing else besides the
    sentinels. *)
Definition physicalState : NetworkController :=
  run (H := android) [ (quietEnv, CreatePhysicalNetwork 100 PERMISSION_NONE false) ]
      (initial (H := android)).

(** Two configs for the same network with different ranges. *)
Definition duplicateConfigs : list NativeUidRangeConfig :=
  [ {| cfgNetId := 100; cfgUidRanges := [ {| start := 1; stop := 1 |} ];
       cfgSubPriority := 0 |};
    {| cfgNetId := 100; cfgUidRanges := [ {| start := 2; stop := 2 |} ];
       cfgSubPriority := 0 |} ].

(** Scenario S5 of the specification: the interfaces tunA (index 10) and
    tunB (index 11) are in the VPN 101, and both carry the same address. *)
Definition tunEnv : Env :=
  {| kernel := fun _ => 0;
     getIfIndex := fun iface =>
       if String.eqb iface "tunA" then 10
       else if String.eqb iface "tunB" then 11 else 0;
     resolv_has_nameservers := fun _ => true |}.

Definition handoverState : NetworkController :=
  run (H := android)
      [ (tunEnv, CreateVirtualNetwork 101 false 1 false);
        (tunEnv, AddInterfaceToNetwork 101 "tunA");
        (tunEnv, AddInterfaceToNetwork 101 "tunB");
        (tunEnv, AddInterfaceAddress 10 "2001:db8::1");
        (tunEnv, AddInterfaceAddress 11 "2001:db8::1") ]
      (initial (H := android)).

(** Scenario S4 of the specification: filter OUTPUT already holds a vendor
    rule and the link of oem_out, and is installed with four children of
    which oem_out is the first. *)
Definition outputListing : Controllers.Restore :=
  fun _ _ => (0, Controllers.unlines [ "-P OUTPUT ACCEPT";
                                        "-A OUTPUT -j vendor_chain";
                                        "-A OUTPUT -j oem_out" ]).

Definition outputChildren : list string :=
  [ "oem_out"; "fw_OUTPUT"; "st_OUTPUT"; "bw_OUTPUT" ].

(** A registry outside the data model: the bypassable VPN 101 and the
    secure VPN 102 both apply to uid 10001. *)
Definition twoVpnState : NetworkController :=
  run (H := android)
      [ (quietEnv, CreatePhysicalNetwork 100 PERMISSION_NONE false);
        (quietEnv, CreateVirtualNetwork 101 false 1 false);
        (quietEnv, CreateVirtualNetwork 102 true 1 false);
        (quietEnv, AddUsersToNetwork 101 [ {| start := 10001; stop := 10001 |} ] 0);
        (quietEnv, AddUsersToNetwork 102 [ {| start := 10001; stop := 10001 |} ] 0) ]
      (initial (H := android)).

(** A registry in which uid 10003 has a default network of its own: the
    physical network 100 is the default of the device and the physical
    network 102 carries the uid at the subsidiary priority 0. *)
Definition appDefaultState : NetworkController :=
  run (H := android)
      [ (quietEnv, CreatePhysicalNetwork 100 PERMISSION_NONE false);
        (quietEnv, SetDefaultNetwork 100);
        (quietEnv, CreatePhysicalNetwork 102 PERMISSION_NONE false);
        (quietEnv, AddUsersToNetwork 102 [ {| start := 10003; stop := 10003 |} ] 0) ]
      (initial (H := android)).

(** ** Further entry points of the registry *)

(** struct android_net_context, as [getNetworkContext] fills it. *)
Record android_net_context := {
  app_netid : Z;
  app_mark : Z;
  dns_netid : Z;
  dns_mark : Z;
  ctx_uid : Z;
}.

(** RouteController.h: the kinds of routing table, and the three requests
    the registry forwards. *)
Inductive TableType := INTERFACE | LOCAL_NETWORK | LEGACY_NETWORK | LEGACY_SYSTEM.

Inductive RouteOperation := ROUTE_ADD | ROUTE_UPDATE | ROUTE_REMOVE.

Inductive RouteRequest :=
| RcAddRoute (interface destination nexthop : string) (tableType : TableType)
    (mtu priority : Z)
| RcUpdateRoute (interface destination nexthop : string) (tableType : TableType)
    (mtu : Z)
| RcRemoveRoute (interface destination nexthop : string) (tableType : TableType)
    (priority : Z).

Section EntryPoints.
Context `{Platform}.

(** The pointer to the context is taken to be non-null. *)
Definition getNetworkContext (env : Env) (s : NetworkController) (netId uid : Z)
  : android_net_context :=
  let explicitlySelected := negb (netId =? NETID_UNSET) in
  let nc_app_netid :=
    if negb explicitlySelected then getNetworkForConnectLocked s uid else netId in
  let fwmark := Fwmark.zero in
  let fwmark := Fwmark.set_netId fwmark nc_app_netid in
  let fwmark := Fwmark.set_explicitlySelected fwmark explicitlySelected in
  let fwmark :=
    Fwmark.set_protectedFromVpn fwmark
      (explicitlySelected && canProtectLocked s uid nc_app_netid) in
  let fwmark := Fwmark.set_permission fwmark (getPermissionForUserLocked s uid) in
  let '(nc_dns_mark, nc_dns_netid) := getNetworkForDnsLocked env s netId uid in
  {| app_netid := nc_app_netid; app_mark := Fwmark.intValue fwmark;
     dns_netid := nc_dns_netid; dns_mark := nc_dns_mark; ctx_uid := uid |}.

Definition getPermissionForUser := getPermissionForUserLocked.

Definition isVirtualNetwork := isVirtualNetworkLocked.

Definition getNetworkForInterface := getNetworkForInterfaceLocked.

(** The result is the return code and the request forwarded to the route
    controller, if any; [route] is the route controller's answer.  The
    registry is only read. *)
Definition modifyRoute (route : RouteRequest -> Z) (s : NetworkController)
    (netId : Z) (interface destination nexthop : string) (op : RouteOperation)
    (legacy : bool) (uid mtu : Z) : Z * option RouteRequest :=
  if negb (isValidNetworkLocked s netId) then (- ENONET, None) else
  let existingNetId := getNetworkForInterfaceLocked s interface in
  if existingNetId =? NETID_UNSET then (- ENODEV, None) else
  if negb (existingNetId =? netId) then (- ENOENT, None) else
  let tableType :=
    if netId =? LOCAL_NET_ID then LOCAL_NETWORK
    else if legacy then
      (if Z.land (getPermissionForUserLocked s uid) PERMISSION_SYSTEM
          =? PERMISSION_SYSTEM
       then LEGACY_SYSTEM else LEGACY_NETWORK)
    else INTERFACE in
  let request :=
    match op with
    | ROUTE_ADD => RcAddRoute interface destination nexthop tableType mtu 0
    | ROUTE_UPDATE => RcUpdateRoute interface destination nexthop tableType mtu
    | ROUTE_REMOVE => RcRemoveRoute interface destination nexthop tableType 0
    end in
  (route request, Some request).

Definition addRoute route s netId interface destination nexthop legacy uid mtu :=
  modifyRoute route s netId interface destination nexthop ROUTE_ADD legacy uid mtu.

Definition updateRoute route s netId interface destination nexthop legacy uid mtu :=
  modifyRoute route s netId interface destination nexthop ROUTE_UPDATE legacy uid mtu.

Definition removeRoute route s netId interface destination nexthop legacy uid :=
  modifyRoute route s netId interface destination nexthop ROUTE_REMOVE legacy uid 0.

(** DelegateImpl::modifyFallthrough for one physical interface: the loop
    over the registered networks, in key order. *)
Fixpoint delegateFallthroughOver (env : Env) (physicalInterface : string)
    (permission : Z) (add : bool) (entries : list (Z * Network)) : Z * list Effect :=
  match entries with
  | [] => (0, [])
  | entry :: rest =>
      if isVirtual entry.2 then
        let '(ret, evs) :=
          modifyFallthrough env entry.1 physicalInterface permission add in
        if negb (ret =? 0) then (ret, evs)
        else let '(ret', evs') :=
               delegateFallthroughOver env physicalInterface permission add rest in
             (ret', evs ++ evs')
      else delegateFallthroughOver env physicalInterface permission add rest
  end.

Definition delegateModifyFallthrough (env : Env) (s : NetworkController)
    (physicalInterface : string) (permission : Z) (add : bool) : Z * list Effect :=
  delegateFallthroughOver env physicalInterface permission add
    (inKeyOrder (mNetworks s)).

Definition delegateAddFallthrough env s physicalInterface permission :=
  delegateModifyFallthrough env s physicalInterface permission true.

Definition delegateRemoveFallthrough env s physicalInterface permission :=
  delegateModifyFallthrough env s physicalInterface permission false.

(** main.cpp: the resolver asks whether a uid may resolve names on the
    network of its context. *)
Definition evaluateDomainNameCallback (s : NetworkController)
    (netcontext : android_net_context) : bool :=
  if negb (NetworkController_isUidAllowed s (app_netid netcontext) (ctx_uid netcontext))
  then false else true.

End EntryPoints.

(** ** Invariants of the tables *)

Section TableInvariants.
Context `{Platform}.

(** No recorded address is without an interface, and the index zero is
    never recorded. *)
Definition addressesOk (s : NetworkController) : Prop :=
  map_Forall (fun _ (ifindices : gset Z) => ifindices <> ∅ /\ 0 ∉ ifindices)
             (mAddressToIfindices s).

(** The last netId of an interface is zero or a registered network other
    than the local one. *)
Definition lastNetIdsOk (s : NetworkController) : Prop :=
  map_Forall (fun _ netId =>
                netId = 0
                \/ (netId <> LOCAL_NET_ID /\ is_Some (mNetworks s !! netId)))
             (mIfindexToLastNetId s).

(** An interface name is held by at most one registered network. *)
Definition interfacesOk (s : NetworkController) : Prop :=
  forall k1 k2 n1 n2 iface,
    mNetworks s !! k1 = Some n1 -> mNetworks s !! k2 = Some n2 ->
    iface ∈ mInterfaces n1 -> iface ∈ mInterfaces n2 -> k1 = k2.

(** A step that leaves the table of last netIds and the table of
    addresses as they are. *)
Definition sameTables (s s' : NetworkController) : Prop :=
  mIfindexToLastNetId s' = mIfindexToLastNetId s
  /\ mAddressToIfindices s' = mAddressToIfindices s.

(** A step after which a network holds no interface that it did not hold
    before. *)
Definition noNewInterfaces (s s' : NetworkController) : Prop :=
  forall k n' iface,
    mNetworks s' !! k = Some n' -> iface ∈ mInterfaces n' ->
    exists n, mNetworks s !! k = Some n /\ iface ∈ mInterfaces n.

(** A step that forgets no network and changes the variant of none. *)
Definition keepsTypes (s s' : NetworkController) : Prop :=
  forall k n, mNetworks s !! k = Some n ->
              exists n', mNetworks s' !! k = Some n' /\ mType n' = mType n.

End TableInvariants.

(** ** The chains installed at startup *)

Module ControllersInit.
Import Controllers.

(** The lists of module chains.  Their members are names that other
    controllers define; the installation depends on the lists only. *)
Record ChildChainLists := {
  FILTER_INPUT : list string;
  FILTER_FORWARD : list string;
  FILTER_OUTPUT : list string;
  RAW_PREROUTING : list string;
  MANGLE_POSTROUTING : list string;
  MANGLE_INPUT : list string;
  MANGLE_FORWARD : list string;
  MANGLE_OUTPUT : list string;
  NAT_PREROUTING : list string;
  NAT_POSTROUTING : list string;
}.

(** One call of [createChildChains]. *)
Record ChildChainCall := {
  callTarget : IptablesTarget;
  callTable : string;
  callParent : string;
  callChildren : list string;
  callExclusive : bool;
}.

(** The calls of [initChildChains], in their order. *)
Definition childChainCalls (chains : ChildChainLists) : list ChildChainCall :=
  [ {| callTarget := V4V6; callTable := "filter"; callParent := "INPUT";
       callChildren := FILTER_INPUT chains; callExclusive := true |};
    {| callTarget := V4V6; callTable := "filter"; callParent := "FORWARD";
       callChildren := FILTER_FORWARD chains; callExclusive := true |};
    {| callTarget := V4V6; callTable := "raw"; callParent := "PREROUTING";
       callChildren := RAW_PREROUTING chains; callExclusive := true |};
    {| callTarget := V4V6; callTable := "mangle"; callParent := "FORWARD";
       callChildren := MANGLE_FORWARD chains; callExclusive := true |};
    {| callTarget := V4V6; callTable := "mangle"; callParent := "INPUT";
       callChildren := MANGLE_INPUT chains; callExclusive := true |};
    {| callTarget := V4V6; callTable := "mangle"; callParent := "OUTPUT";
       callChildren := MANGLE_OUTPUT chains; callExclusive := true |};
    {| callTarget := V4; callTable := "nat"; callParent := "PREROUTING";
       callChildren := NAT_PREROUTING chains; callExclusive := true |};
    {| callTarget := V4; callTable := "nat"; callParent := "POSTROUTING";
       callChildren := NAT_POSTROUTING chains; callExclusive := true |};
    {| callTarget := V4; callTable := "filter"; callParent := "OUTPUT";
       callChildren := FILTER_OUTPUT chains; callExclusive := false |};
    {| callTarget := V6; callTable := "filter"; callParent := "OUTPUT";
       callChildren := FILTER_OUTPUT chains; callExclusive := false |};
    {| callTarget := V4; callTable := "mangle"; callParent := "POSTROUTING";
       callChildren := MANGLE_POSTROUTING chains; callExclusive := false |};
    {| callTarget := V6; callTable := "mangle"; callParent := "POSTROUTING";
       callChildren := MANGLE_POSTROUTING chains; callExclusive := false |} ].

(** The calls one after the other: the commands handed to
    [execIptablesRestore] with their targets, or [None] if a call aborts;
    no call follows one that aborts. *)
Fixpoint runChildChainCalls (restore : Restore) (calls : list ChildChainCall)
  : option (list (IptablesTarget * string)) :=
  match calls with
  | [] => Some []
  | call :: rest =>
      match createChildChains restore (callTarget call) (callTable call)
              (callParent call) (callChildren call) (callExclusive call) with
      | None => None
      | Some command =>
          match runChildChainCalls restore rest with
          | None => None
          | Some commands => Some ((callTarget call, command) :: commands)
          end
      end
  end.

Definition initChildChains (restore : Restore) (chains : ChildChainLists)
  : option (list (IptablesTarget * string)) :=
  runChildChainCalls restore (childChainCalls chains).

End ControllersInit.

(** * Properties *)

(** ** Iteration in key order *)

Lemma elem_of_inKeyOrder (m : gmap Z Network) (k : Z) (n : Network) :
  (k, n) ∈ inKeyOrder m <-> m !! k = Some n.
Proof.
  unfold inKeyOrder. rewrite merge_sort_Permutation. apply elem_of_map_to_list.
Qed.

Lemma In_inKeyOrder (m : gmap Z Network) (e : Z * Network) :
  In e (inKeyOrder m) <-> m !! e.1 = Some e.2.
Proof.
  destruct e as [k n]. rewrite <- list_elem_of_In. apply elem_of_inKeyOrder.
Qed.

Lemma inKeyOrder_sorted (m : gmap Z Network) : Sorted keyLe (inKeyOrder m).
Proof.
  apply Sorted_merge_sort. intros a b. unfold keyLe. lia.
Qed.

(** In a list sorted by key, [find] returns an entry of the smallest key
    among those that satisfy the predicate. *)
Lemma find_sorted_first (p : Z * Network -> bool) (l : list (Z * Network)) e :
  Sorted keyLe l -> List.find p l = Some e ->
  forall e', e' ∈ l -> p e' = true -> e.1 <= e'.1.
Proof.
  intros Hs. apply Sorted_StronglySorted in Hs.
  2:{ intros a b c. unfold keyLe. lia. }
  induction Hs as [|a l Hs IH Hall]; simpl; [done|].
  destruct (p a) eqn:Hpa.
  - intros [= <-] e' Hin Hp. apply list_elem_of_In in Hin as [->|Hin]; [lia|].
    rewrite List.Forall_forall in Hall. by apply Hall.
  - intros Hf e' Hin Hp. apply list_elem_of_In in Hin as [->|Hin]; [congruence|].
    apply IH; [done| |done]. by apply list_elem_of_In.
Qed.

Section QueryFacts.
Context `{Platform}.

Lemma getVirtualNetworkForUserLocked_Some s uid v :
  getVirtualNetworkForUserLocked s uid = Some v ->
  exists k, mNetworks s !! k = Some v /\ isVirtual v = true /\ appliesTo v uid = true.
Proof.
  unfold getVirtualNetworkForUserLocked. intros Hf.
  destruct (List.find _ _) as [[k n]|] eqn:E; simpl in Hf; [|discriminate].
  injection Hf as ->. apply find_some in E as [Hin Hp].
  apply In_inKeyOrder in Hin. simpl in *.
  apply andb_true_iff in Hp as [? ?]. eauto.
Qed.

Lemma getVirtualNetworkForUserLocked_None s uid :
  getVirtualNetworkForUserLocked s uid = None ->
  forall k n, mNetworks s !! k = Some n -> isVirtual n && appliesTo n uid = false.
Proof.
  unfold getVirtualNetworkForUserLocked. intros Hf k n Hk.
  destruct (List.find _ _) as [e|] eqn:E; simpl in Hf; [discriminate|].
  apply (find_none _ _ E (k, n)). by apply In_inKeyOrder.
Qed.

Lemma secureVpnApplies_true s uid :
  secureVpnApplies s uid = true <->
  exists k n, mNetworks s !! k = Some n /\ isVirtual n = true
              /\ isSecure n = true /\ appliesTo n uid = true.
Proof.
  unfold secureVpnApplies. rewrite existsb_exists. split.
  - intros [[k n] [Hin Hp]]. apply list_elem_of_In, elem_of_map_to_list in Hin.
    simpl in Hp. apply andb_true_iff in Hp as [Hp ?].
    apply andb_true_iff in Hp as [? ?]. eauto 10.
  - intros (k & n & Hk & Hv & Hs & Ha). exists (k, n). split.
    + by apply list_elem_of_In, elem_of_map_to_list.
    + simpl. by rewrite Hv, Hs, Ha.
Qed.

Lemma atMostOneVpn_unique s uid i j ni nj :
  atMostOneVpn s uid ->
  mNetworks s !! i = Some ni -> mNetworks s !! j = Some nj ->
  isVirtual ni = true -> appliesTo ni uid = true ->
  isVirtual nj = true -> appliesTo nj uid = true ->
  i = j.
Proof.
  unfold atMostOneVpn, vpnsFor. intros Hlen Hi Hj Hvi Hai Hvj Haj.
  assert (In (i, ni) (List.filter (fun e => isVirtual e.2 && appliesTo e.2 uid)
                        (map_to_list (mNetworks s)))) as Hini.
  { apply filter_In. split; [by apply list_elem_of_In, elem_of_map_to_list|].
    simpl. by rewrite Hvi, Hai. }
  assert (In (j, nj) (List.filter (fun e => isVirtual e.2 && appliesTo e.2 uid)
                        (map_to_list (mNetworks s)))) as Hinj.
  { apply filter_In. split; [by apply list_elem_of_In, elem_of_map_to_list|].
    simpl. by rewrite Hvj, Haj. }
  destruct (List.filter _ _) as [|x [|y l]]; simpl in *; [tauto| |lia].
  destruct Hini as [E1|[]], Hinj as [E2|[]]. congruence.
Qed.

(** Where at most one VPN applies to a uid, a secure VPN applies to it
    exactly when the VPN the registry finds for it is secure. *)
Lemma secureVpnApplies_unique s uid :
  atMostOneVpn s uid ->
  secureVpnApplies s uid =
  match getVirtualNetworkForUserLocked s uid with
  | Some v => isSecure v
  | None => false
  end.
Proof.
  intros Huniq.
  destruct (getVirtualNetworkForUserLocked s uid) as [v|] eqn:E.
  - apply getVirtualNetworkForUserLocked_Some in E as (k & Hk & Hv & Ha).
    destruct (isSecure v) eqn:Hs.
    + apply secureVpnApplies_true. eauto 10.
    + apply not_true_is_false. intros Ht.
      apply secureVpnApplies_true in Ht as (k' & n & Hk' & Hv' & Hs' & Ha').
      assert (k' = k) as -> by eauto using atMostOneVpn_unique. congruence.
  - apply not_true_is_false. intros Ht.
    apply secureVpnApplies_true in Ht as (k' & n & Hk' & Hv' & Hs' & Ha').
    pose proof (getVirtualNetworkForUserLocked_None _ _ E _ _ Hk') as Hn.
    rewrite Hv', Ha' in Hn. discriminate.
Qed.

(** The Virtual network the registry finds for a uid is the one of the
    smallest netId among those that apply to it. *)
Lemma getVirtualNetworkForUserLocked_first s uid v :
  getVirtualNetworkForUserLocked s uid = Some v ->
  exists k, mNetworks s !! k = Some v /\ isVirtual v = true /\ appliesTo v uid = true
            /\ forall k' v', mNetworks s !! k' = Some v' -> isVirtual v' = true ->
                             appliesTo v' uid = true -> k <= k'.
Proof.
  unfold getVirtualNetworkForUserLocked. intros Hf.
  destruct (List.find _ _) as [[k n]|] eqn:E; simpl in Hf; [|discriminate].
  injection Hf as ->.
  pose proof (find_sorted_first _ _ _ (inKeyOrder_sorted _) E) as Hfirst.
  apply find_some in E as [Hin Hp].
  apply In_inKeyOrder in Hin. simpl in *.
  apply andb_true_iff in Hp as [? ?]. exists k. split; [done|].
  split; [done|]. split; [done|]. intros k' v' Hk' Hv' Ha'.
  apply (Hfirst (k', v')); [by apply elem_of_inKeyOrder|].
  simpl. by rewrite Hv', Ha'.
Qed.

Lemma decidingVpn_true s uid k v :
  mNetworks s !! k = Some v ->
  decidingVpn s uid (k, v) = true <->
  isVirtual v = true /\ appliesTo v uid = true
  /\ forall k' v', mNetworks s !! k' = Some v' -> isVirtual v' = true ->
                   appliesTo v' uid = true -> k <= k'.
Proof.
  intros Hk. unfold decidingVpn. simpl.
  rewrite !andb_true_iff, forallb_forall. split.
  - intros [[Hv Ha] Hall]. split; [done|]. split; [done|].
    intros k' v' Hk' Hv' Ha'.
    specialize (Hall (k', v')). simpl in Hall. rewrite Hv', Ha' in Hall.
    simpl in Hall. apply Z.leb_le, Hall.
    by apply list_elem_of_In, elem_of_map_to_list.
  - intros (Hv & Ha & Hmin). split; [done|]. intros [k' v'] Hin.
    apply list_elem_of_In, elem_of_map_to_list in Hin. simpl.
    destruct (isVirtual v' && appliesTo v' uid) eqn:Hp; [|done]. simpl.
    apply andb_true_iff in Hp as [? ?]. apply Z.leb_le. by apply (Hmin k' v').
Qed.

(** The Virtual network of the smallest netId that applies to a uid is
    the one the registry finds for it. *)
Lemma firstVpnSecure_found s uid :
  firstVpnSecure s uid =
  match getVirtualNetworkForUserLocked s uid with
  | Some v => isSecure v
  | None => false
  end.
Proof.
  destruct (getVirtualNetworkForUserLocked s uid) as [v|] eqn:E.
  - apply getVirtualNetworkForUserLocked_first in E as (k & Hk & Hv & Ha & Hmin).
    destruct (isSecure v) eqn:Hs.
    + unfold firstVpnSecure. apply existsb_exists. exists (k, v). split.
      * by apply list_elem_of_In, elem_of_map_to_list.
      * simpl. rewrite Hs, andb_true_r. by apply decidingVpn_true.
    + apply not_true_is_false. intros Ht. unfold firstVpnSecure in Ht.
      apply existsb_exists in Ht as ([k' v'] & Hin & Hp).
      apply list_elem_of_In, elem_of_map_to_list in Hin.
      apply andb_true_iff in Hp as [Hd Hs']. simpl in Hs'.
      apply (decidingVpn_true s uid k' v' Hin) in Hd as (Hv' & Ha' & Hmin').
      assert (k' = k) as -> by (specialize (Hmin k' v' Hin Hv' Ha');
                                specialize (Hmin' k v Hk Hv Ha); lia).
      rewrite Hk in Hin. injection Hin as <-. congruence.
  - apply not_true_is_false. intros Ht. unfold firstVpnSecure in Ht.
    apply existsb_exists in Ht as ([k' v'] & Hin & Hp).
    apply list_elem_of_In, elem_of_map_to_list in Hin.
    apply andb_true_iff in Hp as [Hd _].
    apply (decidingVpn_true s uid k' v' Hin) in Hd as (Hv' & Ha' & _).
    pose proof (getVirtualNetworkForUserLocked_None _ _ E _ _ Hin) as Hn.
    rewrite Hv', Ha' in Hn. discriminate.
Qed.

Lemma protectableOn_isProtectableLocked s uid netId :
  protectableOn s uid netId = isProtectableLocked s uid netId.
Proof.
  unfold protectableOn, isProtectableLocked.
  repeat case_bool_decide; simpl; tauto.
Qed.

End QueryFacts.

(** ** Access control *)

Section AccessControl.
Context `{Platform}.

(** C1, as the code has it: [checkUserNetworkAccess] returns, for every
    uid and netId, what the nine steps of the decision list return when
    the fifth step asks the Virtual network of the smallest netId among
    those that apply to the uid: NO_NETWORK for a netId that is not
    registered, REMOTE_IO for the invalid uid, success for a user with the
    SYSTEM permission, for a Virtual network success iff it applies to the
    uid and PERMISSION_DENIED otherwise, PERMISSION_DENIED if that first
    VPN is secure and the uid is not protectable on the network, success
    for a Physical network that applies to the uid, for the Unreachable
    network success iff it applies to the uid, ACCESS_DENIED if the
    allowlist denies the uid, and else success iff the user's permission
    bits cover the network's, with ACCESS_DENIED otherwise.  Where at most
    one Virtual network applies to the uid (invariant 4 of the data model)
    this is the list of the specification, whose fifth step asks whether
    some secure VPN applies.  The two differ only where the specification
    answers PERMISSION_DENIED while a VPN that is not secure applies to the
    uid with a smaller netId than a secure one. *)
Theorem checkUserNetworkAccess_decision_list s uid netId :
  checkUserNetworkAccess s uid netId = accessDecisionListInOrder s uid netId
  /\ (atMostOneVpn s uid ->
      checkUserNetworkAccess s uid netId = accessDecisionList s uid netId)
  /\ (checkUserNetworkAccess s uid netId <> accessDecisionList s uid netId ->
      accessDecisionList s uid netId = PERMISSION_DENIED
      /\ exists i j vi vj,
          mNetworks s !! i = Some vi /\ mNetworks s !! j = Some vj /\ i < j
          /\ isVirtual vi = true /\ appliesTo vi uid = true /\ isSecure vi = false
          /\ isVirtual vj = true /\ appliesTo vj uid = true /\ isSecure vj = true).
Proof.
  assert (Hcode : forall step5 : bool,
             step5 = match getVirtualNetworkForUserLocked s uid with
                     | Some v => isSecure v
                     | None => false
                     end ->
             checkUserNetworkAccess s uid netId =
             match mNetworks s !! netId with
             | None => NO_NETWORK
             | Some network =>
                 if bool_decide (uid = INVALID_UID) then REMOTE_IO
                 else if hasSystem (getPermissionForUserLocked s uid) then 0
                 else if isVirtual network then
                   (if appliesTo network uid then 0 else PERMISSION_DENIED)
                 else if step5 && negb (protectableOn s uid netId)
                 then PERMISSION_DENIED
                 else if isPhysical network && appliesTo network uid then 0
                 else if isUnreachable network then
                   (if appliesTo network uid then 0 else PERMISSION_DENIED)
                 else if negb (isUidAllowed network uid) then ACCESS_DENIED
                 else if bool_decide (Z.land (getPermissionForUserLocked s uid)
                                             (getPermission network)
                                      = getPermission network)
                 then 0
                 else ACCESS_DENIED
             end).
  { intros step5 ->.
    unfold checkUserNetworkAccess, checkUserNetworkAccessLocked.
    unfold getNetworkLocked, hasSystem.
    rewrite protectableOn_isProtectableLocked.
    destruct (mNetworks s !! netId) as [network|]; [|reflexivity].
    destruct (Z.eqb_spec uid INVALID_UID) as [->|Hne].
    - by rewrite bool_decide_eq_true_2.
    - rewrite (bool_decide_eq_false_2 _ Hne).
      destruct (Z.land _ PERMISSION_SYSTEM =? PERMISSION_SYSTEM); [reflexivity|].
      destruct (isVirtual network); [reflexivity|].
      assert ((match getVirtualNetworkForUserLocked s uid with
               | Some v => isSecure v && negb (isProtectableLocked s uid netId)
               | None => false
               end) =
              (match getVirtualNetworkForUserLocked s uid with
               | Some v => isSecure v
               | None => false
               end) && negb (isProtectableLocked s uid netId)) as ->.
      { by destruct (getVirtualNetworkForUserLocked s uid). }
      destruct (_ && negb _); [reflexivity|].
      destruct (isPhysical network && _); [reflexivity|].
      destruct (isUnreachable network); [reflexivity|].
      destruct (negb (isUidAllowed network uid)); [reflexivity|].
      destruct (Z.eqb_spec (Z.land (getPermissionForUserLocked s uid)
                                   (getPermission network)) (getPermission network)).
      + by rewrite bool_decide_eq_true_2.
      + by rewrite bool_decide_eq_false_2. }
  split; [|split].
  - exact (Hcode _ (firstVpnSecure_found s uid)).
  - intros Huniq. exact (Hcode _ (secureVpnApplies_unique s uid Huniq)).
  - rewrite (Hcode _ (firstVpnSecure_found s uid)). unfold accessDecisionList.
    intros Hdiff.
    destruct (mNetworks s !! netId) as [network|]; [|done].
    destruct (bool_decide (uid = INVALID_UID)); [done|].
    destruct (hasSystem (getPermissionForUserLocked s uid)); [done|].
    destruct (isVirtual network); [done|].
    destruct (negb (protectableOn s uid netId));
      [|by rewrite !andb_false_r in Hdiff].
    rewrite !andb_true_r in Hdiff. rewrite !andb_true_r.
    destruct (secureVpnApplies s uid) eqn:Hsome.
    2:{ destruct (firstVpnSecure s uid) eqn:Hfirst; [|done]. exfalso.
        rewrite firstVpnSecure_found in Hfirst.
        destruct (getVirtualNetworkForUserLocked s uid) as [v|] eqn:E; [|done].
        apply getVirtualNetworkForUserLocked_Some in E as (k & Hk & Hv & Ha).
        assert (secureVpnApplies s uid = true) as Hyes
          by (apply secureVpnApplies_true; eauto 10).
        congruence. }
    split; [done|].
    destruct (firstVpnSecure s uid) eqn:Hfirst; [done|].
    rewrite firstVpnSecure_found in Hfirst.
    apply secureVpnApplies_true in Hsome as (j & vj & Hj & Hvj & Hsj & Haj).
    destruct (getVirtualNetworkForUserLocked s uid) as [vi|] eqn:E.
    + apply getVirtualNetworkForUserLocked_first in E as (i & Hi & Hvi & Hai & Hmin).
      exists i, j, vi, vj. split; [done|]. split; [done|].
      split; [|by repeat split].
      pose proof (Hmin j vj Hj Hvj Haj) as Hle.
      destruct (decide (i = j)) as [->|Hne]; [|lia].
      rewrite Hi in Hj. injection Hj as <-. congruence.
    + pose proof (getVirtualNetworkForUserLocked_None _ _ E _ _ Hj) as Hn.
      rewrite Hvj, Haj in Hn. discriminate.
Qed.

End AccessControl.

(** Scenario S2: uid 10001 is under the secure VPN 101 and may not select
    the physical network 100. *)
Lemma checkUserNetworkAccess_decision_list_witness :
  atMostOneVpn secureVpnState 10001
  /\ checkUserNetworkAccess (H := android) secureVpnState 10001 100
     = accessDecisionList (H := android) secureVpnState 10001 100
  /\ accessDecisionList (H := android) secureVpnState 10001 100 = PERMISSION_DENIED.
Proof.
  assert (atMostOneVpn secureVpnState 10001) as Hone.
  { vm_compute. lia. }
  split; [exact Hone|]. split; [|vm_compute; reflexivity].
  exact (proj1 (proj2 (checkUserNetworkAccess_decision_list (H := android)
                         secureVpnState 10001 100)) Hone).
Defined.

(** Commands that every registry accepts lead outside the data model: with
    the bypassable VPN 101 and the secure VPN 102 on the same uid, the
    code lets the uid select the physical network 100, which the decision
    list of the specification denies. *)
Lemma checkUserNetworkAccess_two_vpns_counterexample :
  reachable (H := android) twoVpnState
  /\ checkUserNetworkAccess (H := android) twoVpnState 10001 100 = 0
  /\ accessDecisionList (H := android) twoVpnState 10001 100 = PERMISSION_DENIED
  /\ ~ (checkUserNetworkAccess (H := android) twoVpnState 10001 100
        = accessDecisionList (H := android) twoVpnState 10001 100).
Proof.
  split.
  { unfold twoVpnState, run. cbn [fold_left].
    repeat apply reachable_execute. apply reachable_initial. }
  split; [vm_compute; reflexivity|]. split; [vm_compute; reflexivity|].
  vm_compute. discriminate.
Qed.

(** ** Network selection *)

Section Selection.
Context `{Platform}.

Lemma bestStep_cases uid acc e :
  acc.2 <= SUB_PRIORITY_NO_DEFAULT ->
  (bestStep uid acc e = acc
   /\ forall p, defaultCandidate uid e.2 p -> acc.2 <= p)
  \/ (exists p, bestStep uid acc e = (Some e.2, p)
                /\ defaultCandidate uid e.2 p /\ p < acc.2).
Proof.
  intros Hacc. unfold bestStep, defaultCandidate.
  rewrite <- negb_orb.
  destruct (isPhysical e.2 || isUnreachable e.2) eqn:Hk; simpl.
  - destruct (appliesToUser e.2 uid) as [q|] eqn:Hq.
    + destruct (Z.eqb_spec q SUB_PRIORITY_NO_DEFAULT) as [->|Hne].
      * left. split; [done|]. intros p (_ & [= <-] & Hlt). lia.
      * destruct (Z.ltb_spec q acc.2) as [Hlt|Hge].
        -- right. exists q. split; [done|]. split; [|done].
           split; [done|]. split; [done|lia].
        -- left. split; [done|]. intros p (_ & [= <-] & ?). lia.
    + left. split; [done|]. intros p (_ & [=] & _).
  - left. split; [done|]. intros p ([=] & _).
Qed.

Lemma bestStep_fold uid (l : list (Z * Network)) (acc : option Network * Z) :
  acc.2 <= SUB_PRIORITY_NO_DEFAULT ->
  let r := fold_left (bestStep uid) l acc in
  r.2 <= acc.2
  /\ (forall e p, In e l -> defaultCandidate uid e.2 p -> r.2 <= p)
  /\ (r = acc
      \/ exists e, In e l /\ r.1 = Some e.2 /\ defaultCandidate uid e.2 r.2).
Proof.
  revert acc. induction l as [|e l IH]; intros acc Hacc; simpl.
  - split; [lia|]. split; [tauto|]. by left.
  - destruct (bestStep_cases uid acc e Hacc) as [[Heq Hno]|(p & Heq & Hc & Hlt)].
    + rewrite Heq. destruct (IH acc Hacc) as (Hle & Hmin & Hcase).
      split; [done|]. split.
      * intros e' p' [<-|Hin] Hc; [|by eapply Hmin].
        specialize (Hno _ Hc). lia.
      * destruct Hcase as [?|(e' & ? & ? & ?)]; [by left|right; eauto].
    + rewrite Heq.
      destruct (IH (Some e.2, p)) as (Hle & Hmin & Hcase); [simpl; lia|].
      simpl in *. split; [lia|]. split.
      * intros e' p' [<-|Hin] Hc'; [|by eapply Hmin].
        destruct Hc as (_ & Hp & _), Hc' as (_ & Hp' & _).
        rewrite Hp in Hp'. injection Hp' as <-. done.
      * right. destruct Hcase as [->|(e' & ? & ? & ?)]; [|eauto].
        exists e. simpl. eauto.
Qed.

(** The network found as the default of a uid is registered, nominates
    itself at some priority, and no registered network does so at a
    smaller one. *)
Lemma getPhysicalOrUnreachableNetworkForUserLocked_Some s uid n :
  getPhysicalOrUnreachableNetworkForUserLocked s uid = Some n ->
  exists k p,
    mNetworks s !! k = Some n /\ defaultCandidate uid n p
    /\ forall k' n' p', mNetworks s !! k' = Some n' ->
                        defaultCandidate uid n' p' -> p <= p'.
Proof.
  unfold getPhysicalOrUnreachableNetworkForUserLocked. intros Hr.
  destruct (bestStep_fold uid (inKeyOrder (mNetworks s))
              (None, SUB_PRIORITY_NO_DEFAULT)) as (_ & Hmin & Hcase); [simpl; lia|].
  destruct Hcase as [Heq|(e & Hin & He & Hc)].
  - rewrite Heq in Hr. discriminate.
  - rewrite He in Hr. injection Hr as <-.
    apply In_inKeyOrder in Hin. exists e.1, (fold_left (bestStep uid)
      (inKeyOrder (mNetworks s)) (None, SUB_PRIORITY_NO_DEFAULT)).2.
    split; [done|]. split; [done|].
    intros k' n' p' Hk' Hc'. apply (Hmin (k', n')); [|done].
    by apply In_inKeyOrder.
Qed.

Lemma getPhysicalOrUnreachableNetworkForUserLocked_None s uid :
  getPhysicalOrUnreachableNetworkForUserLocked s uid = None ->
  forall k n p, mNetworks s !! k = Some n -> ~ defaultCandidate uid n p.
Proof.
  unfold getPhysicalOrUnreachableNetworkForUserLocked. intros Hr k n p Hk Hc.
  destruct (bestStep_fold uid (inKeyOrder (mNetworks s))
              (None, SUB_PRIORITY_NO_DEFAULT)) as (_ & Hmin & Hcase); [simpl; lia|].
  destruct Hcase as [Heq|(e & Hin & He & _)].
  - assert (In (k, n) (inKeyOrder (mNetworks s))) as Hin by by apply In_inKeyOrder.
    specialize (Hmin _ _ Hin Hc). rewrite Heq in Hmin. simpl in Hmin.
    destruct Hc as (_ & _ & ?). lia.
  - rewrite He in Hr. discriminate.
Qed.

End Selection.

(** ** The firewall mark *)

Module FwmarkFacts.

Lemma intValue_split m :
  Fwmark.intValue m = Z.lor (Z.land (Fwmark.netId m) 65535) (Z.shiftl (Fwmark.high m) 16).
Proof.
  unfold Fwmark.intValue, Fwmark.high. f_equal.
  rewrite !Z.shiftl_lor, !Z.shiftl_shiftl by lia. reflexivity.
Qed.

Lemma low_bits n h :
  0 <= n < 65536 -> Z.land (Z.lor n (Z.shiftl h 16)) 65535 = n.
Proof.
  intros Hn. change 65535 with (Z.ones 16).
  rewrite Z.land_lor_distr_l, !Z.land_ones by lia.
  rewrite Z.shiftl_mul_pow2 by lia.
  rewrite Z.mod_mul by lia. rewrite Z.lor_0_r. apply Z.mod_small. lia.
Qed.

Lemma high_bits n h :
  0 <= n < 65536 -> Z.shiftr (Z.lor n (Z.shiftl h 16)) 16 = h.
Proof.
  intros Hn. rewrite Z.shiftr_lor, Z.shiftr_shiftl_l by lia.
  rewrite Z.shiftr_div_pow2 by lia. rewrite Z.div_small by lia.
  simpl. rewrite Z.shiftl_0_r. reflexivity.
Qed.

Lemma decode_split v :
  Fwmark.decode v =
  {| Fwmark.netId := Z.land v 65535;
     Fwmark.explicitlySelected := Z.testbit (Z.shiftr v 16) 0;
     Fwmark.protectedFromVpn := Z.testbit (Z.shiftr v 16) 1;
     Fwmark.permission := Z.land (Z.shiftr (Z.shiftr v 16) 2) 3 |}.
Proof.
  unfold Fwmark.decode. rewrite !Z.shiftr_spec by lia.
  rewrite Z.shiftr_shiftr by lia. reflexivity.
Qed.

(** Decoding the integer value of a mark gives back its fields, when the
    netId fits 16 bits and the permission 2 bits. *)
Lemma decode_intValue m :
  0 <= Fwmark.netId m < 65536 -> 0 <= Fwmark.permission m < 4 ->
  Fwmark.decode (Fwmark.intValue m) = m.
Proof.
  intros Hn Hp. rewrite decode_split, intValue_split.
  assert (Z.land (Fwmark.netId m) 65535 = Fwmark.netId m) as ->.
  { change 65535 with (Z.ones 16). rewrite Z.land_ones by lia.
    apply Z.mod_small. lia. }
  rewrite low_bits, high_bits by done.
  destruct m as [n e p perm]. simpl in *. unfold Fwmark.high. simpl.
  assert (perm = 0 \/ perm = 1 \/ perm = 2 \/ perm = 3) as Hc by lia.
  destruct Hc as [-> | [-> | [-> | ->]]]; destruct e, p; reflexivity.
Qed.

End FwmarkFacts.

Section Resolution.
Context `{Platform}.

Lemma wellFormed_lookup s k n :
  wellFormed s -> mNetworks s !! k = Some n -> getNetId n = k /\ 0 < k < 65536.
Proof. intros [Hall _] Hk. exact (Hall k n Hk). Qed.

Lemma wellFormed_default s :
  wellFormed s ->
  mDefaultNetId s = NETID_UNSET
  \/ exists n, mNetworks s !! mDefaultNetId s = Some n /\ isPhysical n = true.
Proof.
  intros [_ [Hd|Hd]]; [by left|right].
  destruct (mNetworks s !! mDefaultNetId s) as [n|]; [eauto|done].
Qed.

Lemma vpnsFor_nil s uid :
  vpnsFor s uid = [] <-> getVirtualNetworkForUserLocked s uid = None.
Proof.
  unfold vpnsFor. split.
  - intros Hnil.
    destruct (getVirtualNetworkForUserLocked s uid) as [v|] eqn:E; [|done].
    apply getVirtualNetworkForUserLocked_Some in E as (k & Hk & Hv & Ha).
    assert (In (k, v) (List.filter (fun e => isVirtual e.2 && appliesTo e.2 uid)
                         (map_to_list (mNetworks s)))) as Hin.
    { apply filter_In. split; [by apply list_elem_of_In, elem_of_map_to_list|].
      simpl. by rewrite Hv, Ha. }
    rewrite Hnil in Hin. destruct Hin.
  - intros Hnone.
    destruct (List.filter _ _) as [|[k n] l] eqn:E; [done|].
    assert (In (k, n) (List.filter (fun e => isVirtual e.2 && appliesTo e.2 uid)
                         (map_to_list (mNetworks s)))) as Hin.
    { rewrite E. by left. }
    apply filter_In in Hin as [Hin Hp].
    apply list_elem_of_In, elem_of_map_to_list in Hin. simpl in Hp.
    rewrite (getVirtualNetworkForUserLocked_None _ _ Hnone _ _ Hin) in Hp.
    discriminate.
Qed.

(** The netId a query without a netId is resolved to: the default network
    of the application if there is one, else the default of the device. *)
Lemma defaultNetId_range s uid :
  wellFormed s ->
  0 <= match getPhysicalOrUnreachableNetworkForUserLocked s uid with
       | Some n => getNetId n
       | None => mDefaultNetId s
       end < 65536.
Proof.
  intros Hwf.
  destruct (getPhysicalOrUnreachableNetworkForUserLocked s uid) as [n|] eqn:E.
  - apply getPhysicalOrUnreachableNetworkForUserLocked_Some in E
      as (k & p & Hk & _).
    destruct (wellFormed_lookup _ _ _ Hwf Hk) as [-> ?]. lia.
  - destruct (wellFormed_default _ Hwf) as [->|(n & Hn & _)].
    + unfold NETID_UNSET. lia.
    + destruct (wellFormed_lookup _ _ _ Hwf Hn). lia.
Qed.

(** C2: in a well-formed registry, for a DNS query that names no network
    (UNSET) by a uid to which no Virtual network applies,
    [getNetworkForDns] rewrites the netId as follows.  When some registered
    Physical or Unreachable network applies to the uid at a subsidiary
    priority below SUB_PRIORITY_NO_DEFAULT, the netId becomes that of such
    a network of the smallest priority, the default network of the
    application; when none does, it becomes the default netId of the
    device.  The mark returned decodes to exactly that netId,
    explicitlySelected and protectedFromVpn set, and the permission
    SYSTEM. *)
Theorem getNetworkForDns_unset_no_vpn env s uid :
  wellFormed s -> 0 <= PERMISSION_SYSTEM < 4 -> vpnsFor s uid = [] ->
  ((exists k n p, mNetworks s !! k = Some n /\ defaultCandidate uid n p) ->
   exists n0 p0,
     mNetworks s !! (getNetworkForDnsLocked env s NETID_UNSET uid).2 = Some n0
     /\ defaultCandidate uid n0 p0
     /\ forall k' n' p', mNetworks s !! k' = Some n' ->
                         defaultCandidate uid n' p' -> p0 <= p')
  /\ ((forall k n p, mNetworks s !! k = Some n -> ~ defaultCandidate uid n p) ->
      (getNetworkForDnsLocked env s NETID_UNSET uid).2 = getDefaultNetwork s)
  /\ Fwmark.decode (getNetworkForDnsLocked env s NETID_UNSET uid).1
     = {| Fwmark.netId := (getNetworkForDnsLocked env s NETID_UNSET uid).2;
          Fwmark.explicitlySelected := true;
          Fwmark.protectedFromVpn := true;
          Fwmark.permission := PERMISSION_SYSTEM |}.
Proof.
  intros Hwf Hperm Hnovpn.
  set (rewritten :=
         match getPhysicalOrUnreachableNetworkForUserLocked s uid with
         | Some appDefault => getNetId appDefault
         | None => getDefaultNetwork s
         end).
  pose proof (defaultNetId_range s uid Hwf) as Hrange.
  fold (getDefaultNetwork s) in Hrange. fold rewritten in Hrange.
  apply vpnsFor_nil in Hnovpn.
  assert (getNetworkForDnsLocked env s NETID_UNSET uid
          = (Fwmark.intValue
               (Fwmark.set_explicitlySelected
                  (Fwmark.set_netId
                     (Fwmark.set_permission
                        (Fwmark.set_protectedFromVpn Fwmark.zero true)
                        PERMISSION_SYSTEM) rewritten) true), rewritten)) as Hdns.
  { unfold getNetworkForDnsLocked. fold (getDefaultNetwork s). fold rewritten.
    rewrite Hnovpn. rewrite bool_decide_eq_true_2 by done.
    change (NETID_UNSET =? NETID_UNSET) with true. reflexivity. }
  rewrite Hdns. simpl fst. simpl snd. split; [|split].
  - intros (k & n & p & Hk & Hc). subst rewritten.
    destruct (getPhysicalOrUnreachableNetworkForUserLocked s uid) as [n0|] eqn:E.
    + apply getPhysicalOrUnreachableNetworkForUserLocked_Some in E
        as (k0 & p0 & Hk0 & Hc0 & Hmin).
      exists n0, p0. destruct (wellFormed_lookup _ _ _ Hwf Hk0) as [-> _]. done.
    + exfalso.
      exact (getPhysicalOrUnreachableNetworkForUserLocked_None _ _ E _ _ _ Hk Hc).
  - intros Hnone. subst rewritten.
    destruct (getPhysicalOrUnreachableNetworkForUserLocked s uid) as [n0|] eqn:E;
      [|reflexivity].
    apply getPhysicalOrUnreachableNetworkForUserLocked_Some in E
      as (k0 & p0 & Hk0 & Hc0 & _).
    destruct (Hnone _ _ _ Hk0 Hc0).
  - assert (Z.land rewritten 65535 = rewritten) as Hlow.
    { change 65535 with (Z.ones 16). rewrite Z.land_ones by lia.
      apply Z.mod_small. lia. }
    assert (Z.land PERMISSION_SYSTEM 3 = PERMISSION_SYSTEM) as Hp.
    { change 3 with (Z.ones 2). rewrite Z.land_ones by lia.
      apply Z.mod_small. lia. }
    rewrite FwmarkFacts.decode_intValue.
    + unfold Fwmark.set_explicitlySelected, Fwmark.set_netId, Fwmark.set_permission,
        Fwmark.set_protectedFromVpn. simpl. by rewrite Hlow, Hp.
    + simpl. rewrite Hlow. lia.
    + simpl. rewrite Hp. lia.
Qed.

End Resolution.

(** Uid 10003 is under no VPN and has the default network 102 of its own:
    its DNS queries go to 102 and not to the default 100 of the device. *)
Lemma getNetworkForDns_unset_no_vpn_witness :
  wellFormed appDefaultState
  /\ vpnsFor appDefaultState 10003 = []
  /\ (exists k n p, mNetworks appDefaultState !! k = Some n
                    /\ defaultCandidate 10003 n p)
  /\ (exists n0 p0,
        mNetworks appDefaultState
          !! (getNetworkForDnsLocked (H := android) quietEnv appDefaultState
                NETID_UNSET 10003).2 = Some n0
        /\ defaultCandidate 10003 n0 p0)
  /\ (getNetworkForDnsLocked (H := android) quietEnv appDefaultState NETID_UNSET 10003).2
     = 102
  /\ getDefaultNetwork appDefaultState = 100
  /\ Fwmark.decode
       (getNetworkForDnsLocked (H := android) quietEnv appDefaultState NETID_UNSET 10003).1
     = {| Fwmark.netId := 102; Fwmark.explicitlySelected := true;
          Fwmark.protectedFromVpn := true; Fwmark.permission := 3 |}.
Proof.
  assert (wellFormed appDefaultState) as Hwf.
  { split.
    - apply map_Forall_to_list. vm_compute. repeat constructor.
    - right. vm_compute. reflexivity. }
  assert (vpnsFor appDefaultState 10003 = []) as Hnone by (vm_compute; reflexivity).
  assert (0 <= PERMISSION_SYSTEM (Platform := android) < 4) as Hperm by (simpl; lia).
  assert (exists k n p, mNetworks appDefaultState !! k = Some n
                        /\ defaultCandidate 10003 n p) as Hcand.
  { exists 102. eexists. exists 0. split; [vm_compute; reflexivity|].
    split; [vm_compute; reflexivity|]. split; [vm_compute; reflexivity|].
    vm_compute. reflexivity. }
  assert ((getNetworkForDnsLocked (H := android) quietEnv appDefaultState
             NETID_UNSET 10003).2 = 102) as Hres by (vm_compute; reflexivity).
  destruct (getNetworkForDns_unset_no_vpn (H := android) quietEnv appDefaultState 10003
              Hwf Hperm Hnone) as (Happ & _ & Hmark).
  destruct (Happ Hcand) as (n0 & p0 & Hn0 & Hc0 & _).
  split; [exact Hwf|]. split; [exact Hnone|]. split; [exact Hcand|].
  split; [by exists n0, p0|]. split; [exact Hres|].
  split; [vm_compute; reflexivity|].
  rewrite Hmark, Hres. reflexivity.
Defined.

Section UserResolution.
Context `{Platform}.

Lemma virtual_not_candidate_kind (n : Network) :
  isVirtual n = true -> isPhysical n || isUnreachable n = false.
Proof.
  unfold isVirtual, isPhysical, isUnreachable. intros Hv.
  apply bool_decide_eq_true_1 in Hv. rewrite Hv.
  by rewrite !bool_decide_eq_false_2.
Qed.

(** C10: in a well-formed registry, [getNetworkForUser] returns the netId
    of a registered Virtual network that applies to the uid when there is
    one; otherwise, when some registered Physical or Unreachable network
    applies to the uid at a subsidiary priority below
    SUB_PRIORITY_NO_DEFAULT, the netId of such a network of the smallest
    priority; otherwise the default netId.  [getNetworkForConnect], on the
    same registry and uid, never returns the netId of a Virtual
    network. *)
Theorem getNetworkForUser_resolution s uid :
  wellFormed s ->
  (vpnsFor s uid <> [] ->
   exists v, mNetworks s !! getNetworkForUser s uid = Some v
             /\ isVirtual v = true /\ appliesTo v uid = true)
  /\ (vpnsFor s uid = [] ->
      ((exists k n p, mNetworks s !! k = Some n /\ defaultCandidate uid n p) ->
       exists n0 p0,
         mNetworks s !! getNetworkForUser s uid = Some n0
         /\ defaultCandidate uid n0 p0
         /\ forall k' n' p', mNetworks s !! k' = Some n' ->
                             defaultCandidate uid n' p' -> p0 <= p')
      /\ ((forall k n p, mNetworks s !! k = Some n -> ~ defaultCandidate uid n p) ->
          getNetworkForUser s uid = getDefaultNetwork s))
  /\ (forall k v, mNetworks s !! k = Some v -> isVirtual v = true ->
                  getNetworkForConnect s uid <> k).
Proof.
  intros Hwf. split; [|split].
  - intros Hvpn. unfold getNetworkForUser.
    destruct (getVirtualNetworkForUserLocked s uid) as [v|] eqn:E.
    + apply getVirtualNetworkForUserLocked_Some in E as (k & Hk & Hv & Ha).
      exists v. destruct (wellFormed_lookup _ _ _ Hwf Hk) as [-> _]. done.
    + apply vpnsFor_nil in E. done.
  - intros Hnovpn. apply vpnsFor_nil in Hnovpn.
    unfold getNetworkForUser. rewrite Hnovpn. split.
    + intros (k & n & p & Hk & Hc).
      destruct (getPhysicalOrUnreachableNetworkForUserLocked s uid) as [n0|] eqn:E.
      * apply getPhysicalOrUnreachableNetworkForUserLocked_Some in E
          as (k0 & p0 & Hk0 & Hc0 & Hmin).
        exists n0, p0. destruct (wellFormed_lookup _ _ _ Hwf Hk0) as [-> _]. done.
      * exfalso.
        exact (getPhysicalOrUnreachableNetworkForUserLocked_None _ _ E _ _ _ Hk Hc).
    + intros Hnone.
      destruct (getPhysicalOrUnreachableNetworkForUserLocked s uid) as [n0|] eqn:E;
        [|reflexivity].
      apply getPhysicalOrUnreachableNetworkForUserLocked_Some in E
        as (k0 & p0 & Hk0 & Hc0 & _).
      destruct (Hnone _ _ _ Hk0 Hc0).
  - intros k v Hk Hv.
    unfold getNetworkForConnect, getNetworkForConnectLocked.
    pose proof (virtual_not_candidate_kind _ Hv) as Hkind.
    destruct (getPhysicalOrUnreachableNetworkForUserLocked s uid) as [n0|] eqn:E.
    + apply getPhysicalOrUnreachableNetworkForUserLocked_Some in E
        as (k0 & p0 & Hk0 & (Hc0 & _) & _).
      destruct (wellFormed_lookup _ _ _ Hwf Hk0) as [-> _].
      intros ->. rewrite Hk in Hk0. injection Hk0 as <-. congruence.
    + destruct (wellFormed_default _ Hwf) as [->|(n & Hn & Hp)].
      * destruct (wellFormed_lookup _ _ _ Hwf Hk) as [_ ?].
        unfold NETID_UNSET. lia.
      * intros Heq. rewrite Heq, Hk in Hn. injection Hn as <-.
        rewrite Hp in Hkind. discriminate.
Qed.

End UserResolution.

(** Scenario S2: the users' resolution for uid 10001 is its VPN 101, while
    its connects go to the default network 100. *)
Lemma getNetworkForUser_resolution_witness :
  wellFormed secureVpnState
  /\ getNetworkForUser secureVpnState 10001 = 101
  /\ getNetworkForConnect secureVpnState 10001 = 100
  /\ (forall k v, mNetworks secureVpnState !! k = Some v -> isVirtual v = true ->
                  getNetworkForConnect secureVpnState 10001 <> k).
Proof.
  assert (wellFormed secureVpnState) as Hwf.
  { split.
    - apply map_Forall_to_list. vm_compute. repeat constructor.
    - right. vm_compute. reflexivity. }
  split; [exact Hwf|].
  split; [vm_compute; reflexivity|]. split; [vm_compute; reflexivity|].
  exact (proj2 (proj2 (getNetworkForUser_resolution secureVpnState 10001 Hwf))).
Defined.

(** ** What the commands leave alone *)

Section Frames.
Context `{Platform}.

Lemma keeps_refl s : keeps s s.
Proof. by split. Qed.

Lemma keeps_trans s1 s2 s3 : keeps s1 s2 -> keeps s2 s3 -> keeps s1 s3.
Proof. intros [? ?] [? ?]. split; [auto|congruence]. Qed.

Lemma keeps_emit s evs : keeps s (emit s evs).
Proof. by split. Qed.

Lemma keeps_putNetwork s k n : keeps s (putNetwork s k n).
Proof.
  split; [|done]. intros k' Hk'. simpl.
  destruct (decide (k = k')) as [->|Hne].
  - rewrite lookup_insert_eq. eauto.
  - by rewrite lookup_insert_ne.
Qed.

Lemma keeps_updateTcpSocketMonitorPolling s :
  keeps s (updateTcpSocketMonitorPolling s).
Proof. by split. Qed.

Lemma keeps_set_mDefaultNetId s v : keeps s (set_mDefaultNetId s v).
Proof. by split. Qed.

Lemma keeps_set_mUsers s v : keeps s (set_mUsers s v).
Proof. by split. Qed.

Lemma keeps_set_mIfindexToLastNetId s v : keeps s (set_mIfindexToLastNetId s v).
Proof. by split. Qed.

Lemma keeps_set_mAddressToIfindices s v : keeps s (set_mAddressToIfindices s v).
Proof. by split. Qed.

(** Peels the writes off the state on the right, outermost first. *)
Ltac keeps_step :=
  lazy beta iota delta [fst snd];
  repeat match goal with
    | |- keeps ?s ?s => apply keeps_refl
    | |- keeps _ (emit _ _) => eapply keeps_trans; [|apply keeps_emit]
    | |- keeps _ (putNetwork _ _ _) => eapply keeps_trans; [|apply keeps_putNetwork]
    | |- keeps _ (set_mDefaultNetId _ _) =>
        eapply keeps_trans; [|apply keeps_set_mDefaultNetId]
    | |- keeps _ (set_mUsers _ _) => eapply keeps_trans; [|apply keeps_set_mUsers]
    | |- keeps _ (set_mIfindexToLastNetId _ _) =>
        eapply keeps_trans; [|apply keeps_set_mIfindexToLastNetId]
    | |- keeps _ (set_mAddressToIfindices _ _) =>
        eapply keeps_trans; [|apply keeps_set_mAddressToIfindices]
    | |- keeps _ (updateTcpSocketMonitorPolling _) =>
        eapply keeps_trans; [|apply keeps_updateTcpSocketMonitorPolling]
    end;
  try eassumption.

Lemma keeps_setDefaultNetwork env s netId :
  keeps s (setDefaultNetwork env s netId).2.
Proof.
  unfold setDefaultNetwork, addAsDefault, removeAsDefault.
  repeat (case_match; simpl in *; simplify_eq); keeps_step.
Qed.

Lemma keeps_createPhysicalNetworkLocked env s netId permission local :
  keeps s (createPhysicalNetworkLocked env s netId permission local).2.
Proof.
  unfold createPhysicalNetworkLocked, setPermission.
  repeat (case_match; simpl in *; simplify_eq); keeps_step.
Qed.

Lemma keeps_createPhysicalOemNetwork env s permission :
  keeps s (createPhysicalOemNetwork env s permission).2.
Proof.
  unfold createPhysicalOemNetwork.
  destruct (MAX_OEM_ID <? _); [apply keeps_refl|].
  pose proof (keeps_createPhysicalNetworkLocked env s
                (scanOemIds s (Z.to_nat (MAX_OEM_ID + 1 - MIN_OEM_ID)) MIN_OEM_ID)
                permission false) as Hk.
  by destruct (createPhysicalNetworkLocked _ _ _ _ _).
Qed.

Lemma keeps_modifyFallthroughLocked env s vpnNetId add :
  keeps s (modifyFallthroughLocked env s vpnNetId add).2.
Proof.
  unfold modifyFallthroughLocked.
  repeat (case_match; simpl in *; simplify_eq); keeps_step.
Qed.

Lemma keeps_createVirtualNetwork env s netId secure vpnType excl :
  keeps s (createVirtualNetwork env s netId secure vpnType excl).2.
Proof.
  unfold createVirtualNetwork.
  pose proof (keeps_modifyFallthroughLocked env s netId true) as Hk.
  repeat (case_match; simpl in *; simplify_eq); keeps_step.
Qed.

Lemma keeps_addInterfaceToNetwork env s netId iface :
  keeps s (addInterfaceToNetwork env s netId iface).2.
Proof.
  unfold addInterfaceToNetwork, addInterface.
  repeat (case_match; simpl in *; simplify_eq); keeps_step.
Qed.

Lemma keeps_removeInterfaceFromNetwork env s netId iface :
  keeps s (removeInterfaceFromNetwork env s netId iface).2.
Proof.
  unfold removeInterfaceFromNetwork, removeInterface.
  repeat (case_match; simpl in *; simplify_eq); keeps_step.
Qed.

Lemma keeps_setPermissionForUsers s permission uids :
  keeps s (setPermissionForUsers s permission uids).
Proof.
  unfold setPermissionForUsers. revert s.
  induction uids as [|uid uids IH]; intros s; simpl; [apply keeps_refl|].
  eapply keeps_trans; [|apply IH]. apply keeps_set_mUsers.
Qed.

Lemma keeps_setPermissionForNetworks env s permission netIds :
  keeps s (setPermissionForNetworks env s permission netIds).2.
Proof.
  revert s. induction netIds as [|netId netIds IH]; intros s; simpl;
    [apply keeps_refl|].
  unfold setPermission.
  repeat (case_match; simpl in *; simplify_eq);
    try (eapply keeps_trans; [|apply IH]); keeps_step.
Qed.

Lemma keeps_addUsersToNetwork env s netId ranges subPriority :
  keeps s (addUsersToNetwork env s netId ranges subPriority).2.
Proof.
  unfold addUsersToNetwork, addUsers.
  repeat (case_match; simpl in *; simplify_eq); keeps_step.
Qed.

Lemma keeps_removeUsersFromNetwork env s netId ranges subPriority :
  keeps s (removeUsersFromNetwork env s netId ranges subPriority).2.
Proof.
  unfold removeUsersFromNetwork, removeUsers.
  repeat (case_match; simpl in *; simplify_eq); keeps_step.
Qed.

Lemma keeps_addInterfaceAddress s ifIndex address :
  keeps s (addInterfaceAddress s ifIndex address).
Proof. unfold addInterfaceAddress. case_match; keeps_step. Qed.

Lemma keeps_removeInterfaceAddress s ifIndex address :
  keeps s (removeInterfaceAddress s ifIndex address).2.
Proof.
  unfold removeInterfaceAddress.
  repeat (case_match; simpl in *; simplify_eq); keeps_step.
Qed.

Lemma keeps_clearAllowedUidsForAllNetworksLocked s :
  keeps s (clearAllowedUidsForAllNetworksLocked s).
Proof.
  split; [|done]. intros k. simpl. rewrite lookup_fmap.
  intros [n ->]. simpl. eauto.
Qed.

Lemma keeps_applyAllowlists s rangeConfigs :
  keeps s (fold_left applyAllowlist rangeConfigs s).
Proof.
  revert s. induction rangeConfigs as [|c l IH]; intros s; simpl;
    [apply keeps_refl|].
  eapply keeps_trans; [|apply IH]. unfold applyAllowlist.
  case_match; keeps_step.
Qed.

Lemma keeps_setNetworkAllowlist s rangeConfigs :
  keeps s (setNetworkAllowlist s rangeConfigs).2.
Proof.
  unfold setNetworkAllowlist. case_match; simpl; [apply keeps_refl|].
  eapply keeps_trans; [apply keeps_clearAllowedUidsForAllNetworksLocked|].
  apply keeps_applyAllowlists.
Qed.

(** Destroying a network forgets that network only, and never LOCAL or
    UNREACHABLE. *)
Lemma destroyNetwork_keeps env s netId :
  (forall k, k <> netId \/ k = LOCAL_NET_ID \/ k = UNREACHABLE_NET_ID ->
             is_Some (mNetworks s !! k) ->
             is_Some (mNetworks (destroyNetwork env s netId).2 !! k))
  /\ mProtectableUsers (destroyNetwork env s netId).2 = mProtectableUsers s.
Proof.
  unfold destroyNetwork.
  destruct (Z.eqb_spec netId LOCAL_NET_ID) as [->|Hl]; [by split|].
  destruct (Z.eqb_spec netId UNREACHABLE_NET_ID) as [->|Hu]; [by split|].
  simpl orb. cbv iota.
  destruct (isValidNetworkLocked s netId); simpl negb; cbv iota; [|by split].
  destruct (getNetworkLocked s netId) as [network|]; [|by split].
  destruct (clearInterfaces env network) as [[ret network'] evs].
  set (s1 := emit (putNetwork s netId network') evs).
  assert (keeps s s1) as Hs1 by (unfold s1; keeps_step).
  assert (forall (r : Z) s2, keeps s s2 ->
    (forall k, k <> netId \/ k = LOCAL_NET_ID \/ k = UNREACHABLE_NET_ID ->
       is_Some (mNetworks s !! k) ->
       is_Some (mNetworks (r, updateTcpSocketMonitorPolling
          (set_mIfindexToLastNetId (set_mNetworks s2 (delete netId (mNetworks s2)))
             (filter (fun kv => kv.2 ≠ netId)
                (mIfindexToLastNetId (set_mNetworks s2 (delete netId (mNetworks s2))))))).2 !! k))
    /\ mProtectableUsers (r, updateTcpSocketMonitorPolling
          (set_mIfindexToLastNetId (set_mNetworks s2 (delete netId (mNetworks s2)))
             (filter (fun kv => kv.2 ≠ netId)
                (mIfindexToLastNetId (set_mNetworks s2 (delete netId (mNetworks s2))))))).2
        = mProtectableUsers s) as Hfinish.
  { intros r s2 [Hdom Hprot]. simpl. split; [|done].
    intros k Hk Hsome. rewrite lookup_delete_ne; [by apply Hdom|].
    destruct Hk as [?|[->| ->]]; congruence. }
  destruct (mDefaultNetId s1 =? netId).
  - destruct (removeAsDefault env network') as [[err network''] evs2].
    apply (Hfinish _ (set_mDefaultNetId (emit (putNetwork s1 netId network'') evs2)
                        NETID_UNSET)).
    eapply keeps_trans; [exact Hs1|]. keeps_step.
  - destruct (isVirtual network').
    + pose proof (keeps_modifyFallthroughLocked env s1 netId false) as Hk.
      destruct (modifyFallthroughLocked env s1 netId false) as [err s2].
      apply (Hfinish _ s2). eapply keeps_trans; [exact Hs1|exact Hk].
    + by apply (Hfinish _ s1).
Qed.

End Frames.

(** ** Histories *)

Section HistoryFacts.
Context `{Platform}.

Lemma execute_registered env c s k :
  k = LOCAL_NET_ID \/ k = UNREACHABLE_NET_ID ->
  is_Some (mNetworks s !! k) -> is_Some (mNetworks (execute env c s) !! k).
Proof.
  intros Hk. destruct c; simpl.
  - apply keeps_setDefaultNetwork.
  - apply keeps_createPhysicalNetworkLocked.
  - apply keeps_createPhysicalOemNetwork.
  - apply keeps_createVirtualNetwork.
  - apply destroyNetwork_keeps. by right.
  - apply keeps_addInterfaceToNetwork.
  - apply keeps_removeInterfaceFromNetwork.
  - apply keeps_setPermissionForUsers.
  - apply keeps_setPermissionForNetworks.
  - apply keeps_addUsersToNetwork.
  - apply keeps_removeUsersFromNetwork.
  - apply keeps_addInterfaceAddress.
  - apply keeps_removeInterfaceAddress.
  - unfold allowProtect. by case_match.
  - unfold denyProtect. by case_match.
  - apply keeps_setNetworkAllowlist.
Qed.

Lemma execute_protectable env c s (uid netId : Z) :
  (uid, netId) ∈ mProtectableUsers s -> c <> DenyProtect uid netId ->
  (uid, netId) ∈ mProtectableUsers (execute env c s).
Proof.
  intros Hin Hc. destruct c; simpl.
  - by rewrite (proj2 (keeps_setDefaultNetwork _ _ _)).
  - by rewrite (proj2 (keeps_createPhysicalNetworkLocked _ _ _ _ _)).
  - by rewrite (proj2 (keeps_createPhysicalOemNetwork _ _ _)).
  - by rewrite (proj2 (keeps_createVirtualNetwork _ _ _ _ _ _)).
  - by rewrite (proj2 (destroyNetwork_keeps _ _ _)).
  - by rewrite (proj2 (keeps_addInterfaceToNetwork _ _ _ _)).
  - by rewrite (proj2 (keeps_removeInterfaceFromNetwork _ _ _ _)).
  - by rewrite (proj2 (keeps_setPermissionForUsers _ _ _)).
  - by rewrite (proj2 (keeps_setPermissionForNetworks _ _ _ _)).
  - by rewrite (proj2 (keeps_addUsersToNetwork _ _ _ _ _)).
  - by rewrite (proj2 (keeps_removeUsersFromNetwork _ _ _ _ _)).
  - by rewrite (proj2 (keeps_addInterfaceAddress _ _ _)).
  - by rewrite (proj2 (keeps_removeInterfaceAddress _ _ _)).
  - unfold allowProtect. case_match; simpl; set_solver.
  - unfold denyProtect. case_match; simpl; [|done].
    apply elem_of_difference. split; [done|].
    rewrite elem_of_singleton. intros [= -> ->]. done.
  - by rewrite (proj2 (keeps_setNetworkAllowlist _ _)).
Qed.

Lemma run_registered history s k :
  k = LOCAL_NET_ID \/ k = UNREACHABLE_NET_ID ->
  is_Some (mNetworks s !! k) -> is_Some (mNetworks (run history s) !! k).
Proof.
  intros Hk. revert s. induction history as [|[env c] history IH]; intros s Hs;
    simpl; [done|].
  apply IH. by apply execute_registered.
Qed.

Lemma run_protectable history s (uid netId : Z) :
  Forall (fun step : Env * Command => step.2 <> DenyProtect uid netId) history ->
  (uid, netId) ∈ mProtectableUsers s ->
  (uid, netId) ∈ mProtectableUsers (run history s).
Proof.
  intros Hall. revert s. induction Hall as [|[env c] history Hc _ IH]; intros s Hs;
    simpl; [done|].
  apply IH. by apply execute_protectable.
Qed.

Lemma run_reachable history s : reachable s -> reachable (run history s).
Proof.
  revert s. induction history as [|[env c] history IH]; intros s Hs; simpl; [done|].
  apply IH. by constructor.
Qed.

(** C3, as the code has it: the three sentinel networks LOCAL, DUMMY and
    UNREACHABLE are registered by the constructor; [destroyNetwork]
    refuses LOCAL and UNREACHABLE with the nonzero code -EINVAL and leaves
    the registry as it is; and LOCAL and UNREACHABLE are registered after
    every history of commands. *)
Theorem sentinels_LOCAL_UNREACHABLE_permanent :
  (is_Some (mNetworks initial !! LOCAL_NET_ID)
   /\ is_Some (mNetworks initial !! DUMMY_NET_ID)
   /\ is_Some (mNetworks initial !! UNREACHABLE_NET_ID))
  /\ (forall env s, destroyNetwork env s LOCAL_NET_ID = (- EINVAL, s))
  /\ (forall env s, destroyNetwork env s UNREACHABLE_NET_ID = (- EINVAL, s))
  /\ - EINVAL <> 0
  /\ (forall history,
        is_Some (mNetworks (run history initial) !! LOCAL_NET_ID)
        /\ is_Some (mNetworks (run history initial) !! UNREACHABLE_NET_ID)).
Proof.
  assert (is_Some (mNetworks initial !! LOCAL_NET_ID)
          /\ is_Some (mNetworks initial !! DUMMY_NET_ID)
          /\ is_Some (mNetworks initial !! UNREACHABLE_NET_ID)) as Hinit.
  { simpl. rewrite !lookup_insert_is_Some'. tauto. }
  split; [exact Hinit|]. split; [|split; [|split]].
  - intros env s. unfold destroyNetwork. by rewrite Z.eqb_refl.
  - intros env s. unfold destroyNetwork. by rewrite Z.eqb_refl, orb_true_r.
  - done.
  - intros history. split; apply run_registered; tauto.
Qed.

(** C9, as the code has it: the protectable set of a fresh registry holds
    (AID_VPN, UNSET); wherever that entry is present [canProtect] grants
    AID_VPN every netId, whether or not the permission of AID_VPN has the
    SYSTEM bits; the entry is present after every history that has no
    [denyProtect(AID_VPN, UNSET)], and that call, which succeeds where the
    entry is present, removes it.  After the call [canProtect] grants
    AID_VPN a netId exactly when the permission of AID_VPN has the SYSTEM
    bits or the set holds the entry of AID_VPN for that netId.  In a fresh
    registry AID_VPN has the SYSTEM permission by default when it is below
    FIRST_APPLICATION_UID, and then it can protect on every netId after the
    call as well; when it is not below FIRST_APPLICATION_UID, and SYSTEM is
    not the empty permission, it can protect on none. *)
Theorem AID_VPN_can_protect :
  (AID_VPN, NETID_UNSET) ∈ mProtectableUsers initial
  /\ (forall s netId,
        (AID_VPN, NETID_UNSET) ∈ mProtectableUsers s ->
        canProtect s AID_VPN netId = true)
  /\ (forall history netId,
        Forall (fun step : Env * Command =>
                  step.2 <> DenyProtect AID_VPN NETID_UNSET) history ->
        canProtect (run history initial) AID_VPN netId = true)
  /\ (forall s, (AID_VPN, NETID_UNSET)
                  ∉ mProtectableUsers (denyProtect s AID_VPN NETID_UNSET).2)
  /\ (forall s, (AID_VPN, NETID_UNSET) ∈ mProtectableUsers s ->
                (denyProtect s AID_VPN NETID_UNSET).1 = 0)
  /\ (forall s netId,
        canProtect (denyProtect s AID_VPN NETID_UNSET).2 AID_VPN netId = true <->
        hasSystem (getPermissionForUser s AID_VPN) = true
        \/ (netId <> NETID_UNSET /\ (AID_VPN, netId) ∈ mProtectableUsers s))
  /\ (AID_VPN < FIRST_APPLICATION_UID ->
      hasSystem (getPermissionForUser initial AID_VPN) = true
      /\ forall netId,
          canProtect (denyProtect initial AID_VPN NETID_UNSET).2 AID_VPN netId = true)
  /\ (FIRST_APPLICATION_UID <= AID_VPN -> PERMISSION_SYSTEM <> 0 ->
      hasSystem (getPermissionForUser initial AID_VPN) = false
      /\ forall netId,
          canProtect (denyProtect initial AID_VPN NETID_UNSET).2 AID_VPN netId
          = false).
Proof.
  assert (Hgrant : forall s netId,
             (AID_VPN, NETID_UNSET) ∈ mProtectableUsers s ->
             canProtect s AID_VPN netId = true).
  { intros s netId Hin. unfold canProtect, canProtectLocked, isProtectableLocked.
    destruct (_ =? _); [done|]. by rewrite bool_decide_eq_true_2. }
  assert (Hinit : (AID_VPN, NETID_UNSET) ∈ mProtectableUsers initial).
  { simpl. by apply elem_of_singleton. }
  assert (Hafter : forall s netId,
             canProtect (denyProtect s AID_VPN NETID_UNSET).2 AID_VPN netId = true <->
             hasSystem (getPermissionForUser s AID_VPN) = true
             \/ (netId <> NETID_UNSET /\ (AID_VPN, netId) ∈ mProtectableUsers s)).
  { intros s netId.
    assert (Hperm : getPermissionForUserLocked (denyProtect s AID_VPN NETID_UNSET).2
                      AID_VPN = getPermissionForUserLocked s AID_VPN).
    { unfold denyProtect. by destruct (bool_decide _). }
    assert (Hset : forall k,
               (AID_VPN, k) ∈ mProtectableUsers (denyProtect s AID_VPN NETID_UNSET).2
               <-> k <> NETID_UNSET /\ (AID_VPN, k) ∈ mProtectableUsers s).
    { intros k. unfold denyProtect.
      destruct (decide ((AID_VPN, NETID_UNSET) ∈ mProtectableUsers s)) as [Hin|Hnot].
      - rewrite bool_decide_eq_true_2 by done. simpl.
        rewrite elem_of_difference, elem_of_singleton. split.
        + intros [Hk Hne]. split; [|done]. intros ->. by apply Hne.
        + intros [Hne Hk]. split; [done|]. intros [= ->]. done.
      - rewrite bool_decide_eq_false_2 by done. simpl. split.
        + intros Hk. split; [|done]. intros ->. done.
        + by intros [_ ?]. }
    unfold canProtect, canProtectLocked, isProtectableLocked, getPermissionForUser,
      hasSystem.
    rewrite Hperm.
    destruct (Z.land (getPermissionForUserLocked s AID_VPN) PERMISSION_SYSTEM
              =? PERMISSION_SYSTEM); [by split; auto|].
    rewrite orb_true_iff, !bool_decide_eq_true, !Hset. split.
    - intros [[? _]|?]; [done|by right].
    - intros [?|?]; [done|by right]. }
  split; [exact Hinit|]. split; [exact Hgrant|]. split; [|split; [|split]].
  - intros history netId Hall. apply Hgrant. by apply run_protectable.
  - intros s. unfold denyProtect.
    destruct (decide ((AID_VPN, NETID_UNSET) ∈ mProtectableUsers s)).
    + rewrite bool_decide_eq_true_2 by done. simpl.
      intros Hin. apply elem_of_difference in Hin as [_ Hn].
      apply Hn. by apply elem_of_singleton.
    + by rewrite bool_decide_eq_false_2.
  - intros s Hin. unfold denyProtect. by rewrite bool_decide_eq_true_2.
  - split; [exact Hafter|]. split.
    + intros Hlow.
      assert (hasSystem (getPermissionForUser initial AID_VPN) = true) as Hsys.
      { unfold hasSystem, getPermissionForUser, getPermissionForUserLocked. simpl.
        rewrite lookup_empty. apply Z.ltb_lt in Hlow. rewrite Hlow.
        rewrite Z.land_diag. apply Z.eqb_refl. }
      split; [exact Hsys|]. intros netId. apply Hafter. by left.
    + intros Hhigh Hnonzero.
      assert (hasSystem (getPermissionForUser initial AID_VPN) = false) as Hsys.
      { unfold hasSystem, getPermissionForUser, getPermissionForUserLocked. simpl.
        rewrite lookup_empty. apply Z.ltb_ge in Hhigh. rewrite Hhigh.
        unfold PERMISSION_NONE. rewrite Z.land_0_l. apply Z.eqb_neq. congruence. }
      split; [exact Hsys|]. intros netId. apply not_true_is_false. intros Hcan.
      apply Hafter in Hcan as [?|[Hne Hin]]; [congruence|].
      simpl in Hin. apply elem_of_singleton in Hin. congruence.
Qed.

End HistoryFacts.

(** On the Android platform the DUMMY network of a fresh registry is
    destroyed like any other network. *)
Lemma destroyNetwork_DUMMY_counterexample :
  (destroyNetwork (H := android) quietEnv (initial (H := android))
     (DUMMY_NET_ID (Platform := android))).1 = 0
  /\ mNetworks (destroyNetwork (H := android) quietEnv (initial (H := android))
                  (DUMMY_NET_ID (Platform := android))).2
     !! DUMMY_NET_ID (Platform := android) = None
  /\ ~ ((destroyNetwork (H := android) quietEnv (initial (H := android))
           (DUMMY_NET_ID (Platform := android))).1 <> 0
        /\ mNetworks (destroyNetwork (H := android) quietEnv (initial (H := android))
                        (DUMMY_NET_ID (Platform := android))).2
           = mNetworks (initial (H := android))).
Proof.
  split; [vm_compute; reflexivity|]. split; [vm_compute; reflexivity|].
  intros [Hret _]. apply Hret. vm_compute. reflexivity.
Qed.

(** A history that takes the SYSTEM permission from AID_VPN: the uid can
    still protect its sockets on every network, and no longer once its
    entry is removed. *)
Lemma AID_VPN_can_protect_witness :
  Forall (fun step : Env * Command =>
            step.2 <> DenyProtect (AID_VPN (Platform := android)) NETID_UNSET)
         [ (quietEnv, SetPermissionForUsers PERMISSION_NONE [1016]);
           (quietEnv, DenyProtect 1016 100) ]
  /\ getPermissionForUserLocked (H := android)
       (run (H := android)
          [ (quietEnv, SetPermissionForUsers PERMISSION_NONE [1016]);
            (quietEnv, DenyProtect 1016 100) ] (initial (H := android))) 1016
     = PERMISSION_NONE
  /\ canProtect (H := android)
       (run (H := android)
          [ (quietEnv, SetPermissionForUsers PERMISSION_NONE [1016]);
            (quietEnv, DenyProtect 1016 100) ] (initial (H := android)))
       (AID_VPN (Platform := android)) 100 = true
  /\ canProtect (H := android)
       (denyProtect
          (run (H := android)
             [ (quietEnv, SetPermissionForUsers PERMISSION_NONE [1016]);
               (quietEnv, DenyProtect 1016 100) ] (initial (H := android)))
          (AID_VPN (Platform := android)) NETID_UNSET).2
       (AID_VPN (Platform := android)) 100 = false.
Proof.
  assert (Forall (fun step : Env * Command =>
                    step.2 <> DenyProtect (AID_VPN (Platform := android)) NETID_UNSET)
            [ (quietEnv, SetPermissionForUsers PERMISSION_NONE [1016]);
              (quietEnv, DenyProtect 1016 100) ]) as Hall.
  { repeat constructor; simpl; discriminate. }
  split; [exact Hall|]. split; [vm_compute; reflexivity|].
  split; [|vm_compute; reflexivity].
  exact (proj1 (proj2 (proj2 (AID_VPN_can_protect (H := android)))) _ 100 Hall).
Defined.

(** On the Android platform AID_VPN is below FIRST_APPLICATION_UID: in a
    fresh registry it has the SYSTEM permission, and it can protect its
    sockets after [denyProtect(AID_VPN, UNSET)] has removed its entry. *)
Lemma AID_VPN_has_SYSTEM_counterexample :
  hasSystem (H := android)
    (getPermissionForUser (H := android) (initial (H := android))
       (AID_VPN (Platform := android))) = true
  /\ (denyProtect (initial (H := android)) (AID_VPN (Platform := android))
        NETID_UNSET).1 = 0
  /\ mProtectableUsers
       (denyProtect (initial (H := android)) (AID_VPN (Platform := android))
          NETID_UNSET).2 = ∅
  /\ canProtect (H := android)
       (denyProtect (initial (H := android)) (AID_VPN (Platform := android))
          NETID_UNSET).2 (AID_VPN (Platform := android)) 100 = true.
Proof.
  split; [vm_compute; reflexivity|]. split; [vm_compute; reflexivity|].
  split; [vm_compute; reflexivity|]. vm_compute. reflexivity.
Qed.

(** ** The OEM allocator *)

Section OemAllocator.
Context `{Platform}.

Lemma scanOemIds_spec s fuel netId :
  MAX_OEM_ID + 1 - netId <= Z.of_nat fuel ->
  let r := scanOemIds s fuel netId in
  (forall j, netId <= j < r -> isValidNetworkLocked s j = true)
  /\ ((netId <= r <= MAX_OEM_ID /\ isValidNetworkLocked s r = false)
      \/ (MAX_OEM_ID < r /\ netId <= r)).
Proof.
  revert netId. induction fuel as [|fuel IH]; intros netId Hfuel; simpl.
  - split; [intros; lia|]. right. lia.
  - destruct (Z.leb_spec netId MAX_OEM_ID) as [Hle|Hgt].
    + destruct (isValidNetworkLocked s netId) eqn:Hv; simpl.
      * destruct (IH (netId + 1)) as (Hbelow & Hr); [lia|].
        split.
        -- intros j Hj. destruct (decide (j = netId)) as [->|]; [done|].
           apply Hbelow. lia.
        -- destruct Hr as [[? ?]|[? ?]]; [left|right]; split; (done || lia).
      * split; [intros; lia|]. left. split; [lia|done].
    + split; [intros; lia|]. right. lia.
Qed.

(** C4: [createPhysicalOemNetwork] takes the smallest netId of
    [MIN_OEM_ID..MAX_OEM_ID] that is not registered, registers a physical
    network with the given permission under it, writes the netId through
    the pointer and returns success; when every netId of the range is
    registered it returns the EXHAUSTED code, writes zero and leaves the
    registry as it is. *)
Theorem createPhysicalOemNetwork_allocates env s permission :
  (forall netId,
      MIN_OEM_ID <= netId <= MAX_OEM_ID ->
      isValidNetworkLocked s netId = false ->
      (forall j, MIN_OEM_ID <= j < netId -> isValidNetworkLocked s j = true) ->
      (createPhysicalOemNetwork env s permission).1 = (0, netId)
      /\ mNetworks (createPhysicalOemNetwork env s permission).2
         = <[netId := set_mPermission (PhysicalNetwork netId false) permission]>
             (mNetworks s))
  /\ ((forall netId, MIN_OEM_ID <= netId <= MAX_OEM_ID ->
                     isValidNetworkLocked s netId = true) ->
      createPhysicalOemNetwork env s permission = (EXHAUSTED, 0, s)).
Proof.
  unfold createPhysicalOemNetwork.
  destruct (scanOemIds_spec s (Z.to_nat (MAX_OEM_ID + 1 - MIN_OEM_ID)) MIN_OEM_ID)
    as (Hbelow & Hr); [lia|].
  set (r := scanOemIds s (Z.to_nat (MAX_OEM_ID + 1 - MIN_OEM_ID)) MIN_OEM_ID) in *.
  split.
  - intros netId Hrange Hfree Hleast.
    assert (r = netId) as Hrn.
    { destruct Hr as [[Hr Hrfree]|[Hr _]].
      - destruct (Z.lt_trichotomy r netId) as [Hlt|[Heq|Hgt]]; [|done|].
        + rewrite Hleast in Hrfree by lia. discriminate.
        + rewrite Hbelow in Hfree by lia. discriminate.
      - rewrite Hbelow in Hfree by lia. discriminate. }
    rewrite Hrn. destruct (Z.ltb_spec MAX_OEM_ID netId) as [?|_]; [lia|].
    unfold createPhysicalNetworkLocked, setPermission.
    assert ((MIN_NET_ID <=? netId) && (netId <=? MAX_NET_ID)
            || (MIN_OEM_ID <=? netId) && (netId <=? MAX_OEM_ID) = true) as ->.
    { apply orb_true_iff. right. apply andb_true_iff. split; apply Z.leb_le; lia. }
    rewrite Hfree. simpl. done.
  - intros Hfull. destruct Hr as [[Hr Hrfree]|[Hr _]].
    + rewrite Hfull in Hrfree by lia. discriminate.
    + destruct (Z.ltb_spec MAX_OEM_ID r) as [_|?]; [done|lia].
Qed.

End OemAllocator.

(** Scenario S6: a fresh registry on the Android platform hands out netId 1,
    and the registry whose fifty OEM netIds are taken reports
    exhaustion. *)
Lemma createPhysicalOemNetwork_allocates_witness :
  (createPhysicalOemNetwork (H := android) quietEnv (initial (H := android))
     PERMISSION_NONE).1 = (0, 1)
  /\ createPhysicalOemNetwork (H := android) quietEnv oemFullState PERMISSION_NONE
     = (EXHAUSTED, 0, oemFullState).
Proof.
  split.
  - apply (proj1 (createPhysicalOemNetwork_allocates (H := android) quietEnv
                    (initial (H := android)) PERMISSION_NONE) 1).
    + simpl. lia.
    + vm_compute. reflexivity.
    + simpl. intros j Hj. lia.
  - apply (proj2 (createPhysicalOemNetwork_allocates (H := android) quietEnv
                    oemFullState PERMISSION_NONE)).
    intros netId Hrange. simpl in Hrange.
    assert (forallb (isValidNetworkLocked oemFullState) (seqZ 1 50) = true) as Hall
        by (vm_compute; reflexivity).
    rewrite forallb_forall in Hall. apply Hall.
    apply list_elem_of_In, elem_of_seqZ. lia.
Defined.

(** ** The allowlist *)

Section Allowlist.
Context `{Platform}.

Lemma set_mAllowedUids_same (n : Network) : set_mAllowedUids n (mAllowedUids n) = n.
Proof. by destruct n. Qed.

Lemma applyAllowlists_lookup rangeConfigs s k :
  mNetworks (fold_left applyAllowlist rangeConfigs s) !! k
  = (fun n => setAllowedUids n (listedRanges rangeConfigs k (mAllowedUids n)))
      <$> mNetworks s !! k.
Proof.
  revert s. induction rangeConfigs as [|c l IH]; intros s; simpl.
  - unfold setAllowedUids. destruct (mNetworks s !! k) as [n|]; simpl; [|done].
    by rewrite set_mAllowedUids_same.
  - rewrite IH. unfold applyAllowlist, getNetworkLocked, listedRanges. simpl.
    destruct (Z.eqb_spec (cfgNetId c) k) as [->|Hne].
    + destruct (mNetworks s !! k) as [n|] eqn:Hk; simpl.
      * by rewrite lookup_insert_eq.
      * by rewrite Hk.
    + destruct (mNetworks s !! cfgNetId c) as [n|]; simpl; [|done].
      by rewrite lookup_insert_ne.
Qed.

Lemma listedRanges_unmentioned rangeConfigs k ranges :
  (forall c, c ∈ rangeConfigs -> cfgNetId c <> k) ->
  listedRanges rangeConfigs k ranges = ranges.
Proof.
  unfold listedRanges. revert ranges.
  induction rangeConfigs as [|c l IH]; intros ranges Hno; simpl; [done|].
  destruct (Z.eqb_spec (cfgNetId c) k) as [Heq|_].
  - destruct (Hno c); [by left|done].
  - apply IH. intros c' Hc'. apply Hno. by right.
Qed.

Lemma listedRanges_last before c after ranges :
  (forall c', c' ∈ after -> cfgNetId c' <> cfgNetId c) ->
  listedRanges (before ++ c :: after) (cfgNetId c) ranges = cfgUidRanges c.
Proof.
  intros Hlast. unfold listedRanges. rewrite fold_left_app. simpl.
  rewrite Z.eqb_refl. by apply listedRanges_unmentioned.
Qed.

(** C5, as the code has it: [setNetworkAllowlist] is atomic.  If some
    listed netId is not registered the call returns NO_NETWORK and the
    registry, hence every allowlist, is as before.  If all listed netIds
    are registered the call returns success; afterwards the registered
    networks are the same and differ from before in their allowlist only,
    a network that no config names has the empty allowlist, and a network
    that configs name has exactly the ranges of the last config of the
    list that names it. *)
Theorem setNetworkAllowlist_atomic s rangeConfigs :
  ((exists c, c ∈ rangeConfigs /\ mNetworks s !! cfgNetId c = None) ->
   setNetworkAllowlist s rangeConfigs = (NO_NETWORK, s))
  /\ ((forall c, c ∈ rangeConfigs -> is_Some (mNetworks s !! cfgNetId c)) ->
      (setNetworkAllowlist s rangeConfigs).1 = 0
      /\ (forall k,
            mNetworks (setNetworkAllowlist s rangeConfigs).2 !! k
            = (fun n => setAllowedUids n (listedRanges rangeConfigs k []))
                <$> mNetworks s !! k)
      /\ (forall k n,
            mNetworks (setNetworkAllowlist s rangeConfigs).2 !! k = Some n ->
            (forall c, c ∈ rangeConfigs -> cfgNetId c <> k) ->
            mAllowedUids n = [])
      /\ (forall before c after,
            rangeConfigs = before ++ c :: after ->
            (forall c', c' ∈ after -> cfgNetId c' <> cfgNetId c) ->
            exists n,
              mNetworks (setNetworkAllowlist s rangeConfigs).2 !! cfgNetId c = Some n
              /\ mAllowedUids n = cfgUidRanges c)).
Proof.
  unfold setNetworkAllowlist. split.
  - intros (c & Hin & Hnone).
    assert (existsb (fun config => negb (isValidNetworkLocked s (cfgNetId config)))
              rangeConfigs = true) as ->; [|done].
    apply existsb_exists. exists c. split; [by apply list_elem_of_In|].
    unfold isValidNetworkLocked, getNetworkLocked. by rewrite Hnone.
  - intros Hall.
    assert (existsb (fun config => negb (isValidNetworkLocked s (cfgNetId config)))
              rangeConfigs = false) as ->.
    { apply not_true_is_false. intros Hex.
      apply existsb_exists in Hex as (c & Hin & Hc).
      apply list_elem_of_In in Hin. destruct (Hall c Hin) as [n Hn].
      unfold isValidNetworkLocked, getNetworkLocked in Hc. rewrite Hn in Hc.
      discriminate. }
    simpl.
    assert (Hlookup : forall k,
               mNetworks (fold_left applyAllowlist rangeConfigs
                            (clearAllowedUidsForAllNetworksLocked s)) !! k
               = (fun n => setAllowedUids n (listedRanges rangeConfigs k []))
                   <$> mNetworks s !! k).
    { intros k. rewrite applyAllowlists_lookup. simpl. rewrite lookup_fmap.
      by destruct (mNetworks s !! k). }
    split; [done|]. split; [exact Hlookup|]. split.
    + intros k n Hn Hno. rewrite Hlookup in Hn.
      destruct (mNetworks s !! k) as [n0|]; simpl in Hn; [|done].
      injection Hn as <-. simpl. by apply listedRanges_unmentioned.
    + intros before c after -> Hlast.
      destruct (Hall c) as [n0 Hn0]; [set_solver|].
      exists (setAllowedUids n0 (cfgUidRanges c)). rewrite Hlookup, Hn0. simpl.
      by rewrite listedRanges_last.
Qed.

End Allowlist.

(** Two configs that name network 100: the ranges of the first are not the
    allowlist of the network afterwards. *)
Lemma setNetworkAllowlist_duplicate_counterexample :
  (forall c, c ∈ duplicateConfigs -> is_Some (mNetworks physicalState !! cfgNetId c))
  /\ ~ (forall c, c ∈ duplicateConfigs ->
          exists n, mNetworks (setNetworkAllowlist physicalState duplicateConfigs).2
                      !! cfgNetId c = Some n
                    /\ mAllowedUids n = cfgUidRanges c).
Proof.
  split.
  - intros c Hc. unfold duplicateConfigs in Hc.
    rewrite !elem_of_cons, elem_of_nil in Hc.
    destruct Hc as [-> | [-> | []]]; vm_compute; eauto.
  - intros Hclaim.
    destruct (Hclaim {| cfgNetId := 100;
                        cfgUidRanges := [ {| start := 1; stop := 1 |} ];
                        cfgSubPriority := 0 |}) as (n & Hn & Hranges).
    + unfold duplicateConfigs. set_solver.
    + vm_compute in Hn. injection Hn as <-. discriminate Hranges.
Qed.

(** An allowlist for network 100 alone: the default network of scenario S2
    gets the listed range and the VPN 101 an empty allowlist; and a list
    that names the unknown network 7 changes nothing. *)
Lemma setNetworkAllowlist_atomic_witness :
  (exists n, mNetworks (setNetworkAllowlist secureVpnState
                          [ {| cfgNetId := 100;
                               cfgUidRanges := [ {| start := 10001; stop := 10005 |} ];
                               cfgSubPriority := 0 |} ]).2 !! 100 = Some n
             /\ mAllowedUids n = [ {| start := 10001; stop := 10005 |} ])
  /\ setNetworkAllowlist secureVpnState
       [ {| cfgNetId := 7; cfgUidRanges := []; cfgSubPriority := 0 |} ]
     = (NO_NETWORK, secureVpnState).
Proof.
  split.
  - destruct (setNetworkAllowlist_atomic secureVpnState
                [ {| cfgNetId := 100;
                     cfgUidRanges := [ {| start := 10001; stop := 10005 |} ];
                     cfgSubPriority := 0 |} ]) as [_ Hok].
    destruct Hok as (_ & _ & _ & Hlast).
    + intros c Hc. apply list_elem_of_singleton in Hc as ->. vm_compute. eauto.
    + apply (Hlast [] {| cfgNetId := 100;
                         cfgUidRanges := [ {| start := 10001; stop := 10005 |} ];
                         cfgSubPriority := 0 |} []); [reflexivity|].
      intros c' Hc'. by apply elem_of_nil in Hc'.
  - apply (proj1 (setNetworkAllowlist_atomic secureVpnState _)).
    eexists. split; [apply list_elem_of_singleton; reflexivity|].
    vm_compute. reflexivity.
Defined.

(** ** Address removal and VPN handover *)

Section Handover.
Context `{Platform}.





End Handover.


(** ** The default network *)

Section DefaultNetwork.
Context `{Platform}.

Lemma setDefaultNetwork_success env s netId :
  (setDefaultNetwork env s netId).1 = 0 <->
  netId = getDefaultNetwork s
  \/ ((netId = NETID_UNSET
       \/ exists n, mNetworks s !! netId = Some n /\ isPhysical n = true
                    /\ kernel env (ReqAddAsDefault (getNetId n)) = 0)
      /\ (getDefaultNetwork s = NETID_UNSET
          \/ exists o, mNetworks s !! getDefaultNetwork s = Some o
                       /\ isPhysical o = true
                       /\ kernel env (ReqRemoveAsDefault (getNetId o)) = 0)).
Proof.
  unfold getDefaultNetwork, setDefaultNetwork, getNetId.
  destruct (Z.eqb_spec netId (mDefaultNetId s)) as [Heq|Hne]; [by split; auto|].
  (* the first block *)
  set (r1 := if negb (netId =? NETID_UNSET) then _ else _).
  assert ((r1.1 = 0 <->
           netId = NETID_UNSET
           \/ exists n, mNetworks s !! netId = Some n /\ isPhysical n = true
                        /\ kernel env (ReqAddAsDefault (mNetId n)) = 0)
          /\ mDefaultNetId r1.2 = mDefaultNetId s
          /\ (forall k, k <> netId -> mNetworks r1.2 !! k = mNetworks s !! k))
    as (Hr1 & Hdef1 & Hnet1).
  { subst r1. destruct (Z.eqb_spec netId NETID_UNSET) as [Hu|Hu]; simpl.
    - split; [by split; auto|]. by split.
    - unfold getNetworkLocked.
      destruct (mNetworks s !! netId) as [n|] eqn:Hn; simpl.
      + destruct (isPhysical n) eqn:Hp; simpl.
        * unfold addAsDefault.
          destruct (Z.eqb_spec (kernel env (ReqAddAsDefault (mNetId n))) 0)
            as [Hk|Hk]; simpl.
          -- split; [split; [intros _; right; eauto|done]|].
             split; [done|]. by intros k ?; rewrite lookup_insert_ne.
          -- split; [|split; [done|by intros k ?; rewrite lookup_insert_ne]].
             split; [done|]. intros [?|(n' & [= <-] & _ & ?)]; done.
        * split; [|by split]. unfold EINVAL. split; [intros [=]|].
          intros [?|(n' & [= <-] & ? & _)]; [done|congruence].
      + split; [|by split]. unfold ENONET. split; [intros [=]|].
        intros [?|(n' & [=] & _)]; done. }
  destruct (Z.eqb_spec r1.1 0) as [Hz1|Hz1]; simpl.
  2:{ split; [done|]. intros [?|[Hin _]]; [done|]. by apply Hr1 in Hin. }
  (* the second block *)
  set (r2 := if negb (mDefaultNetId r1.2 =? NETID_UNSET) then _ else _).
  assert (r2.1 = 0 <->
          mDefaultNetId s = NETID_UNSET
          \/ exists o, mNetworks s !! mDefaultNetId s = Some o /\ isPhysical o = true
                       /\ kernel env (ReqRemoveAsDefault (mNetId o)) = 0) as Hr2.
  { subst r2. rewrite Hdef1.
    destruct (Z.eqb_spec (mDefaultNetId s) NETID_UNSET) as [Hu|Hu]; simpl.
    - by split; auto.
    - unfold getNetworkLocked. rewrite Hnet1 by done.
      destruct (mNetworks s !! mDefaultNetId s) as [o|] eqn:Ho; simpl.
      + destruct (isPhysical o) eqn:Hp; simpl.
        * unfold removeAsDefault.
          destruct (Z.eqb_spec (kernel env (ReqRemoveAsDefault (mNetId o))) 0)
            as [Hk|Hk]; simpl.
          -- split; [intros _; right; eauto|done].
          -- split; [done|]. intros [?|(o' & [= <-] & _ & ?)]; done.
        * unfold ESRCH. split; [intros [=]|].
          intros [?|(o' & [= <-] & ? & _)]; [done|congruence].
      + unfold ESRCH. split; [intros [=]|].
        intros [?|(o' & [=] & _)]; done. }
  destruct (Z.eqb_spec r2.1 0) as [Hz2|Hz2]; simpl.
  - split; [|done]. intros _. right. split; [by apply Hr1|by apply Hr2].
  - split; [done|]. intros [?|[_ Hout]]; [done|]. by apply Hr2 in Hout.
Qed.

(** C8, as the code has it.  [setDefaultNetwork(n)] returns success exactly
    when n is the current default, or n is UNSET or a registered Physical
    network whose installation the kernel accepts and the previous default
    is UNSET or a registered Physical network whose removal the kernel
    accepts.  Whenever it returns success, [getDefaultNetwork()] yields n
    afterwards, and whenever it fails the default is as before.  So in a
    well-formed registry, where the previous default is UNSET or a
    registered Physical network, the call for an n that is UNSET or a
    registered Physical network succeeds and makes n the default if the
    kernel accepts the requests.  When n is the current default the call
    returns success and changes nothing; otherwise the requests the call
    sends are an installation of n's network as the default, if any,
    followed by the removal of the previous default's status, if any, and a
    successful call does install a network n other than UNSET and does
    remove the status of a previous default other than UNSET. *)
Theorem setDefaultNetwork_then_get env s netId :
  ((setDefaultNetwork env s netId).1 = 0 ->
   getDefaultNetwork (setDefaultNetwork env s netId).2 = netId)
  /\ (netId = getDefaultNetwork s -> setDefaultNetwork env s netId = (0, s))
  /\ (netId <> getDefaultNetwork s ->
      exists installs removes,
        mEffects (setDefaultNetwork env s netId).2
        = mEffects s ++ installs ++ removes
        /\ (installs = []
            \/ exists n, mNetworks s !! netId = Some n
                         /\ installs = [ReqAddAsDefault (getNetId n)])
        /\ (removes = []
            \/ exists o, mNetworks s !! getDefaultNetwork s = Some o
                         /\ removes = [ReqRemoveAsDefault (getNetId o)])
        /\ ((setDefaultNetwork env s netId).1 = 0 ->
            (netId <> NETID_UNSET -> installs <> [])
            /\ (getDefaultNetwork s <> NETID_UNSET -> removes <> [])))
  /\ ((setDefaultNetwork env s netId).1 = 0 <->
      netId = getDefaultNetwork s
      \/ ((netId = NETID_UNSET
           \/ exists n, mNetworks s !! netId = Some n /\ isPhysical n = true
                        /\ kernel env (ReqAddAsDefault (getNetId n)) = 0)
          /\ (getDefaultNetwork s = NETID_UNSET
              \/ exists o, mNetworks s !! getDefaultNetwork s = Some o
                           /\ isPhysical o = true
                           /\ kernel env (ReqRemoveAsDefault (getNetId o)) = 0)))
  /\ ((setDefaultNetwork env s netId).1 <> 0 ->
      getDefaultNetwork (setDefaultNetwork env s netId).2 = getDefaultNetwork s)
  /\ (wellFormed s ->
      netId = NETID_UNSET
      \/ (exists n, mNetworks s !! netId = Some n /\ isPhysical n = true) ->
      (forall request, kernel env request = 0) ->
      (setDefaultNetwork env s netId).1 = 0
      /\ getDefaultNetwork (setDefaultNetwork env s netId).2 = netId).
Proof.
  assert (Hget : (setDefaultNetwork env s netId).1 = 0 ->
                 getDefaultNetwork (setDefaultNetwork env s netId).2 = netId).
  { unfold getDefaultNetwork, setDefaultNetwork, addAsDefault, removeAsDefault.
    destruct (Z.eqb_spec netId (mDefaultNetId s)) as [->|Hne]; [done|].
    repeat (case_match; simpl in *; simplify_eq); try done; try lia. }
  split; [exact Hget|].
  split; [|split; [|split; [apply setDefaultNetwork_success|split]]].
  - unfold getDefaultNetwork. intros ->. unfold setDefaultNetwork.
    by rewrite Z.eqb_refl.
  - unfold getDefaultNetwork.
    intros Hne. unfold setDefaultNetwork.
    destruct (Z.eqb_spec netId (mDefaultNetId s)) as [?|_]; [done|].
    (* the first block: installing the new default *)
    set (r1 := if negb (netId =? NETID_UNSET) then _ else _).
    assert (exists installs,
               mEffects r1.2 = mEffects s ++ installs
               /\ mDefaultNetId r1.2 = mDefaultNetId s
               /\ (forall k, k <> netId -> mNetworks r1.2 !! k = mNetworks s !! k)
               /\ (installs = []
                   \/ exists n, mNetworks s !! netId = Some n
                                /\ installs = [ReqAddAsDefault (getNetId n)])
               /\ (r1.1 = 0 -> netId <> NETID_UNSET -> installs <> []))
      as (installs & Hev1 & Hdef1 & Hnet1 & Hinst & Hdone1).
    { subst r1. destruct (Z.eqb_spec netId NETID_UNSET) as [Hu|Hu]; simpl.
      - exists []. rewrite app_nil_r. by repeat split; auto.
      - unfold getNetworkLocked.
        destruct (mNetworks s !! netId) as [n|] eqn:Hn; simpl.
        + destruct (isPhysical n); simpl.
          * unfold addAsDefault.
            exists [ReqAddAsDefault (getNetId n)].
            destruct (kernel env (ReqAddAsDefault (mNetId n)) =? 0); simpl;
              (split; [done|]; split; [done|]; split;
               [by intros k Hk; rewrite lookup_insert_ne|];
               split; [right; eauto|done]).
          * exists []. rewrite app_nil_r.
            repeat split; auto; try by intros [=].
        + exists []. rewrite app_nil_r. repeat split; auto; try by intros [=]. }
    destruct (Z.eqb_spec r1.1 0) as [Hr1|Hr1]; simpl.
    2:{ exists installs, []. rewrite app_nil_r.
        split; [done|]. split; [done|]. split; [by left|]. intros ?. done. }
    (* the second block: removing the status of the previous default *)
    set (r2 := if negb (mDefaultNetId r1.2 =? NETID_UNSET) then _ else _).
    assert (exists removes,
               mEffects r2.2 = mEffects s ++ installs ++ removes
               /\ (removes = []
                   \/ exists o, mNetworks s !! mDefaultNetId s = Some o
                                /\ removes = [ReqRemoveAsDefault (getNetId o)])
               /\ (r2.1 = 0 -> mDefaultNetId s <> NETID_UNSET -> removes <> []))
      as (removes & Hev2 & Hrem & Hdone2).
    { subst r2. rewrite Hdef1.
      destruct (Z.eqb_spec (mDefaultNetId s) NETID_UNSET) as [Hu|Hu]; simpl.
      - exists []. rewrite app_nil_r. split; [done|]. split; [by left|done].
      - unfold getNetworkLocked. rewrite Hnet1 by done.
        destruct (mNetworks s !! mDefaultNetId s) as [o|] eqn:Ho; simpl.
        + destruct (isPhysical o); simpl.
          * unfold removeAsDefault.
            exists [ReqRemoveAsDefault (getNetId o)].
            destruct (kernel env (ReqRemoveAsDefault (mNetId o)) =? 0); simpl;
              (split; [by rewrite Hev1, <- app_assoc|];
               split; [right; eauto|done]).
          * exists []. rewrite app_nil_r. split; [done|]. split; [by left|].
            intros [=].
        + exists []. rewrite app_nil_r. split; [done|]. split; [by left|].
          intros [=]. }
    exists installs, removes.
    destruct (Z.eqb_spec r2.1 0) as [Hr2|Hr2]; simpl.
    + split; [done|]. split; [done|]. split; [done|]. intros _. auto.
    + split; [done|]. split; [done|]. split; [done|]. intros ?. done.
  - unfold getDefaultNetwork, setDefaultNetwork, addAsDefault, removeAsDefault.
    destruct (Z.eqb_spec netId (mDefaultNetId s)) as [->|Hne]; [done|].
    repeat (case_match; simpl in *; simplify_eq); try done; try lia.
  - intros Hwf Hn Hkernel.
    assert ((setDefaultNetwork env s netId).1 = 0) as Hok; [|by split; auto].
    apply setDefaultNetwork_success.
    destruct (decide (netId = getDefaultNetwork s)) as [?|Hne]; [by left|right].
    split.
    + destruct Hn as [?|(n & Hn & Hp)]; [by left|right]. exists n. by repeat split.
    + destruct (wellFormed_default s Hwf) as [?|(o & Ho & Hp)]; [by left|right].
      exists o. by repeat split.
Qed.

End DefaultNetwork.

(** No network 100 is registered in a fresh registry: the call fails and
    the default stays UNSET. *)
Lemma setDefaultNetwork_unregistered_counterexample :
  (setDefaultNetwork quietEnv (initial (H := android)) 100).1 = NO_NETWORK
  /\ getDefaultNetwork (setDefaultNetwork quietEnv (initial (H := android)) 100).2
     <> 100.
Proof. split; [vm_compute; reflexivity|]. vm_compute. discriminate. Qed.

(** Scenario S1: network 100 is registered and the kernel accepts every
    request, so that it becomes the default; making network 100 the default
    of scenario S2 again is a no-op. *)
Lemma setDefaultNetwork_then_get_witness :
  wellFormed physicalState
  /\ (exists n, mNetworks physicalState !! 100 = Some n /\ isPhysical n = true)
  /\ (setDefaultNetwork quietEnv physicalState 100).1 = 0
  /\ getDefaultNetwork (setDefaultNetwork quietEnv physicalState 100).2 = 100
  /\ setDefaultNetwork quietEnv secureVpnState 100 = (0, secureVpnState)
  /\ (exists installs removes,
        mEffects (setDefaultNetwork quietEnv secureVpnState NETID_UNSET).2
        = mEffects secureVpnState ++ installs ++ removes
        /\ removes <> []).
Proof.
  assert (wellFormed physicalState) as Hwf.
  { split.
    - apply map_Forall_to_list. vm_compute. repeat constructor.
    - left. vm_compute. reflexivity. }
  assert (exists n, mNetworks physicalState !! 100 = Some n /\ isPhysical n = true)
    as Hphys.
  { eexists. split; vm_compute; reflexivity. }
  destruct (proj2 (proj2 (proj2 (proj2 (proj2
              (setDefaultNetwork_then_get quietEnv physicalState 100)))))
              Hwf (or_intror Hphys) (fun _ => eq_refl)) as [Hok Hdef].
  split; [exact Hwf|]. split; [exact Hphys|]. split; [exact Hok|].
  split; [exact Hdef|]. split.
  - apply (proj1 (proj2 (setDefaultNetwork_then_get quietEnv secureVpnState 100))).
    vm_compute. reflexivity.
  - destruct (proj1 (proj2 (proj2 (setDefaultNetwork_then_get quietEnv secureVpnState
                                     NETID_UNSET))))
      as (installs & removes & Hev & _ & _ & Hdone).
    + vm_compute. discriminate.
    + exists installs, removes. split; [exact Hev|].
      apply Hdone; [vm_compute; reflexivity|vm_compute; discriminate].
Defined.

(** ** The chain topology manager *)

Module ControllersFacts.
Import Controllers.

Lemma append_nil_l (b : string) : EmptyString +:+ b = b.
Proof. reflexivity. Qed.

Lemma append_cons (x : ascii) (a b : string) :
  String x a +:+ b = String x (a +:+ b).
Proof. reflexivity. Qed.

Lemma append_assoc (a b c : string) : (a +:+ b) +:+ c = a +:+ (b +:+ c).
Proof.
  induction a as [|x a IH]; [done|]. rewrite !append_cons. by rewrite IH.
Qed.

Lemma append_nil_r (a : string) : a +:+ EmptyString = a.
Proof. induction a as [|x a IH]; [done|]. rewrite append_cons. by rewrite IH. Qed.

(** Brings appends into the form of nested conses and right-nested appends. *)
Ltac norm_append :=
  repeat first [rewrite append_cons | rewrite append_nil_l | rewrite append_assoc].

Lemma noneIs_append c a b : noneIs c (a +:+ b) = noneIs c a && noneIs c b.
Proof.
  induction a as [|x a IH]; [done|]. rewrite append_cons. simpl.
  rewrite IH. by rewrite andb_assoc.
Qed.

(** *** Lines *)

Lemma getlines_line (l rest : string) :
  oneLine l -> getlines (l +:+ nl +:+ rest) = l :: getlines rest.
Proof.
  unfold oneLine. induction l as [|a l IH]; intros Hl.
  - done.
  - rewrite append_cons. simpl in *.
    apply andb_true_iff in Hl as [Ha Hl].
    destruct (Ascii.eqb a "010"); [done|]. by rewrite IH.
Qed.

Lemma unlines_app (xs ys : list string) :
  unlines (xs ++ ys) = unlines xs +:+ unlines ys.
Proof.
  induction xs as [|x xs IH]; simpl; [done|].
  by rewrite IH, !append_assoc.
Qed.

Lemma getlines_unlines (ls : list string) :
  Forall oneLine ls -> getlines (unlines ls) = ls.
Proof.
  induction 1 as [|l ls Hl _ IH]; simpl; [done|].
  by rewrite getlines_line, IH.
Qed.

(** *** The regular expression *)

Lemma stripPrefix_append (p s : string) : stripPrefix p (p +:+ s) = Some s.
Proof.
  induction p as [|a p IH]; [by destruct s|].
  rewrite append_cons. simpl. by rewrite Ascii.eqb_refl.
Qed.

Lemma stripPrefix_Some (p s r : string) :
  stripPrefix p s = Some r -> s = p +:+ r.
Proof.
  revert s. induction p as [|a p IH]; intros s; simpl.
  - by intros [= ->].
  - destruct s as [|b s]; [done|].
    destruct (Ascii.eqb_spec a b) as [->|]; [|done].
    intros Hs. by rewrite (IH _ Hs).
Qed.

Lemma spanNonSpace_append (w r : string) :
  noneIs " " w = true -> atBoundary r -> spanNonSpace (w +:+ r) = (w, r).
Proof.
  intros Hw Hr. induction w as [|a w IH].
  - rewrite append_nil_l. by destruct Hr as [->|[r' ->]].
  - rewrite append_cons. simpl in *.
    apply andb_true_iff in Hw as [Ha Hw].
    destruct (Ascii.eqb a " "); [done|]. by rewrite IH.
Qed.

Lemma spanNonSpace_spec (s w r : string) :
  spanNonSpace s = (w, r) ->
  s = w +:+ r /\ noneIs " " w = true /\ atBoundary r.
Proof.
  revert w r. induction s as [|a s IH]; intros w r; simpl.
  - intros [= <- <-]. split; [done|]. split; [done|]. by left.
  - destruct (Ascii.eqb_spec a " ") as [->|Hne].
    + intros [= <- <-]. split; [done|]. split; [done|]. right. eauto.
    + destruct (spanNonSpace s) as [w' r'] eqn:E. intros [= <- <-].
      destruct (IH _ _ eq_refl) as (-> & Hw & Hr).
      split; [done|]. split; [|done]. simpl. rewrite Hw.
      by apply Ascii.eqb_neq in Hne as ->.
Qed.

Lemma isEmpty_false (s : string) : s <> EmptyString -> isEmpty s = false.
Proof. by destruct s. Qed.

Lemma isEmpty_true (s : string) : isEmpty s = true -> s = EmptyString.
Proof. by destruct s. Qed.

(** The expression matches the link of a child under a parent, and gives
    back the two names. *)
Lemma CHILD_CHAIN_REGEX_linkLine (parent child : string) :
  validChain parent -> validChain child ->
  CHILD_CHAIN_REGEX (linkLine parent child) = Some (parent, child).
Proof.
  intros (Hp & Hps & _) (Hc & Hcs & _). unfold CHILD_CHAIN_REGEX, linkLine.
  rewrite stripPrefix_append.
  rewrite (spanNonSpace_append parent (" -j " +:+ child)) by (done || right; eauto).
  rewrite (isEmpty_false _ Hp), stripPrefix_append.
  replace child with (child +:+ EmptyString) at 1 by apply append_nil_r.
  rewrite (spanNonSpace_append child EmptyString) by (done || by left).
  by rewrite (isEmpty_false _ Hc).
Qed.

(** A rule that the expression matches is the link of its second group
    under its first, with nothing after the child's name. *)
Lemma CHILD_CHAIN_REGEX_Some (rule g1 g2 : string) :
  CHILD_CHAIN_REGEX rule = Some (g1, g2) -> rule = linkLine g1 g2.
Proof.
  unfold CHILD_CHAIN_REGEX, linkLine.
  destruct (stripPrefix "-A " rule) as [r1|] eqn:E1; [|done].
  destruct (spanNonSpace r1) as [w1 r2] eqn:E2.
  destruct (isEmpty w1); [done|].
  destruct (stripPrefix " -j " r2) as [r3|] eqn:E3; [|done].
  destruct (spanNonSpace r3) as [w2 r4] eqn:E4.
  destruct (isEmpty w2); [done|].
  destruct (isEmpty r4) eqn:E5; [|done]. intros [= <- <-].
  apply isEmpty_true in E5 as ->.
  apply stripPrefix_Some in E1 as ->. apply stripPrefix_Some in E3 as ->.
  apply spanNonSpace_spec in E2 as (-> & _). apply spanNonSpace_spec in E4 as (-> & _).
  by rewrite append_nil_r.
Qed.

(** *** Listing the parent chain *)

Lemma noteChild_fold (parentChain : string) (rules : list string)
    (existing : gset string) (child : string) :
  child ∈ fold_left (noteChild parentChain) rules existing <->
  child ∈ existing
  \/ exists rule, rule ∈ rules /\ CHILD_CHAIN_REGEX rule = Some (parentChain, child).
Proof.
  revert existing. induction rules as [|rule rules IH]; intros existing; simpl.
  - split; [by left|]. intros [?|(rule & Hin & _)]; [done|].
    by apply elem_of_nil in Hin.
  - rewrite IH. unfold noteChild.
    destruct (CHILD_CHAIN_REGEX rule) as [[g1 g2]|] eqn:E.
    + destruct (String.eqb_spec g1 parentChain) as [->|Hne].
      * rewrite elem_of_union, elem_of_singleton. split.
        -- intros [[->|?]|(r & Hr & Hm)]; [right|by left|right].
           ++ exists rule. split; [by left|done].
           ++ exists r. split; [by right|done].
        -- intros [?|(r & Hr & Hm)]; [left; by right|].
           apply elem_of_cons in Hr as [->|Hr].
           ++ rewrite E in Hm. injection Hm as ->. left. by left.
           ++ right. eauto.
      * split.
        -- intros [?|(r & Hr & Hm)]; [by left|right].
           exists r. split; [by right|done].
        -- intros [?|(r & Hr & Hm)]; [by left|].
           apply elem_of_cons in Hr as [->|Hr]; [congruence|right; eauto].
    + split.
      * intros [?|(r & Hr & Hm)]; [by left|right].
        exists r. split; [by right|done].
      * intros [?|(r & Hr & Hm)]; [by left|].
        apply elem_of_cons in Hr as [->|Hr]; [congruence|right; eauto].
Qed.

(** The children found are those whose link is a line of the listing. *)
Lemma findExistingChildChains_spec restore target table parentChain :
  target <> V4V6 -> validChain parentChain ->
  exists existing,
    findExistingChildChains restore target table parentChain = Some existing
    /\ forall child, validChain child ->
         (child ∈ existing <->
          (restore target (listingCommand table parentChain)).1 <> -1
          /\ linkLine parentChain child
             ∈ getlines (restore target (listingCommand table parentChain)).2).
Proof.
  intros Htarget Hparent. unfold findExistingChildChains.
  rewrite bool_decide_eq_false_2 by done.
  fold (listingCommand table parentChain).
  destruct (restore target (listingCommand table parentChain)) as [ret output].
  simpl. destruct (Z.eqb_spec ret (-1)) as [->|Hret].
  - eexists. split; [done|]. intros child _. split; [set_solver|].
    by intros [? _].
  - eexists. split; [done|]. intros child Hchild. rewrite noteChild_fold. split.
    + intros [Hin|(rule & Hin & Hm)]; [set_solver|].
      apply CHILD_CHAIN_REGEX_Some in Hm as <-. done.
    + intros [_ Hin]. right. exists (linkLine parentChain child).
      split; [done|]. by apply CHILD_CHAIN_REGEX_linkLine.
Qed.

(** *** The batch *)

Lemma appendChild_unlines parentChain existing command childChain :
  appendChild parentChain existing command childChain
  = command +:+ unlines (childLines parentChain existing childChain).
Proof.
  unfold appendChild, childLines, createLine, linkLine, nl.
  destruct (bool_decide (childChain ∉ existing)); simpl; unfold nl;
    norm_append; by rewrite ?append_nil_r.
Qed.

Lemma appendChild_fold parentChain existing childChains command :
  fold_left (appendChild parentChain existing) childChains command
  = command +:+ unlines (flat_map (childLines parentChain existing) childChains).
Proof.
  revert command. induction childChains as [|c cs IH]; intros command;
    cbn [fold_left flat_map].
  - by rewrite append_nil_r.
  - by rewrite IH, appendChild_unlines, unlines_app, append_assoc.
Qed.

Lemma oneLine_createLine chain : validChain chain -> oneLine (createLine chain).
Proof.
  intros (_ & _ & Hl). unfold oneLine, createLine in *.
  norm_append. simpl. by rewrite noneIs_append, Hl.
Qed.

Lemma oneLine_linkLine parent child :
  validChain parent -> validChain child -> oneLine (linkLine parent child).
Proof.
  intros (_ & _ & Hp) (_ & _ & Hc). unfold oneLine, linkLine in *.
  norm_append. simpl. rewrite noneIs_append, Hp. norm_append. simpl. by rewrite Hc.
Qed.

Lemma oneLine_childLines parentChain existing childChains :
  validChain parentChain -> Forall validChain childChains ->
  Forall oneLine (flat_map (childLines parentChain existing) childChains).
Proof.
  intros Hp. induction 1 as [|c cs Hc _ IH]; simpl; [constructor|].
  constructor; [by apply oneLine_createLine|].
  destruct (bool_decide (c ∉ existing)); simpl; [|done].
  constructor; [by apply oneLine_linkLine|done].
Qed.

Lemma elem_of_childLines parentChain existing childChains l :
  l ∈ flat_map (childLines parentChain existing) childChains <->
  exists c, c ∈ childChains
            /\ (l = createLine c \/ (l = linkLine parentChain c /\ c ∉ existing)).
Proof.
  rewrite list_elem_of_In, in_flat_map. split.
  - intros (c & Hc & Hl). exists c. split; [by apply list_elem_of_In|].
    unfold childLines in Hl. destruct Hl as [<-|Hl]; [by left|].
    destruct (decide (c ∉ existing)).
    + rewrite bool_decide_eq_true_2 in Hl by done. destruct Hl as [<-|[]]. by right.
    + rewrite bool_decide_eq_false_2 in Hl by done. destruct Hl.
  - intros (c & Hc & Hl). exists c. split; [by apply list_elem_of_In|].
    unfold childLines. destruct Hl as [->|[-> Hnot]]; [by left|right].
    rewrite bool_decide_eq_true_2 by done. by left.
Qed.

Lemma length_append (a b : string) :
  String.length (a +:+ b) = (String.length a + String.length b)%nat.
Proof. induction a as [|x a IH]; [done|]. rewrite append_cons. simpl. by rewrite IH. Qed.

Lemma append_inj_r (a b s : string) : a +:+ s = b +:+ s -> a = b.
Proof.
  revert b. induction a as [|x a IH]; intros [|y b] Heq.
  - done.
  - apply (f_equal String.length) in Heq.
    rewrite append_nil_l, append_cons in Heq. simpl in Heq.
    rewrite length_append in Heq. lia.
  - apply (f_equal String.length) in Heq.
    rewrite append_nil_l, append_cons in Heq. simpl in Heq.
    rewrite length_append in Heq. lia.
  - rewrite !append_cons in Heq. injection Heq as -> Heq. by rewrite (IH _ Heq).
Qed.

Lemma createLine_inj a b : createLine a = createLine b -> a = b.
Proof.
  unfold createLine. rewrite !append_cons, !append_nil_l.
  intros [= Heq]. by apply append_inj_r in Heq.
Qed.

Lemma linkLine_inj p a b : linkLine p a = linkLine p b -> a = b.
Proof.
  unfold linkLine. intros Heq.
  apply String.app_inj in Heq. apply String.app_inj in Heq.
  by apply String.app_inj in Heq.
Qed.

Lemma createLine_head chain : createLine chain = String ":" (chain +:+ " -").
Proof. reflexivity. Qed.

Lemma linkLine_head parent child :
  linkLine parent child
  = String "-" (String "A" (String " " (parent +:+ " -j " +:+ child))).
Proof. reflexivity. Qed.

Lemma header_head table : "*" +:+ table = String "*" table.
Proof. reflexivity. Qed.

(** The batch of a cooperative install, given the children found. *)
Lemma createChildChains_cooperative restore target table parentChain childChains
    existing :
  findExistingChildChains restore target table parentChain = Some existing ->
  createChildChains restore target table parentChain childChains false
  = Some (unlines (("*" +:+ table)
                   :: flat_map (childLines parentChain existing) childChains
                   ++ ["COMMIT"])).
Proof.
  intros Hfind. unfold createChildChains. rewrite Hfind. f_equal.
  rewrite appendChild_fold. cbn [unlines fold_right].
  change (fold_right (fun l acc => l +:+ nl +:+ acc) EmptyString)
    with unlines.
  rewrite unlines_app. cbn [unlines fold_right].
  by rewrite !append_assoc, append_nil_r.
Qed.

Lemma childLines_exclusive parentChain childChains :
  flat_map (childLines parentChain ∅) childChains
  = flat_map (fun c => [createLine c; linkLine parentChain c]) childChains.
Proof.
  induction childChains as [|c cs IH]; [done|]. cbn [flat_map]. rewrite IH.
  unfold childLines. by rewrite bool_decide_eq_true_2 by set_solver.
Qed.

(** C7: a cooperative install of valid chain names, for one address
    family, emits a batch whose lines hold the create-or-flush line
    [:<child> -] of every child and the link [-A <parent> -j <child>] of
    exactly those children whose link is not a line of the listed contents
    of the parent (a line is the link only if nothing follows the child's
    name); every line is the table header, COMMIT, or the create-or-flush
    line or the link of a child, so that no line is a delete or a flush
    command and the parent is created or flushed only if it is listed
    among the children.  An exclusive install emits the table header, then
    [:<parent> -] and [-F <parent>], then for every child in order its
    create-or-flush line and its link, then COMMIT. *)
Theorem createChildChains_batch restore target table parentChain childChains :
  (target <> V4V6 -> oneLine table -> validChain parentChain ->
   Forall validChain childChains ->
   exists batch,
     createChildChains restore target table parentChain childChains false
     = Some batch
     /\ (forall c, c ∈ childChains -> createLine c ∈ getlines batch)
     /\ (forall c, c ∈ childChains ->
           (linkLine parentChain c ∈ getlines batch <->
            ~ ((restore target (listingCommand table parentChain)).1 <> -1
               /\ linkLine parentChain c
                  ∈ getlines (restore target (listingCommand table parentChain)).2)))
     /\ (forall l, l ∈ getlines batch ->
           l = "*" +:+ table \/ l = "COMMIT"
           \/ exists c, c ∈ childChains
                        /\ (l = createLine c \/ l = linkLine parentChain c))
     /\ (forall l, l ∈ getlines batch ->
           startsWith "-D" l = false /\ startsWith "-F" l = false)
     /\ (createLine parentChain ∈ getlines batch -> parentChain ∈ childChains))
  /\ createChildChains restore target table parentChain childChains true
     = Some (unlines (("*" +:+ table) :: createLine parentChain
                      :: flushLine parentChain
                      :: flat_map (fun c => [createLine c; linkLine parentChain c])
                                  childChains
                      ++ ["COMMIT"])).
Proof.
  split.
  - intros Htarget Htable Hparent Hchildren.
    destruct (findExistingChildChains_spec restore target table parentChain
                Htarget Hparent) as (existing & Hfind & Hfound).
    eexists. split; [by apply createChildChains_cooperative|].
    rewrite getlines_unlines.
    2:{ constructor; [by rewrite header_head|].
        apply Forall_app. split; [by apply oneLine_childLines|].
        by repeat constructor. }
    assert (Hmem : forall l,
               l ∈ ("*" +:+ table)
                   :: flat_map (childLines parentChain existing) childChains
                   ++ ["COMMIT"] <->
               l = "*" +:+ table \/ l = "COMMIT"
               \/ exists c, c ∈ childChains
                            /\ (l = createLine c
                                \/ (l = linkLine parentChain c /\ c ∉ existing))).
    { intros l. rewrite elem_of_cons, elem_of_app, elem_of_childLines,
        list_elem_of_singleton. tauto. }
    split; [|split; [|split; [|split]]].
    + intros c Hc. apply Hmem. right. right. exists c. split; [done|]. by left.
    + intros c Hc.
      assert (validChain c) as Hvalid.
      { rewrite Forall_forall in Hchildren. by apply Hchildren. }
      rewrite <- (Hfound c Hvalid), Hmem. split.
      * intros [Hl|[Hl|(c' & Hc' & [Hl|[Hl Hnot]])]].
        -- by rewrite linkLine_head, header_head in Hl.
        -- by rewrite linkLine_head in Hl.
        -- by rewrite linkLine_head, createLine_head in Hl.
        -- by apply linkLine_inj in Hl as ->.
      * intros Hnot. right. right. exists c. split; [done|]. by right.
    + intros l Hl. apply Hmem in Hl as [Hl|[Hl|(c & Hc & [Hl|[Hl _]])]]; eauto 10.
    + intros l Hl. apply Hmem in Hl as [->|[->|(c & Hc & [->|[-> _]])]].
      * by rewrite header_head.
      * done.
      * by rewrite createLine_head.
      * by rewrite linkLine_head.
    + intros Hl. apply Hmem in Hl as [Hl|[Hl|(c & Hc & [Hl|[Hl _]])]].
      * by rewrite createLine_head, header_head in Hl.
      * by rewrite createLine_head in Hl.
      * by apply createLine_inj in Hl as ->.
      * by rewrite createLine_head, linkLine_head in Hl.
  - unfold createChildChains. f_equal.
    rewrite appendChild_fold, childLines_exclusive. cbn [unlines fold_right].
    change (fold_right (fun l acc => l +:+ nl +:+ acc) EmptyString)
      with unlines.
    rewrite unlines_app. cbn [unlines fold_right].
    unfold createLine, flushLine.
    by rewrite !append_assoc, append_nil_r.
Qed.

End ControllersFacts.

(** Scenario S4: the link of oem_out is not emitted again, the link of
    fw_OUTPUT is. *)
Lemma createChildChains_batch_witness :
  exists batch,
    Controllers.createChildChains outputListing Controllers.V4 "filter" "OUTPUT"
      outputChildren false = Some batch
    /\ (Controllers.linkLine "OUTPUT" "oem_out" ∉ Controllers.getlines batch)
    /\ (Controllers.linkLine "OUTPUT" "fw_OUTPUT" ∈ Controllers.getlines batch).
Proof.
  destruct (proj1 (ControllersFacts.createChildChains_batch outputListing
                     Controllers.V4 "filter" "OUTPUT" outputChildren))
    as (batch & Hbatch & _ & Hlink & _).
  - discriminate.
  - vm_compute. reflexivity.
  - split; [discriminate|]. split; vm_compute; reflexivity.
  - repeat constructor; try discriminate; vm_compute; reflexivity.
  - assert (Controllers.getlines
              (outputListing Controllers.V4
                 (Controllers.listingCommand "filter" "OUTPUT")).2
            = [ "-P OUTPUT ACCEPT"; "-A OUTPUT -j vendor_chain";
                "-A OUTPUT -j oem_out" ]) as Hlisting by (vm_compute; reflexivity).
    exists batch. split; [exact Hbatch|]. split.
    + intros Hin. apply (Hlink "oem_out") in Hin.
      * apply Hin. split; [vm_compute; discriminate|].
        rewrite Hlisting. do 2 apply list_elem_of_further. apply list_elem_of_here.
      * apply list_elem_of_here.
    + apply Hlink; [apply list_elem_of_further, list_elem_of_here|].
      intros [_ Hin]. rewrite Hlisting in Hin.
      repeat (apply elem_of_cons in Hin as [Hin|Hin];
              [vm_compute in Hin; discriminate Hin|]).
      by apply elem_of_nil in Hin.
Defined.

(** ** The registry keeps its data model *)

Section Invariant.
Context `{Platform}.

Lemma wellFormed_ext s s' :
  mNetworks s' = mNetworks s -> mDefaultNetId s' = mDefaultNetId s ->
  wellFormed s -> wellFormed s'.
Proof. unfold wellFormed. by intros -> ->. Qed.

Lemma wellFormed_putNetwork_same s k n n' :
  wellFormed s -> mNetworks s !! k = Some n -> sameIdentity n n' ->
  wellFormed (putNetwork s k n').
Proof.
  intros [Hall Hdef] Hk [Hid Hty]. split; simpl.
  - apply map_Forall_insert_2; [|done].
    destruct (Hall k n Hk) as [Hn ?]. unfold getNetId in *. by rewrite Hid.
  - destruct Hdef as [?|Hdef]; [by left|right].
    destruct (decide (k = mDefaultNetId s)) as [->|Hne].
    + rewrite lookup_insert_eq. rewrite Hk in Hdef.
      unfold isPhysical in *. by rewrite Hty.
    + by rewrite lookup_insert_ne.
Qed.

Lemma wellFormed_putNetwork_new s k n' :
  wellFormed s -> mNetworks s !! k = None -> mNetId n' = k -> 0 < k < 65536 ->
  wellFormed (putNetwork s k n').
Proof.
  intros [Hall Hdef] Hk Hid Hrange. split; simpl.
  - by apply map_Forall_insert_2.
  - destruct Hdef as [?|Hdef]; [by left|right].
    destruct (decide (k = mDefaultNetId s)) as [->|Hne].
    + by rewrite Hk in Hdef.
    + by rewrite lookup_insert_ne.
Qed.

Lemma wellFormed_initial : platformOk -> wellFormed initial.
Proof.
  intros (Hl & Hd & Hu & _). split; simpl; [|by left].
  repeat apply map_Forall_insert_2; try done.
Qed.

Lemma sameIdentity_refl n : sameIdentity n n.
Proof. by split. Qed.

Lemma sameIdentity_addInterface env n iface :
  sameIdentity n (addInterface env n iface).1.2.
Proof. unfold addInterface. by repeat case_match. Qed.

Lemma sameIdentity_removeInterface env n iface :
  sameIdentity n (removeInterface env n iface).1.2.
Proof. unfold removeInterface. by repeat case_match. Qed.

Lemma sameIdentity_clearInterfaces env n :
  sameIdentity n (clearInterfaces env n).1.2.
Proof. unfold clearInterfaces. by repeat case_match. Qed.

Lemma sameIdentity_addAsDefault env n : sameIdentity n (addAsDefault env n).1.2.
Proof. unfold addAsDefault. by repeat case_match. Qed.

Lemma sameIdentity_removeAsDefault env n :
  sameIdentity n (removeAsDefault env n).1.2.
Proof. unfold removeAsDefault. by repeat case_match. Qed.

Lemma sameIdentity_setPermission env n permission :
  sameIdentity n (setPermission env n permission).1.2.
Proof. unfold setPermission. by repeat case_match. Qed.

Lemma sameIdentity_addUsers env n ranges subPriority :
  sameIdentity n (addUsers env n ranges subPriority).1.2.
Proof. unfold addUsers. by repeat case_match. Qed.

Lemma sameIdentity_removeUsers env n ranges subPriority :
  sameIdentity n (removeUsers env n ranges subPriority).1.2.
Proof. unfold removeUsers. by repeat case_match. Qed.

Lemma wellFormed_emit s evs : wellFormed s -> wellFormed (emit s evs).
Proof. by apply wellFormed_ext. Qed.

Lemma wellFormed_updateTcpSocketMonitorPolling s :
  wellFormed s -> wellFormed (updateTcpSocketMonitorPolling s).
Proof. by apply wellFormed_ext. Qed.

Lemma wellFormed_setDefaultNetwork env s netId :
  wellFormed s -> wellFormed (setDefaultNetwork env s netId).2.
Proof.
  intros Hwf. unfold setDefaultNetwork.
  destruct (netId =? mDefaultNetId s); [done|].
  (* the first block *)
  set (r1 := if negb (netId =? NETID_UNSET) then _ else _).
  assert (wellFormed r1.2
          /\ mDefaultNetId r1.2 = mDefaultNetId s
          /\ (r1.1 = 0 ->
              netId = NETID_UNSET
              \/ exists n, mNetworks r1.2 !! netId = Some n /\ isPhysical n = true))
    as (Hwf1 & Hdef1 & Hnew).
  { subst r1. destruct (Z.eqb_spec netId NETID_UNSET) as [->|Hu]; simpl.
    - split; [done|]. split; [done|]. by left.
    - unfold getNetworkLocked. destruct (mNetworks s !! netId) as [n|] eqn:Hn; simpl.
      + destruct (isPhysical n) eqn:Hp; simpl.
        * pose proof (sameIdentity_addAsDefault env n) as Hsame.
          destruct (addAsDefault env n) as [[ret n'] evs]. simpl in *.
          split; [by apply wellFormed_emit, (wellFormed_putNetwork_same _ _ n)|].
          split; [done|]. intros _. right. exists n'.
          rewrite lookup_insert_eq. split; [done|].
          destruct Hsame as [_ Hty]. unfold isPhysical in *. by rewrite Hty.
        * split; [done|]. split; [done|]. intros [=].
      + split; [done|]. split; [done|]. intros [=]. }
  destruct (Z.eqb_spec r1.1 0) as [Hr1|Hr1]; simpl; [|done].
  specialize (Hnew Hr1).
  (* the second block *)
  set (r2 := if negb (mDefaultNetId r1.2 =? NETID_UNSET) then _ else _).
  assert (wellFormed r2.2
          /\ (netId = NETID_UNSET
              \/ exists n, mNetworks r2.2 !! netId = Some n /\ isPhysical n = true))
    as (Hwf2 & Hnew2).
  { subst r2. destruct (mDefaultNetId r1.2 =? NETID_UNSET); simpl; [done|].
    unfold getNetworkLocked.
    destruct (mNetworks r1.2 !! mDefaultNetId r1.2) as [o|] eqn:Ho; simpl; [|done].
    destruct (isPhysical o) eqn:Hp; simpl; [|done].
    pose proof (sameIdentity_removeAsDefault env o) as Hsame.
    destruct (removeAsDefault env o) as [[ret o'] evs]. simpl in *.
    split; [by apply wellFormed_emit, (wellFormed_putNetwork_same _ _ o)|].
    destruct Hnew as [?|(n & Hn & Hpn)]; [by left|right].
    destruct (decide (mDefaultNetId r1.2 = netId)) as [Heq|Hne].
    - rewrite Heq, lookup_insert_eq. exists o'. split; [done|].
      destruct Hsame as [_ Hty]. unfold isPhysical in *. by rewrite Hty.
    - rewrite lookup_insert_ne by done. eauto. }
  destruct (r2.1 =? 0); simpl; [|done].
  destruct Hwf2 as [Hall _]. split; simpl; [done|].
  destruct Hnew2 as [?|(n & -> & ?)]; [by left|by right].
Qed.

Lemma wellFormed_createPhysicalNetworkLocked env s netId permission local :
  platformOk -> wellFormed s ->
  wellFormed (createPhysicalNetworkLocked env s netId permission local).2.
Proof.
  intros (_ & _ & _ & Hmin & Hmax) Hwf. unfold createPhysicalNetworkLocked.
  destruct (_ || _) eqn:Hrange; simpl; [|done].
  unfold isValidNetworkLocked, getNetworkLocked.
  destruct (mNetworks s !! netId) eqn:Hn; [done|].
  apply wellFormed_updateTcpSocketMonitorPolling.
  apply wellFormed_putNetwork_new; [by apply wellFormed_emit|done|done|].
  unfold MIN_NET_ID, MAX_NET_ID in Hrange.
  apply orb_true_iff in Hrange as [Hr|Hr]; apply andb_true_iff in Hr as [H1 H2];
    apply Z.leb_le in H1, H2; lia.
Qed.

Lemma wellFormed_createPhysicalOemNetwork env s permission :
  platformOk -> wellFormed s ->
  wellFormed (createPhysicalOemNetwork env s permission).2.
Proof.
  intros Hok Hwf. unfold createPhysicalOemNetwork.
  destruct (MAX_OEM_ID <? _); [done|].
  pose proof (wellFormed_createPhysicalNetworkLocked env s
                (scanOemIds s (Z.to_nat (MAX_OEM_ID + 1 - MIN_OEM_ID)) MIN_OEM_ID)
                permission false Hok Hwf) as Hc.
  by destruct (createPhysicalNetworkLocked _ _ _ _ _).
Qed.

Lemma modifyFallthroughLocked_state env s vpnNetId add :
  exists evs, (modifyFallthroughLocked env s vpnNetId add).2 = emit s evs.
Proof.
  unfold modifyFallthroughLocked.
  assert (s = emit s []) as Hs.
  { destruct s. unfold emit. simpl. by rewrite app_nil_r. }
  destruct (_ =? _); [by exists []|].
  destruct (getNetworkLocked _ _) as [n|]; [|by exists []].
  destruct (negb _); [by exists []|].
  destruct (modifyFallthroughOver _ _ _ _ _) as [ret evs]. by exists evs.
Qed.

Lemma wellFormed_modifyFallthroughLocked env s vpnNetId add :
  wellFormed s -> wellFormed (modifyFallthroughLocked env s vpnNetId add).2.
Proof.
  intros Hwf. destruct (modifyFallthroughLocked_state env s vpnNetId add) as [evs ->].
  by apply wellFormed_emit.
Qed.

Lemma wellFormed_createVirtualNetwork env s netId secure vpnType excl :
  wellFormed s -> wellFormed (createVirtualNetwork env s netId secure vpnType excl).2.
Proof.
  intros Hwf. unfold createVirtualNetwork.
  destruct (_ && _) eqn:Hrange; simpl; [|done].
  unfold isValidNetworkLocked, getNetworkLocked.
  destruct (mNetworks s !! netId) eqn:Hn; [done|].
  destruct (_ || _); [done|].
  destruct (modifyFallthroughLocked_state env s netId true) as [evs Hs1].
  destruct (modifyFallthroughLocked env s netId true) as [ret s1]. simpl in Hs1.
  subst s1. destruct (ret =? 0); simpl; [|by apply wellFormed_emit].
  apply wellFormed_putNetwork_new; [by apply wellFormed_emit|done|done|].
  unfold MIN_NET_ID, MAX_NET_ID in Hrange.
  apply andb_true_iff in Hrange as [H1 H2]. apply Z.leb_le in H1, H2. lia.
Qed.

(** Erasing a network that is not the default, or erasing the default and
    resetting it to UNSET. *)
Lemma wellFormed_erase s netId :
  wellFormed s ->
  mDefaultNetId s <> netId \/ mDefaultNetId s = NETID_UNSET ->
  wellFormed (set_mNetworks s (delete netId (mNetworks s))).
Proof.
  intros [Hall Hdef] Hne. split; simpl.
  - by apply map_Forall_delete.
  - destruct Hdef as [?|Hdef]; [by left|].
    destruct Hne as [Hne|?]; [right|by left]. by rewrite lookup_delete_ne.
Qed.

Lemma wellFormed_destroyNetwork env s netId :
  wellFormed s -> wellFormed (destroyNetwork env s netId).2.
Proof.
  intros Hwf. unfold destroyNetwork.
  destruct (_ || _); [done|].
  destruct (isValidNetworkLocked s netId); simpl; [|done].
  destruct (getNetworkLocked s netId) as [network|] eqn:Hn; [|done].
  pose proof (sameIdentity_clearInterfaces env network) as Hsame.
  destruct (clearInterfaces env network) as [[ret network'] evs]. simpl in Hsame.
  assert (wellFormed (emit (putNetwork s netId network') evs)) as Hwf1.
  { by apply wellFormed_emit, (wellFormed_putNetwork_same _ _ network). }
  assert (Hfinish : forall (r : Z) s2,
             wellFormed s2 ->
             mDefaultNetId s2 <> netId \/ mDefaultNetId s2 = NETID_UNSET ->
             wellFormed (r, updateTcpSocketMonitorPolling
               (set_mIfindexToLastNetId (set_mNetworks s2 (delete netId (mNetworks s2)))
                  (filter (fun kv => kv.2 ≠ netId)
                     (mIfindexToLastNetId
                        (set_mNetworks s2 (delete netId (mNetworks s2))))))).2).
  { intros r s2 Hwf2 Hd. simpl.
    apply (wellFormed_ext (set_mNetworks s2 (delete netId (mNetworks s2))));
      [done|done|]. by apply wellFormed_erase. }
  destruct (Z.eqb_spec (mDefaultNetId s) netId) as [Hd|Hd].
  - pose proof (sameIdentity_removeAsDefault env network') as Hsame2.
    destruct (removeAsDefault env network') as [[err network''] evs2].
    simpl in Hsame2.
    apply (Hfinish _ (set_mDefaultNetId
                        (emit (putNetwork (emit (putNetwork s netId network') evs)
                                 netId network'') evs2) NETID_UNSET)); [|by right].
    destruct Hwf1 as [Hall1 _]. split; simpl; [|by left].
    apply map_Forall_insert_2; [|done]. simpl in Hall1.
    destruct (Hall1 netId network') as [Hid ?]; [by rewrite lookup_insert_eq|].
    destruct Hsame2 as [Hid2 _]. unfold getNetId in *. by rewrite Hid2.
  - destruct (isVirtual network').
    + destruct (modifyFallthroughLocked_state env
                  (emit (putNetwork s netId network') evs) netId false) as [evs2 Hs2].
      destruct (modifyFallthroughLocked env _ netId false) as [err s2].
      simpl in Hs2. subst s2.
      apply (Hfinish _ (emit (emit (putNetwork s netId network') evs) evs2));
        [by apply wellFormed_emit|by left].
    + apply (Hfinish _ (emit (putNetwork s netId network') evs)); [done|by left].
Qed.

Lemma wellFormed_addInterfaceToNetwork env s netId iface :
  wellFormed s -> wellFormed (addInterfaceToNetwork env s netId iface).2.
Proof.
  intros Hwf. unfold addInterfaceToNetwork, getNetworkLocked.
  destruct (mNetworks s !! netId) as [n|] eqn:Hn; [|done].
  destruct (_ && _); [done|].
  pose proof (sameIdentity_addInterface env n iface) as Hsame.
  destruct (addInterface env n iface) as [[ret n'] evs]. simpl in Hsame.
  assert (wellFormed (emit (putNetwork s netId n') evs)) as Hwf1.
  { by apply wellFormed_emit, (wellFormed_putNetwork_same _ _ n). }
  repeat case_match; simpl; try done; by eapply wellFormed_ext.
Qed.

Lemma wellFormed_removeInterfaceFromNetwork env s netId iface :
  wellFormed s -> wellFormed (removeInterfaceFromNetwork env s netId iface).2.
Proof.
  intros Hwf. unfold removeInterfaceFromNetwork, getNetworkLocked.
  destruct (mNetworks s !! netId) as [n|] eqn:Hn; [|done].
  pose proof (sameIdentity_removeInterface env n iface) as Hsame.
  destruct (removeInterface env n iface) as [[ret n'] evs]. simpl in *.
  by apply wellFormed_emit, (wellFormed_putNetwork_same _ _ n).
Qed.

Lemma wellFormed_setPermissionForUsers s permission uids :
  wellFormed s -> wellFormed (setPermissionForUsers s permission uids).
Proof.
  unfold setPermissionForUsers. revert s.
  induction uids as [|uid uids IH]; intros s Hwf; simpl; [done|].
  apply IH. by eapply wellFormed_ext.
Qed.

Lemma wellFormed_setPermissionForNetworks env s permission netIds :
  wellFormed s -> wellFormed (setPermissionForNetworks env s permission netIds).2.
Proof.
  revert s. induction netIds as [|netId netIds IH]; intros s Hwf; simpl; [done|].
  unfold getNetworkLocked. destruct (mNetworks s !! netId) as [n|] eqn:Hn; [|done].
  destruct (negb _); [done|].
  pose proof (sameIdentity_setPermission env n permission) as Hsame.
  destruct (setPermission env n permission) as [[ret n'] evs]. simpl in Hsame.
  assert (wellFormed (emit (putNetwork s netId n') evs)) as Hwf1.
  { by apply wellFormed_emit, (wellFormed_putNetwork_same _ _ n). }
  destruct (negb _); [done|]. by apply IH.
Qed.

Lemma wellFormed_addUsersToNetwork env s netId ranges subPriority :
  wellFormed s -> wellFormed (addUsersToNetwork env s netId ranges subPriority).2.
Proof.
  intros Hwf. unfold addUsersToNetwork, getNetworkLocked.
  destruct (negb _); [done|].
  destruct (mNetworks s !! netId) as [n|] eqn:Hn; [|done].
  pose proof (sameIdentity_addUsers env n ranges subPriority) as Hsame.
  destruct (addUsers env n ranges subPriority) as [[ret n'] evs]. simpl in *.
  by apply wellFormed_emit, (wellFormed_putNetwork_same _ _ n).
Qed.

Lemma wellFormed_removeUsersFromNetwork env s netId ranges subPriority :
  wellFormed s -> wellFormed (removeUsersFromNetwork env s netId ranges subPriority).2.
Proof.
  intros Hwf. unfold removeUsersFromNetwork, getNetworkLocked.
  destruct (negb _); [done|].
  destruct (mNetworks s !! netId) as [n|] eqn:Hn; [|done].
  pose proof (sameIdentity_removeUsers env n ranges subPriority) as Hsame.
  destruct (removeUsers env n ranges subPriority) as [[ret n'] evs]. simpl in *.
  by apply wellFormed_emit, (wellFormed_putNetwork_same _ _ n).
Qed.

Lemma wellFormed_removeInterfaceAddress s ifindex address :
  wellFormed s -> wellFormed (removeInterfaceAddress s ifindex address).2.
Proof.
  intros Hwf. unfold removeInterfaceAddress.
  repeat case_match; simpl; try done; by eapply wellFormed_ext.
Qed.

Lemma wellFormed_applyAllowlists s rangeConfigs :
  wellFormed s -> wellFormed (fold_left applyAllowlist rangeConfigs s).
Proof.
  revert s. induction rangeConfigs as [|c l IH]; intros s Hwf; simpl; [done|].
  apply IH. unfold applyAllowlist, getNetworkLocked.
  destruct (mNetworks s !! cfgNetId c) as [n|] eqn:Hn; [|done].
  by apply (wellFormed_putNetwork_same _ _ n).
Qed.

Lemma wellFormed_setNetworkAllowlist s rangeConfigs :
  wellFormed s -> wellFormed (setNetworkAllowlist s rangeConfigs).2.
Proof.
  intros [Hall Hdef]. unfold setNetworkAllowlist.
  destruct (existsb _ _); simpl; [done|].
  apply wellFormed_applyAllowlists. split; simpl.
  - apply map_Forall_fmap. by apply (map_Forall_impl _ _ _ Hall).
  - destruct Hdef as [?|Hdef]; [by left|right]. rewrite lookup_fmap.
    by destruct (mNetworks s !! mDefaultNetId s).
Qed.

Lemma wellFormed_execute env c s :
  platformOk -> wellFormed s -> wellFormed (execute env c s).
Proof.
  intros Hok Hwf. destruct c; simpl.
  - by apply wellFormed_setDefaultNetwork.
  - by apply wellFormed_createPhysicalNetworkLocked.
  - by apply wellFormed_createPhysicalOemNetwork.
  - by apply wellFormed_createVirtualNetwork.
  - by apply wellFormed_destroyNetwork.
  - by apply wellFormed_addInterfaceToNetwork.
  - by apply wellFormed_removeInterfaceFromNetwork.
  - by apply wellFormed_setPermissionForUsers.
  - by apply wellFormed_setPermissionForNetworks.
  - by apply wellFormed_addUsersToNetwork.
  - by apply wellFormed_removeUsersFromNetwork.
  - unfold addInterfaceAddress. case_match; [done|]. by eapply wellFormed_ext.
  - by apply wellFormed_removeInterfaceAddress.
  - unfold allowProtect. case_match; simpl; [done|]. by eapply wellFormed_ext.
  - unfold denyProtect. case_match; simpl; [|done]. by eapply wellFormed_ext.
  - by apply wellFormed_setNetworkAllowlist.
Qed.

(** Every state the registry can be in is well-formed, on a platform whose
    sentinels and OEM range are 16-bit handles other than UNSET. *)
Lemma reachable_wellFormed s : platformOk -> reachable s -> wellFormed s.
Proof.
  intros Hok. induction 1 as [|env c s _ IH].
  - by apply wellFormed_initial.
  - by apply wellFormed_execute.
Qed.

End Invariant.

Lemma android_platformOk : platformOk (H := android).
Proof. unfold platformOk. simpl. lia. Qed.


(** * Further properties of the registry *)

(** ** Destroying a network *)

Section Destroy.
Context `{Platform}.

Lemma destroyNetwork_state env s netId network :
  netId <> LOCAL_NET_ID -> netId <> UNREACHABLE_NET_ID ->
  mNetworks s !! netId = Some network ->
  mNetworks (destroyNetwork env s netId).2 = delete netId (mNetworks s)
  /\ mIfindexToLastNetId (destroyNetwork env s netId).2
     = filter (fun kv => kv.2 <> netId) (mIfindexToLastNetId s)
  /\ mDefaultNetId (destroyNetwork env s netId).2
     = (if mDefaultNetId s =? netId then NETID_UNSET else mDefaultNetId s)
  /\ mUsers (destroyNetwork env s netId).2 = mUsers s
  /\ mProtectableUsers (destroyNetwork env s netId).2 = mProtectableUsers s
  /\ mAddressToIfindices (destroyNetwork env s netId).2 = mAddressToIfindices s.
Proof.
  intros Hl Hu Hn. unfold destroyNetwork.
  destruct (Z.eqb_spec netId LOCAL_NET_ID) as [?|_]; [done|].
  destruct (Z.eqb_spec netId UNREACHABLE_NET_ID) as [?|_]; [done|].
  unfold isValidNetworkLocked, getNetworkLocked. rewrite Hn. simpl.
  destruct (clearInterfaces env network) as [[ret network'] evs].
  destruct (mDefaultNetId s =? netId).
  - destruct (removeAsDefault env network') as [[err network''] evs2]. simpl.
    by rewrite !delete_insert_eq.
  - destruct (isVirtual network').
    + destruct (modifyFallthroughLocked_state env
                  (emit (putNetwork s netId network') evs) netId false) as [evs2 Hs2].
      destruct (modifyFallthroughLocked env _ netId false) as [err s2].
      simpl in Hs2. subst s2. simpl. by rewrite delete_insert_eq.
    + simpl. by rewrite delete_insert_eq.
Qed.

(** X1: destroying a registered network other than LOCAL and UNREACHABLE
    clears its state whatever the kernel answers: the network is no longer
    registered, every other network is as before, no interface has it as
    its last netId while the other entries stay, the default is reset to
    UNSET if it was this network and is as before otherwise, and an access
    check on the netId reports that there is no such network. *)
Theorem destroyNetwork_cleans_up env s netId network :
  netId <> LOCAL_NET_ID -> netId <> UNREACHABLE_NET_ID ->
  mNetworks s !! netId = Some network ->
  mNetworks (destroyNetwork env s netId).2 !! netId = None
  /\ (forall k, k <> netId ->
        mNetworks (destroyNetwork env s netId).2 !! k = mNetworks s !! k)
  /\ (forall idx, mIfindexToLastNetId (destroyNetwork env s netId).2 !! idx
                  <> Some netId)
  /\ (forall idx v, v <> netId -> mIfindexToLastNetId s !! idx = Some v ->
        mIfindexToLastNetId (destroyNetwork env s netId).2 !! idx = Some v)
  /\ getDefaultNetwork (destroyNetwork env s netId).2
     = (if getDefaultNetwork s =? netId then NETID_UNSET else getDefaultNetwork s)
  /\ (forall uid, checkUserNetworkAccess (destroyNetwork env s netId).2 uid netId
                  = - ENONET).
Proof.
  intros Hl Hu Hn.
  destruct (destroyNetwork_state env s netId network Hl Hu Hn)
    as (Hnet & Hidx & Hdef & _).
  split; [by rewrite Hnet, lookup_delete_eq|].
  split; [by intros k Hk; rewrite Hnet, lookup_delete_ne|].
  split; [|split; [|split]].
  - intros idx Hidx'. rewrite Hidx in Hidx'.
    apply map_lookup_filter_Some in Hidx' as [_ Hne]. by apply Hne.
  - intros idx v Hv Hlook. rewrite Hidx. by apply map_lookup_filter_Some.
  - done.
  - intros uid. unfold checkUserNetworkAccess, checkUserNetworkAccessLocked,
      getNetworkLocked. by rewrite Hnet, lookup_delete_eq.
Qed.

Lemma clearInterfacesFrom_quiet env netId ifaces :
  (forall e, kernel env e = 0) -> (clearInterfacesFrom env netId ifaces).1.1 = 0.
Proof.
  intros Hq. induction ifaces as [|iface rest IH]; simpl; [done|].
  rewrite Hq. simpl. by destruct (clearInterfacesFrom env netId rest) as [[r l] e].
Qed.

Lemma modifyFallthroughOver_quiet env vpnNetId permission add ifaces :
  (forall e, kernel env e = 0) ->
  (modifyFallthroughOver env vpnNetId permission add ifaces).1 = 0.
Proof.
  intros Hq. induction ifaces as [|iface rest IH]; simpl; [done|].
  rewrite Hq. simpl. by destruct (modifyFallthroughOver env _ _ _ rest).
Qed.

(** X2: [destroyNetwork] on a netId that is not registered (and is neither
    LOCAL nor UNREACHABLE) returns -ENONET and changes nothing; on a
    well-formed registry with a kernel that grants every request it returns
    success for every registered network other than LOCAL and
    UNREACHABLE. *)
Theorem destroyNetwork_result env s netId :
  netId <> LOCAL_NET_ID -> netId <> UNREACHABLE_NET_ID ->
  (mNetworks s !! netId = None -> destroyNetwork env s netId = (- ENONET, s))
  /\ (is_Some (mNetworks s !! netId) -> wellFormed s ->
      (forall e, kernel env e = 0) ->
      (destroyNetwork env s netId).1 = 0).
Proof.
  intros Hl Hu. unfold destroyNetwork.
  destruct (Z.eqb_spec netId LOCAL_NET_ID) as [?|_]; [done|].
  destruct (Z.eqb_spec netId UNREACHABLE_NET_ID) as [?|_]; [done|].
  unfold isValidNetworkLocked, getNetworkLocked. split.
  - by intros ->.
  - intros [network Hn] Hwf Hq. rewrite Hn. simpl.
    unfold clearInterfaces.
    pose proof (clearInterfacesFrom_quiet env (mNetId network) (mInterfaces network) Hq)
      as Hclear.
    destruct (clearInterfacesFrom env (mNetId network) (mInterfaces network))
      as [[ret remaining] evs]. simpl in Hclear. subst ret.
    destruct (Z.eqb_spec (mDefaultNetId s) netId) as [Hdn|Hdn].
    + unfold removeAsDefault. rewrite Hq. reflexivity.
    + simpl. destruct (isVirtual (set_mInterfaces network remaining)); [|reflexivity].
      unfold modifyFallthroughLocked. simpl.
      destruct (mDefaultNetId s =? NETID_UNSET) eqn:Hd; [reflexivity|].
      destruct (wellFormed_default _ Hwf) as [Hd'|(o & Ho & Hp)].
      { rewrite Hd' in Hd. done. }
      unfold getNetworkLocked. simpl.
      rewrite lookup_insert_ne by done. rewrite Ho, Hp. simpl.
      pose proof (modifyFallthroughOver_quiet env netId (getPermission o) false
                    (getInterfaces o) Hq) as Hover.
      destruct (modifyFallthroughOver _ _ _ _ _) as [r e]. simpl in *. by subst r.
Qed.

End Destroy.

(** ** Creating networks *)

Section Create.
Context `{Platform}.

Lemma is_Some_insert_existing (m : gmap Z Network) k x j :
  is_Some (m !! k) -> (is_Some (<[k := x]> m !! j) <-> is_Some (m !! j)).
Proof.
  intros Hk. rewrite lookup_insert_is_Some'. split; [|by right].
  by intros [<-|?].
Qed.

(** X3: a successful [createPhysicalNetwork] registers a physical network
    with the given permission under a netId that was free, and touches no
    other network; destroying that network right away succeeds whatever the
    kernel answers (there is nothing to ask of it) and gives back the
    networks and the default of before. *)
Theorem createPhysicalNetwork_then_destroy env env' s netId permission local :
  (createPhysicalNetwork env s netId permission local).1 = 0 ->
  netId <> LOCAL_NET_ID -> netId <> UNREACHABLE_NET_ID ->
  getDefaultNetwork s <> netId ->
  mNetworks s !! netId = None
  /\ mNetworks (createPhysicalNetwork env s netId permission local).2
     = <[netId := set_mPermission (PhysicalNetwork netId local) permission]>
         (mNetworks s)
  /\ (destroyNetwork env'
        (createPhysicalNetwork env s netId permission local).2 netId).1 = 0
  /\ mNetworks (destroyNetwork env'
                  (createPhysicalNetwork env s netId permission local).2 netId).2
     = mNetworks s
  /\ getDefaultNetwork
       (destroyNetwork env'
          (createPhysicalNetwork env s netId permission local).2 netId).2
     = getDefaultNetwork s.
Proof.
  unfold createPhysicalNetwork, createPhysicalNetworkLocked, getDefaultNetwork.
  intros Hret Hl Hu Hd.
  destruct (_ || _); simpl in *; [|done].
  unfold isValidNetworkLocked, getNetworkLocked in *.
  destruct (mNetworks s !! netId) eqn:Hn; [done|]. simpl in *.
  split; [done|]. split; [done|].
  unfold destroyNetwork.
  destruct (Z.eqb_spec netId LOCAL_NET_ID) as [?|_]; [done|].
  destruct (Z.eqb_spec netId UNREACHABLE_NET_ID) as [?|_]; [done|].
  unfold isValidNetworkLocked, getNetworkLocked. simpl.
  rewrite lookup_insert_eq. simpl.
  destruct (Z.eqb_spec (mDefaultNetId s) netId) as [?|_]; [done|]. simpl.
  split; [done|]. split; [|done].
  rewrite !delete_insert_eq. by apply delete_id.
Qed.

(** X4: [createVirtualNetwork] registers the VPN only when its netId is in
    [MIN_NET_ID..MAX_NET_ID] and free, its type is valid, and every
    fallthrough request succeeded; whenever it fails the registered
    networks are as before, and with no default network it sends no
    request at all. *)
Theorem createVirtualNetwork_result env s netId secure vpnType excl :
  ((createVirtualNetwork env s netId secure vpnType excl).1 = 0 ->
   MIN_NET_ID <= netId <= MAX_NET_ID
   /\ mNetworks s !! netId = None
   /\ VPN_TYPE_SERVICE <= vpnType <= VPN_TYPE_OEM_LEGACY
   /\ mNetworks (createVirtualNetwork env s netId secure vpnType excl).2
      = <[netId := VirtualNetwork netId secure excl]> (mNetworks s))
  /\ ((createVirtualNetwork env s netId secure vpnType excl).1 <> 0 ->
      mNetworks (createVirtualNetwork env s netId secure vpnType excl).2
      = mNetworks s)
  /\ (getDefaultNetwork s = NETID_UNSET ->
      mEffects (createVirtualNetwork env s netId secure vpnType excl).2 = mEffects s).
Proof.
  unfold createVirtualNetwork, getDefaultNetwork.
  destruct ((MIN_NET_ID <=? netId) && (netId <=? MAX_NET_ID)) eqn:Hrange; simpl;
    [|by repeat split].
  unfold isValidNetworkLocked, getNetworkLocked.
  destruct (mNetworks s !! netId) eqn:Hn; [by repeat split|].
  destruct ((vpnType <? VPN_TYPE_SERVICE) || (VPN_TYPE_OEM_LEGACY <? vpnType))
    eqn:Htype; [by repeat split|].
  apply andb_true_iff in Hrange as [Hr1 Hr2]. apply Z.leb_le in Hr1, Hr2.
  apply orb_false_iff in Htype as [Ht1 Ht2]. apply Z.ltb_ge in Ht1, Ht2.
  destruct (modifyFallthroughLocked_state env s netId true) as [evs Hs1].
  assert (getDefaultNetworkUnset :
            mDefaultNetId s = NETID_UNSET ->
            modifyFallthroughLocked env s netId true = (0, s)).
  { intros Hd. unfold modifyFallthroughLocked. by rewrite Hd. }
  destruct (modifyFallthroughLocked env s netId true) as [ret s1] eqn:Hm.
  simpl in Hs1. subst s1.
  destruct (Z.eqb_spec ret 0) as [->|Hret]; simpl.
  - split; [by intros _|]. split; [done|].
    intros Hd. specialize (getDefaultNetworkUnset Hd).
    injection getDefaultNetworkUnset as Hs.
    apply (f_equal mEffects) in Hs. exact Hs.
  - split; [done|]. split; [done|].
    intros Hd. specialize (getDefaultNetworkUnset Hd).
    injection getDefaultNetworkUnset as Hr Hs.
    apply (f_equal mEffects) in Hs. exact Hs.
Qed.

(** X5: a [setDefaultNetwork] that fails leaves the default as it was; a
    netId that is neither UNSET nor registered is refused with -ENONET and
    a registered network that is not physical with -EINVAL, both without
    any change; and no call registers or forgets a network. *)
Theorem setDefaultNetwork_failure env s netId :
  ((setDefaultNetwork env s netId).1 <> 0 ->
   getDefaultNetwork (setDefaultNetwork env s netId).2 = getDefaultNetwork s)
  /\ (netId <> getDefaultNetwork s -> netId <> NETID_UNSET ->
      mNetworks s !! netId = None ->
      setDefaultNetwork env s netId = (- ENONET, s))
  /\ (forall network,
        netId <> getDefaultNetwork s -> netId <> NETID_UNSET ->
        mNetworks s !! netId = Some network -> isPhysical network = false ->
        setDefaultNetwork env s netId = (- EINVAL, s))
  /\ (forall k, is_Some (mNetworks (setDefaultNetwork env s netId).2 !! k)
                <-> is_Some (mNetworks s !! k)).
Proof.
  unfold getDefaultNetwork. split; [|split; [|split]].
  - unfold setDefaultNetwork, addAsDefault, removeAsDefault.
    destruct (Z.eqb_spec netId (mDefaultNetId s)) as [->|Hne]; [done|].
    repeat (case_match; simpl in *; simplify_eq); try done; try lia.
  - intros Hne Hu Hn. unfold setDefaultNetwork, getNetworkLocked.
    destruct (Z.eqb_spec netId (mDefaultNetId s)) as [?|_]; [done|].
    destruct (Z.eqb_spec netId NETID_UNSET) as [?|_]; [done|].
    by rewrite Hn.
  - intros network Hne Hu Hn Hp. unfold setDefaultNetwork, getNetworkLocked.
    destruct (Z.eqb_spec netId (mDefaultNetId s)) as [?|_]; [done|].
    destruct (Z.eqb_spec netId NETID_UNSET) as [?|_]; [done|].
    by rewrite Hn, Hp.
  - intros k. split; [|apply keeps_setDefaultNetwork].
    unfold setDefaultNetwork.
    destruct (netId =? mDefaultNetId s); [done|].
    set (r1 := if negb (netId =? NETID_UNSET) then _ else _).
    assert (forall j, is_Some (mNetworks r1.2 !! j) -> is_Some (mNetworks s !! j))
      as Hr1.
    { subst r1. destruct (negb (netId =? NETID_UNSET)); [|done].
      unfold getNetworkLocked.
      destruct (mNetworks s !! netId) as [n|] eqn:Hn; [|done].
      destruct (negb (isPhysical n)); [done|].
      destruct (addAsDefault env n) as [[ret n'] evs]. simpl.
      intros j. rewrite (is_Some_insert_existing _ netId n' j); eauto. }
    destruct (negb (r1.1 =? 0)); [by apply Hr1|].
    set (r2 := if negb (mDefaultNetId r1.2 =? NETID_UNSET) then _ else _).
    assert (forall j, is_Some (mNetworks r2.2 !! j) -> is_Some (mNetworks r1.2 !! j))
      as Hr2.
    { subst r2. destruct (negb (mDefaultNetId r1.2 =? NETID_UNSET)); [|done].
      unfold getNetworkLocked.
      destruct (mNetworks r1.2 !! mDefaultNetId r1.2) as [o|] eqn:Ho; [|done].
      destruct (negb (isPhysical o)); [done|].
      destruct (removeAsDefault env o) as [[ret o'] evs]. simpl.
      intros j. rewrite (is_Some_insert_existing _ (mDefaultNetId r1.2) o' j); eauto. }
    destruct (negb (r2.1 =? 0)); simpl; intros Hk; by apply Hr1, Hr2.
Qed.

End Create.

(** ** Protecting sockets and permissions of users *)

Section Protect.
Context `{Platform}.

(** X6: [allowProtect] refuses an entry that is present with -EEXIST and
    [denyProtect] one that is absent with -ENOENT, both without change;
    allowing an absent entry and denying it again succeeds twice and gives
    back the protectable set of before. *)
Theorem allowProtect_denyProtect s uid netId :
  ((uid, netId) ∈ mProtectableUsers s -> allowProtect s uid netId = (- EEXIST, s))
  /\ ((uid, netId) ∉ mProtectableUsers s -> denyProtect s uid netId = (- ENOENT, s))
  /\ ((uid, netId) ∉ mProtectableUsers s ->
      (allowProtect s uid netId).1 = 0
      /\ (denyProtect (allowProtect s uid netId).2 uid netId).1 = 0
      /\ mProtectableUsers (denyProtect (allowProtect s uid netId).2 uid netId).2
         = mProtectableUsers s).
Proof.
  unfold allowProtect, denyProtect. split; [|split].
  - intros Hin. by rewrite bool_decide_eq_true_2.
  - intros Hnot. by rewrite bool_decide_eq_false_2.
  - intros Hnot. rewrite bool_decide_eq_false_2 by done. simpl.
    rewrite bool_decide_eq_true_2 by (by apply elem_of_union_l, elem_of_singleton).
    simpl. split; [done|]. split; [done|].
    apply set_eq. intros x.
    rewrite elem_of_difference, elem_of_union, elem_of_singleton. split.
    + by intros [[?|?] ?].
    + intros Hx. split; [by right|]. by intros ->.
Qed.

(** X7: after [allowProtect(uid, netId)] the uid can protect its sockets on
    that network, and after [allowProtect(uid, UNSET)] on every network;
    a uid without the SYSTEM permission that has neither entry cannot. *)
Theorem allowProtect_canProtect s uid netId :
  canProtect (allowProtect s uid netId).2 uid netId = true
  /\ (forall k, canProtect (allowProtect s uid NETID_UNSET).2 uid k = true)
  /\ (hasSystem (getPermissionForUser s uid) = false ->
      (uid, NETID_UNSET) ∉ mProtectableUsers s ->
      (uid, netId) ∉ mProtectableUsers s ->
      canProtect s uid netId = false).
Proof.
  unfold canProtect, canProtectLocked, isProtectableLocked, allowProtect, hasSystem,
    getPermissionForUser.
  split; [|split].
  - destruct (_ =? _); [done|].
    destruct (decide ((uid, netId) ∈ mProtectableUsers s)) as [Hin|Hnot].
    + rewrite (bool_decide_eq_true_2 _ Hin). simpl.
      rewrite (bool_decide_eq_true_2 ((uid, netId) ∈ mProtectableUsers s)) by done.
      apply orb_true_r.
    + rewrite (bool_decide_eq_false_2 _ Hnot). simpl.
      rewrite (bool_decide_eq_true_2
                 ((uid, netId) ∈ {[(uid, netId)]} ∪ mProtectableUsers s))
        by (by apply elem_of_union_l, elem_of_singleton).
      apply orb_true_r.
  - intros k. destruct (_ =? _); [done|].
    destruct (decide ((uid, NETID_UNSET) ∈ mProtectableUsers s)) as [Hin|Hnot].
    + rewrite (bool_decide_eq_true_2 _ Hin). simpl.
      by rewrite (bool_decide_eq_true_2 _ Hin).
    + rewrite (bool_decide_eq_false_2 _ Hnot). simpl.
      by rewrite (bool_decide_eq_true_2
                    ((uid, NETID_UNSET)
                       ∈ {[(uid, NETID_UNSET)]} ∪ mProtectableUsers s))
        by (by apply elem_of_union_l, elem_of_singleton).
  - intros -> Hu Hn. by rewrite !bool_decide_eq_false_2.
Qed.

Lemma setPermissionForUsers_lookup s permission uids uid :
  mUsers (setPermissionForUsers s permission uids) !! uid
  = if bool_decide (uid ∈ uids) then Some permission else mUsers s !! uid.
Proof.
  unfold setPermissionForUsers. revert s.
  induction uids as [|u uids IH]; intros s; simpl; [done|].
  rewrite IH. simpl.
  destruct (decide (uid ∈ uids)) as [Hin|Hnot].
  - rewrite (bool_decide_eq_true_2 _ Hin).
    by rewrite bool_decide_eq_true_2 by (by right).
  - rewrite (bool_decide_eq_false_2 _ Hnot).
    destruct (decide (u = uid)) as [->|Hne].
    + rewrite lookup_insert_eq. by rewrite bool_decide_eq_true_2 by (by left).
    + rewrite lookup_insert_ne by done.
      rewrite bool_decide_eq_false_2; [done|].
      intros Hin. apply elem_of_cons in Hin as [?|?]; congruence.
Qed.

(** X8: after [setPermissionForUsers(permission, uids)] every listed uid
    has that permission and every other uid the one it had; a uid that was
    given the SYSTEM permission passes the access check of every
    registered network, and can protect its sockets on every network. *)
Theorem setPermissionForUsers_effect s permission uids uid :
  getPermissionForUser (setPermissionForUsers s permission uids) uid
  = (if bool_decide (uid ∈ uids) then permission else getPermissionForUser s uid)
  /\ (uid ∈ uids -> permission = PERMISSION_SYSTEM -> uid <> INVALID_UID ->
      forall netId,
        (is_Some (mNetworks s !! netId) ->
         checkUserNetworkAccess (setPermissionForUsers s permission uids) uid netId
         = 0)
        /\ canProtect (setPermissionForUsers s permission uids) uid netId = true).
Proof.
  assert (Hperm : getPermissionForUser (setPermissionForUsers s permission uids) uid
                  = (if bool_decide (uid ∈ uids) then permission
                     else getPermissionForUser s uid)).
  { unfold getPermissionForUser, getPermissionForUserLocked.
    rewrite setPermissionForUsers_lookup. by destruct (bool_decide (uid ∈ uids)). }
  split; [exact Hperm|].
  intros Hin -> Hvalid netId.
  rewrite bool_decide_eq_true_2 in Hperm by done.
  unfold getPermissionForUser in Hperm. split.
  - intros [n Hn].
    unfold checkUserNetworkAccess, checkUserNetworkAccessLocked, getNetworkLocked.
    destruct (keeps_setPermissionForUsers s PERMISSION_SYSTEM uids) as [Hdom _].
    destruct (Hdom netId) as [n' ->]; [eauto|].
    destruct (Z.eqb_spec uid INVALID_UID) as [?|_]; [done|].
    rewrite Hperm, Z.land_diag. by rewrite Z.eqb_refl.
  - unfold canProtect, canProtectLocked.
    rewrite Hperm, Z.land_diag. by rewrite Z.eqb_refl.
Qed.

End Protect.

(** ** Addresses of interfaces *)

Section Addresses.
Context `{Platform}.

Lemma set_mAddressToIfindices_same s :
  set_mAddressToIfindices s (mAddressToIfindices s) = s.
Proof. by destruct s. Qed.

Lemma removeInterfaceAddress_last s ifindex address ifindices :
  mAddressToIfindices s !! address = Some ifindices ->
  ifindex ∈ ifindices ->
  ifindices ∖ {[ifindex]} = ∅ ->
  removeInterfaceAddress s ifindex address
  = (true, set_mAddressToIfindices s (delete address (mAddressToIfindices s))).
Proof.
  intros Ha Hin He. unfold removeInterfaceAddress. rewrite Ha.
  rewrite bool_decide_eq_true_2 by done. rewrite He.
  by rewrite (bool_decide_eq_true_2 _ (size_empty (C := gset Z))).
Qed.

(** X9: [addInterfaceAddress] ignores the index zero; for another index it
    records the index under the address and leaves the other addresses
    alone; recording an index under an address that was not recorded and
    removing it again tells the caller to close the sockets and gives back
    the registry of before. *)
Theorem addInterfaceAddress_then_remove s ifIndex address :
  addInterfaceAddress s 0 address = s
  /\ (ifIndex <> 0 ->
      (exists ifindices,
          mAddressToIfindices (addInterfaceAddress s ifIndex address) !! address
          = Some ifindices
          /\ forall i, i ∈ ifindices <->
                       i = ifIndex
                       \/ exists old, mAddressToIfindices s !! address = Some old
                                      /\ i ∈ old)
      /\ (forall other, other <> address ->
            mAddressToIfindices (addInterfaceAddress s ifIndex address) !! other
            = mAddressToIfindices s !! other)
      /\ (mAddressToIfindices s !! address = None ->
          removeInterfaceAddress (addInterfaceAddress s ifIndex address)
            ifIndex address = (true, s))).
Proof.
  split; [done|]. intros Hne. unfold addInterfaceAddress.
  destruct (Z.eqb_spec ifIndex 0) as [?|_]; [done|]. simpl.
  split; [|split].
  - eexists. rewrite lookup_insert_eq. split; [done|]. intros i.
    rewrite elem_of_union, elem_of_singleton.
    destruct (mAddressToIfindices s !! address) as [old|]; simpl.
    + split; [intros [?|?]; eauto|]. intros [?|(old' & [= <-] & ?)]; auto.
    + split; [intros [?|Hin]; [by left|by apply not_elem_of_empty in Hin]|].
      intros [?|(old' & [=] & _)]. by left.
  - intros other Hother. by rewrite lookup_insert_ne.
  - intros Hnone.
    rewrite (removeInterfaceAddress_last _ _ _ ({[ifIndex]} ∪ ∅)).
    + simpl. rewrite delete_insert_eq, delete_id by done.
      destruct s. reflexivity.
    + simpl. by rewrite lookup_insert_eq, Hnone.
    + by apply elem_of_union_l, elem_of_singleton.
    + apply set_eq. intros x.
      rewrite elem_of_difference, elem_of_union, elem_of_singleton.
      split; [|by intros Hx; apply not_elem_of_empty in Hx].
      intros [[?|Hx] ?]; [done|by apply not_elem_of_empty in Hx].
Qed.

Lemma handoverLoop_table s lastNetId ifindices m :
  (forall idx v, m !! idx = Some v ->
                 (handoverLoop s lastNetId ifindices m).2 !! idx = Some v)
  /\ (forall idx v, (handoverLoop s lastNetId ifindices m).2 !! idx = Some v ->
                    m !! idx = Some v \/ (m !! idx = None /\ v = 0 /\ idx ∈ ifindices)).
Proof.
  revert m. induction ifindices as [|i rest IH]; intros m; simpl.
  - split; [done|]. intros idx v Hv. by left.
  - assert (Hsub : (forall idx v, m !! idx = Some v ->
                                  (subscript m i).2 !! idx = Some v)
                   /\ (forall idx v, (subscript m i).2 !! idx = Some v ->
                                     m !! idx = Some v
                                     \/ (m !! idx = None /\ v = 0 /\ idx = i))).
    { unfold subscript. destruct (m !! i) eqn:Hi; simpl.
      - split; [done|]. intros idx v Hv. by left.
      - split.
        + intros idx v Hv. rewrite lookup_insert_ne; [done|]. congruence.
        + intros idx v. destruct (decide (i = idx)) as [->|Hne].
          * rewrite lookup_insert_eq. intros [= <-]. by right.
          * rewrite lookup_insert_ne by done. by left. }
    destruct (subscript m i) as [activeNetId m']. simpl in Hsub.
    destruct Hsub as [Hkeep Hnew].
    destruct ((lastNetId =? activeNetId) && isVirtualNetworkLocked s activeNetId).
    + simpl. split; [done|]. intros idx v Hv.
      destruct (Hnew _ _ Hv) as [?|(? & ? & ->)]; [by left|right].
      split; [done|]. split; [done|]. by left.
    + destruct (IH m') as [IHkeep IHnew]. split.
      * intros idx v Hv. by apply IHkeep, Hkeep.
      * intros idx v Hv. destruct (IHnew _ _ Hv) as [Hm'|(Hm' & -> & Hin)].
        -- destruct (Hnew _ _ Hm') as [?|(? & ? & ->)]; [by left|right].
           split; [done|]. split; [done|]. by left.
        -- right. split; [|split; [done|by right]].
           destruct (m !! idx) eqn:Hm; [|done].
           by rewrite (Hkeep _ _ Hm) in Hm'.
Qed.

(** X10: [removeInterfaceAddress] changes nothing but the two tables.  It
    takes the index out of the set of the address, and erases the address
    when that leaves no index; the other addresses stay.  In the table of
    last netIds it never changes or removes an entry: what it adds are
    entries with the netId zero for indices that still carry the
    address. *)
Theorem removeInterfaceAddress_tables s ifindex address :
  mNetworks (removeInterfaceAddress s ifindex address).2 = mNetworks s
  /\ mDefaultNetId (removeInterfaceAddress s ifindex address).2 = mDefaultNetId s
  /\ mUsers (removeInterfaceAddress s ifindex address).2 = mUsers s
  /\ mProtectableUsers (removeInterfaceAddress s ifindex address).2
     = mProtectableUsers s
  /\ (forall other, other <> address ->
        mAddressToIfindices (removeInterfaceAddress s ifindex address).2 !! other
        = mAddressToIfindices s !! other)
  /\ (forall ifindices,
        mAddressToIfindices s !! address = Some ifindices -> ifindex ∈ ifindices ->
        mAddressToIfindices (removeInterfaceAddress s ifindex address).2 !! address
        = if bool_decide (ifindices ∖ {[ifindex]} = ∅) then None
          else Some (ifindices ∖ {[ifindex]}))
  /\ (forall idx v, mIfindexToLastNetId s !! idx = Some v ->
        mIfindexToLastNetId (removeInterfaceAddress s ifindex address).2 !! idx
        = Some v)
  /\ (forall idx v,
        mIfindexToLastNetId (removeInterfaceAddress s ifindex address).2 !! idx
        = Some v ->
        mIfindexToLastNetId s !! idx = Some v
        \/ (mIfindexToLastNetId s !! idx = None /\ v = 0
            /\ exists ifindices, mAddressToIfindices s !! address = Some ifindices
                                 /\ idx ∈ ifindices /\ idx <> ifindex)).
Proof.
  unfold removeInterfaceAddress.
  destruct (mAddressToIfindices s !! address) as [ifindices|] eqn:Ha;
    [|by repeat split; auto].
  destruct (decide (ifindex ∈ ifindices)) as [Hin|Hnot].
  2:{ rewrite bool_decide_eq_false_2 by done.
      repeat split; auto; try done. by intros X [= <-] ?. }
  rewrite bool_decide_eq_true_2 by done.
  destruct (decide (ifindices ∖ {[ifindex]} = ∅)) as [He|Hne].
  - rewrite He. rewrite (bool_decide_eq_true_2 _ (size_empty (C := gset Z))). simpl.
    repeat split; auto.
    + intros other Hother. by rewrite lookup_delete_ne.
    + intros X [= <-] _. rewrite lookup_delete_eq.
      by rewrite bool_decide_eq_true_2.
  - rewrite bool_decide_eq_false_2.
    2:{ intros Hsize. apply size_empty_inv in Hsize. by apply leibniz_equiv in Hsize. }
    simpl. destruct (mIfindexToLastNetId s !! ifindex) as [lastNetId|] eqn:Hl.
    + pose proof (handoverLoop_table
                    (set_mAddressToIfindices s
                       (<[address := ifindices ∖ {[ifindex]}]> (mAddressToIfindices s)))
                    lastNetId (elements (ifindices ∖ {[ifindex]}))
                    (mIfindexToLastNetId s)) as [Hkeep Hnew].
      destruct (handoverLoop _ _ _ _) as [r m]. simpl in *.
      repeat split; auto.
      * intros other Hother. by rewrite lookup_insert_ne.
      * intros X [= <-] _. rewrite lookup_insert_eq.
        by rewrite bool_decide_eq_false_2.
      * intros idx v Hv. destruct (Hnew _ _ Hv) as [?|(? & ? & Hidx)]; [by left|].
        right. split; [done|]. split; [done|]. exists ifindices.
        apply elem_of_elements, elem_of_difference in Hidx as [? Hidx].
        split; [done|]. split; [done|]. intros ->. apply Hidx.
        by apply elem_of_singleton.
    + simpl. repeat split; auto.
      * intros other Hother. by rewrite lookup_insert_ne.
      * intros X [= <-] _. rewrite lookup_insert_eq.
        by rewrite bool_decide_eq_false_2.
Qed.

End Addresses.

(** ** The tables in the states the registry can be in *)

Section Tables.
Context `{Platform}.

Ltac tables_step :=
  unfold sameTables in *; simpl in *;
  try match goal with H : _ /\ _ |- _ => destruct H end;
  try (split; congruence).

Lemma sameTables_trans s1 s2 s3 :
  sameTables s1 s2 -> sameTables s2 s3 -> sameTables s1 s3.
Proof. intros [? ?] [? ?]. split; congruence. Qed.

Lemma sameTables_setDefaultNetwork env s netId :
  sameTables s (setDefaultNetwork env s netId).2.
Proof.
  unfold setDefaultNetwork, addAsDefault, removeAsDefault.
  repeat (case_match; simpl in *; simplify_eq); tables_step.
Qed.

Lemma sameTables_createPhysicalNetworkLocked env s netId permission local :
  sameTables s (createPhysicalNetworkLocked env s netId permission local).2.
Proof.
  unfold createPhysicalNetworkLocked, setPermission.
  repeat (case_match; simpl in *; simplify_eq); tables_step.
Qed.

Lemma sameTables_createPhysicalOemNetwork env s permission :
  sameTables s (createPhysicalOemNetwork env s permission).2.
Proof.
  unfold createPhysicalOemNetwork.
  destruct (MAX_OEM_ID <? _); [by split|].
  pose proof (sameTables_createPhysicalNetworkLocked env s
                (scanOemIds s (Z.to_nat (MAX_OEM_ID + 1 - MIN_OEM_ID)) MIN_OEM_ID)
                permission false) as Hk.
  by destruct (createPhysicalNetworkLocked _ _ _ _ _).
Qed.

Lemma sameTables_modifyFallthroughLocked env s vpnNetId add :
  sameTables s (modifyFallthroughLocked env s vpnNetId add).2.
Proof.
  destruct (modifyFallthroughLocked_state env s vpnNetId add) as [evs ->].
  by split.
Qed.

Lemma sameTables_createVirtualNetwork env s netId secure vpnType excl :
  sameTables s (createVirtualNetwork env s netId secure vpnType excl).2.
Proof.
  unfold createVirtualNetwork.
  pose proof (sameTables_modifyFallthroughLocked env s netId true) as Hk.
  repeat (case_match; simpl in *; simplify_eq); tables_step.
Qed.

Lemma sameTables_removeInterfaceFromNetwork env s netId iface :
  sameTables s (removeInterfaceFromNetwork env s netId iface).2.
Proof.
  unfold removeInterfaceFromNetwork, removeInterface.
  repeat (case_match; simpl in *; simplify_eq); tables_step.
Qed.

Lemma sameTables_setPermissionForUsers s permission uids :
  sameTables s (setPermissionForUsers s permission uids).
Proof.
  unfold setPermissionForUsers. revert s.
  induction uids as [|uid uids IH]; intros s; simpl; [by split|].
  eapply sameTables_trans; [|apply IH]. by split.
Qed.

Lemma sameTables_setPermissionForNetworks env s permission netIds :
  sameTables s (setPermissionForNetworks env s permission netIds).2.
Proof.
  revert s. induction netIds as [|netId netIds IH]; intros s; simpl; [by split|].
  unfold setPermission.
  repeat (case_match; simpl in *; simplify_eq);
    try (eapply sameTables_trans; [|apply IH]); tables_step.
Qed.

Lemma sameTables_addUsersToNetwork env s netId ranges subPriority :
  sameTables s (addUsersToNetwork env s netId ranges subPriority).2.
Proof.
  unfold addUsersToNetwork, addUsers.
  repeat (case_match; simpl in *; simplify_eq); tables_step.
Qed.

Lemma sameTables_removeUsersFromNetwork env s netId ranges subPriority :
  sameTables s (removeUsersFromNetwork env s netId ranges subPriority).2.
Proof.
  unfold removeUsersFromNetwork, removeUsers.
  repeat (case_match; simpl in *; simplify_eq); tables_step.
Qed.

Lemma sameTables_setNetworkAllowlist s rangeConfigs :
  sameTables s (setNetworkAllowlist s rangeConfigs).2.
Proof.
  unfold setNetworkAllowlist. case_match; simpl; [by split|].
  eapply sameTables_trans with (clearAllowedUidsForAllNetworksLocked s);
    [by split|].
  generalize (clearAllowedUidsForAllNetworksLocked s). clear.
  induction rangeConfigs as [|c l IH]; intros s; simpl; [by split|].
  eapply sameTables_trans; [|apply IH]. unfold applyAllowlist.
  case_match; by split.
Qed.

Lemma addressesOk_same s s' :
  mAddressToIfindices s' = mAddressToIfindices s -> addressesOk s -> addressesOk s'.
Proof. unfold addressesOk. by intros ->. Qed.

Lemma lastNetIdsOk_same s s' :
  keeps s s' -> mIfindexToLastNetId s' = mIfindexToLastNetId s ->
  lastNetIdsOk s -> lastNetIdsOk s'.
Proof.
  unfold lastNetIdsOk. intros [Hk _] -> Hok idx netId Hidx.
  destruct (Hok idx netId Hidx) as [?|[? ?]]; [by left|right]. split; [done|].
  by apply Hk.
Qed.

Lemma addressesOk_addInterfaceAddress s ifIndex address :
  addressesOk s -> addressesOk (addInterfaceAddress s ifIndex address).
Proof.
  intros Hok. unfold addInterfaceAddress.
  destruct (Z.eqb_spec ifIndex 0) as [?|Hne]; [done|].
  unfold addressesOk. simpl. apply map_Forall_insert_2; [|done]. split.
  - intros He. assert (ifIndex ∈ (∅ : gset Z)) as Hin.
    { rewrite <- He. by apply elem_of_union_l, elem_of_singleton. }
    by apply not_elem_of_empty in Hin.
  - rewrite elem_of_union, elem_of_singleton. intros [?|Hin]; [done|].
    destruct (mAddressToIfindices s !! address) as [old|] eqn:Hold; simpl in Hin.
    + by destruct (Hok address old Hold) as [_ ?].
    + by apply not_elem_of_empty in Hin.
Qed.

Lemma addressesOk_removeInterfaceAddress s ifindex address :
  addressesOk s -> addressesOk (removeInterfaceAddress s ifindex address).2.
Proof.
  intros Hok. unfold removeInterfaceAddress.
  destruct (mAddressToIfindices s !! address) as [ifindices|] eqn:Ha; [|done].
  destruct (bool_decide (ifindex ∈ ifindices)); [|done].
  destruct (decide (size (ifindices ∖ {[ifindex]}) = 0%nat)) as [Hs|Hs].
  - rewrite bool_decide_eq_true_2 by done. simpl.
    by apply map_Forall_delete.
  - rewrite bool_decide_eq_false_2 by done.
    assert (addressesOk
              (set_mAddressToIfindices s
                 (<[address := ifindices ∖ {[ifindex]}]> (mAddressToIfindices s))))
      as Hok'.
    { unfold addressesOk. simpl. apply map_Forall_insert_2; [|done]. split.
      - intros He. apply Hs. rewrite He. apply size_empty.
      - rewrite elem_of_difference. intros [Hin _].
        by destruct (Hok address ifindices Ha) as [_ ?]. }
    simpl. destruct (mIfindexToLastNetId s !! ifindex); [|done].
    destruct (handoverLoop _ _ _ _) as [r m]. done.
Qed.

Lemma lastNetIdsOk_removeInterfaceAddress s ifindex address :
  lastNetIdsOk s -> lastNetIdsOk (removeInterfaceAddress s ifindex address).2.
Proof.
  intros Hok. unfold removeInterfaceAddress.
  destruct (mAddressToIfindices s !! address) as [ifindices|]; [|done].
  destruct (bool_decide (ifindex ∈ ifindices)); [|done].
  destruct (bool_decide (size (ifindices ∖ {[ifindex]}) = 0%nat)); [done|].
  simpl. destruct (mIfindexToLastNetId s !! ifindex) as [lastNetId|]; [|done].
  pose proof (handoverLoop_table
                (set_mAddressToIfindices s
                   (<[address := ifindices ∖ {[ifindex]}]> (mAddressToIfindices s)))
                lastNetId (elements (ifindices ∖ {[ifindex]}))
                (mIfindexToLastNetId s)) as [_ Hnew].
  destruct (handoverLoop _ _ _ _) as [r m]. simpl in *.
  intros idx v Hv. simpl in *.
  destruct (Hnew _ _ Hv) as [Hold|(_ & -> & _)]; [|by left].
  by apply (Hok idx v).
Qed.

Lemma destroyNetwork_unchanged env s netId :
  netId = LOCAL_NET_ID \/ netId = UNREACHABLE_NET_ID \/ mNetworks s !! netId = None ->
  (destroyNetwork env s netId).2 = s.
Proof.
  intros Hcase. unfold destroyNetwork.
  destruct (Z.eqb_spec netId LOCAL_NET_ID) as [?|Hl]; [done|].
  destruct (Z.eqb_spec netId UNREACHABLE_NET_ID) as [?|Hu]; [done|].
  destruct Hcase as [?|[?|Hn]]; [done|done|].
  unfold isValidNetworkLocked, getNetworkLocked. by rewrite Hn.
Qed.

Lemma lastNetIdsOk_destroyNetwork env s netId :
  lastNetIdsOk s -> lastNetIdsOk (destroyNetwork env s netId).2.
Proof.
  intros Hok.
  destruct (decide (netId = LOCAL_NET_ID)) as [?|Hl];
    [by rewrite destroyNetwork_unchanged by auto|].
  destruct (decide (netId = UNREACHABLE_NET_ID)) as [?|Hu];
    [by rewrite destroyNetwork_unchanged by auto|].
  destruct (mNetworks s !! netId) as [network|] eqn:Hn;
    [|by rewrite destroyNetwork_unchanged by auto].
  destruct (destroyNetwork_state env s netId network Hl Hu Hn)
    as (Hnet & Hidx & _).
  unfold lastNetIdsOk. rewrite Hnet, Hidx. intros idx v Hv.
  apply map_lookup_filter_Some in Hv as [Hv Hne]. simpl in Hne.
  destruct (Hok idx v Hv) as [?|[? ?]]; [by left|right]. split; [done|].
  by rewrite lookup_delete_ne.
Qed.

Lemma addInterfaceToNetwork_tables env s netId iface :
  mAddressToIfindices (addInterfaceToNetwork env s netId iface).2
  = mAddressToIfindices s
  /\ (mIfindexToLastNetId (addInterfaceToNetwork env s netId iface).2
      = mIfindexToLastNetId s
      \/ (netId <> LOCAL_NET_ID /\ is_Some (mNetworks s !! netId)
          /\ getIfIndex env iface <> 0
          /\ (addInterfaceToNetwork env s netId iface).1 = 0
          /\ mIfindexToLastNetId (addInterfaceToNetwork env s netId iface).2
             = <[getIfIndex env iface := netId]> (mIfindexToLastNetId s))).
Proof.
  unfold addInterfaceToNetwork, getNetworkLocked.
  destruct (mNetworks s !! netId) as [n|] eqn:Hn; [|by split; [|left]].
  destruct (_ && _); [by split; [|left]|].
  destruct (addInterface env n iface) as [[ret n'] evs].
  destruct (negb (ret =? 0)); [by split; [|left]|].
  destruct (Z.eqb_spec netId LOCAL_NET_ID) as [?|Hl]; [by split; [|left]|].
  destruct (Z.eqb_spec (getIfIndex env iface) 0) as [?|Hi]; [by split; [|left]|].
  simpl. split; [done|right]. eauto.
Qed.

Lemma lastNetIdsOk_addInterfaceToNetwork env s netId iface :
  lastNetIdsOk s -> lastNetIdsOk (addInterfaceToNetwork env s netId iface).2.
Proof.
  intros Hok.
  pose proof (keeps_addInterfaceToNetwork env s netId iface) as Hk.
  destruct (addInterfaceToNetwork_tables env s netId iface)
    as [_ [Hsame|(Hl & Hreg & _ & _ & Hins)]].
  - by apply (lastNetIdsOk_same s).
  - destruct Hk as [Hk _]. unfold lastNetIdsOk. rewrite Hins.
    apply map_Forall_insert_2.
    + right. split; [done|]. by apply Hk.
    + intros idx v Hv. destruct (Hok idx v Hv) as [?|[? ?]]; [by left|right].
      split; [done|]. by apply Hk.
Qed.

Lemma tablesOk_execute env c s :
  addressesOk s /\ lastNetIdsOk s ->
  addressesOk (execute env c s) /\ lastNetIdsOk (execute env c s).
Proof.
  assert (Hsame : forall s', keeps s s' -> sameTables s s' ->
                             addressesOk s /\ lastNetIdsOk s ->
                             addressesOk s' /\ lastNetIdsOk s').
  { intros s' Hk [Hi Ha] [? ?]. split.
    - by apply (addressesOk_same s).
    - by apply (lastNetIdsOk_same s). }
  intros Hok. destruct c; simpl.
  - apply Hsame; [apply keeps_setDefaultNetwork|
                  apply sameTables_setDefaultNetwork|done].
  - apply Hsame; [apply keeps_createPhysicalNetworkLocked|
                  apply sameTables_createPhysicalNetworkLocked|done].
  - apply Hsame; [apply keeps_createPhysicalOemNetwork|
                  apply sameTables_createPhysicalOemNetwork|done].
  - apply Hsame; [apply keeps_createVirtualNetwork|
                  apply sameTables_createVirtualNetwork|done].
  - destruct Hok as [Ha Hl]. split; [|by apply lastNetIdsOk_destroyNetwork].
    apply (addressesOk_same s); [|done].
    destruct (decide (netId = LOCAL_NET_ID)) as [?|Hl'];
      [by rewrite destroyNetwork_unchanged by auto|].
    destruct (decide (netId = UNREACHABLE_NET_ID)) as [?|Hu];
      [by rewrite destroyNetwork_unchanged by auto|].
    destruct (mNetworks s !! netId) as [network|] eqn:Hn;
      [|by rewrite destroyNetwork_unchanged by auto].
    by destruct (destroyNetwork_state env s netId network Hl' Hu Hn)
      as (_ & _ & _ & _ & _ & ?).
  - destruct Hok as [Ha Hl]. split; [|by apply lastNetIdsOk_addInterfaceToNetwork].
    apply (addressesOk_same s); [|done].
    by destruct (addInterfaceToNetwork_tables env s netId iface) as [? _].
  - apply Hsame; [apply keeps_removeInterfaceFromNetwork|
                  apply sameTables_removeInterfaceFromNetwork|done].
  - apply Hsame; [apply keeps_setPermissionForUsers|
                  apply sameTables_setPermissionForUsers|done].
  - apply Hsame; [apply keeps_setPermissionForNetworks|
                  apply sameTables_setPermissionForNetworks|done].
  - apply Hsame; [apply keeps_addUsersToNetwork|
                  apply sameTables_addUsersToNetwork|done].
  - apply Hsame; [apply keeps_removeUsersFromNetwork|
                  apply sameTables_removeUsersFromNetwork|done].
  - destruct Hok as [Ha Hl]. split; [by apply addressesOk_addInterfaceAddress|].
    apply (lastNetIdsOk_same s); [apply keeps_addInterfaceAddress| |done].
    unfold addInterfaceAddress. by case_match.
  - destruct Hok as [Ha Hl]. split;
      [by apply addressesOk_removeInterfaceAddress|
       by apply lastNetIdsOk_removeInterfaceAddress].
  - unfold allowProtect. by case_match.
  - unfold denyProtect. by case_match.
  - apply Hsame; [apply keeps_setNetworkAllowlist|
                  apply sameTables_setNetworkAllowlist|done].
Qed.

(** X11: in every state the registry can be in, an address is recorded
    with at least one interface index and never with the index zero, and
    the last netId recorded for an interface index is zero or the netId of
    a registered network other than the local one. *)
Theorem reachable_tables s :
  reachable s ->
  (forall address ifindices,
      mAddressToIfindices s !! address = Some ifindices ->
      ifindices <> ∅ /\ 0 ∉ ifindices)
  /\ (forall ifindex netId,
        mIfindexToLastNetId s !! ifindex = Some netId ->
        netId = 0 \/ (netId <> LOCAL_NET_ID /\ is_Some (mNetworks s !! netId))).
Proof.
  intros Hr. change (addressesOk s /\ lastNetIdsOk s).
  induction Hr as [|env c s _ IH].
  - split; apply map_Forall_empty.
  - by apply tablesOk_execute.
Qed.

End Tables.

(** ** The interfaces in the states the registry can be in *)

Section Interfaces.
Context `{Platform}.

Lemma noNewInterfaces_refl s : noNewInterfaces s s.
Proof. intros k n' iface Hk Hin. eauto. Qed.

Lemma noNewInterfaces_trans s1 s2 s3 :
  noNewInterfaces s1 s2 -> noNewInterfaces s2 s3 -> noNewInterfaces s1 s3.
Proof.
  intros H12 H23 k n3 iface Hk Hin.
  destruct (H23 k n3 iface Hk Hin) as (n2 & Hk2 & Hin2). eauto.
Qed.

Lemma noNewInterfaces_same s s' :
  mNetworks s' = mNetworks s -> noNewInterfaces s s'.
Proof. intros Heq k n' iface Hk Hin. rewrite Heq in Hk. eauto. Qed.

Lemma noNewInterfaces_putNetwork s k n n' :
  mNetworks s !! k = Some n -> mInterfaces n' ⊆ mInterfaces n ->
  noNewInterfaces s (putNetwork s k n').
Proof.
  intros Hn Hsub k' n'' iface Hk Hin. simpl in Hk.
  destruct (decide (k = k')) as [->|Hne].
  - rewrite lookup_insert_eq in Hk. simplify_eq. eauto.
  - rewrite lookup_insert_ne in Hk by done. eauto.
Qed.

Lemma noNewInterfaces_putNetwork_new s k n' :
  mInterfaces n' = [] -> noNewInterfaces s (putNetwork s k n').
Proof.
  intros He k' n'' iface Hk Hin. simpl in Hk.
  destruct (decide (k = k')) as [->|Hne].
  - rewrite lookup_insert_eq in Hk. simplify_eq. rewrite He in Hin.
    by apply elem_of_nil in Hin.
  - rewrite lookup_insert_ne in Hk by done. eauto.
Qed.

Lemma noNewInterfaces_erase s netId :
  noNewInterfaces s (set_mNetworks s (delete netId (mNetworks s))).
Proof.
  intros k n' iface Hk Hin. simpl in Hk.
  apply lookup_delete_Some in Hk as [_ Hk]. eauto.
Qed.

Lemma noNewInterfaces_emit s evs : noNewInterfaces s (emit s evs).
Proof. by apply noNewInterfaces_same. Qed.

Lemma noNewInterfaces_set_mDefaultNetId s v :
  noNewInterfaces s (set_mDefaultNetId s v).
Proof. by apply noNewInterfaces_same. Qed.

Lemma noNewInterfaces_set_mUsers s v : noNewInterfaces s (set_mUsers s v).
Proof. by apply noNewInterfaces_same. Qed.

Lemma noNewInterfaces_updateTcpSocketMonitorPolling s :
  noNewInterfaces s (updateTcpSocketMonitorPolling s).
Proof. by apply noNewInterfaces_same. Qed.

(** Peels the writes off the state on the right, outermost first. *)
Ltac ifaces_step :=
  lazy beta iota delta [fst snd];
  repeat match goal with
    | |- noNewInterfaces ?s ?s => apply noNewInterfaces_refl
    | |- noNewInterfaces _ (emit _ _) =>
        eapply noNewInterfaces_trans; [|apply noNewInterfaces_emit]
    | |- noNewInterfaces _ (set_mDefaultNetId _ _) =>
        eapply noNewInterfaces_trans; [|apply noNewInterfaces_set_mDefaultNetId]
    | |- noNewInterfaces _ (set_mUsers _ _) =>
        eapply noNewInterfaces_trans; [|apply noNewInterfaces_set_mUsers]
    | |- noNewInterfaces _ (updateTcpSocketMonitorPolling _) =>
        eapply noNewInterfaces_trans;
        [|apply noNewInterfaces_updateTcpSocketMonitorPolling]
    | |- noNewInterfaces _ (putNetwork _ _ _) =>
        eapply noNewInterfaces_trans;
        [|first [ by apply noNewInterfaces_putNetwork_new
                | eapply noNewInterfaces_putNetwork;
                  [unfold getNetworkLocked in *; simpl in *; eassumption
                  |simpl; try done] ]]
    end;
  try eassumption.

Lemma noNewInterfaces_setDefaultNetwork env s netId :
  noNewInterfaces s (setDefaultNetwork env s netId).2.
Proof.
  unfold setDefaultNetwork, addAsDefault, removeAsDefault.
  repeat (case_match; simpl in *; simplify_eq); ifaces_step.
Qed.

Lemma noNewInterfaces_createPhysicalNetworkLocked env s netId permission local :
  noNewInterfaces s (createPhysicalNetworkLocked env s netId permission local).2.
Proof.
  unfold createPhysicalNetworkLocked, setPermission.
  repeat (case_match; simpl in *; simplify_eq); ifaces_step.
Qed.

Lemma noNewInterfaces_createPhysicalOemNetwork env s permission :
  noNewInterfaces s (createPhysicalOemNetwork env s permission).2.
Proof.
  unfold createPhysicalOemNetwork.
  destruct (MAX_OEM_ID <? _); [apply noNewInterfaces_refl|].
  pose proof (noNewInterfaces_createPhysicalNetworkLocked env s
                (scanOemIds s (Z.to_nat (MAX_OEM_ID + 1 - MIN_OEM_ID)) MIN_OEM_ID)
                permission false) as Hk.
  by destruct (createPhysicalNetworkLocked _ _ _ _ _).
Qed.

Lemma noNewInterfaces_modifyFallthroughLocked env s vpnNetId add :
  noNewInterfaces s (modifyFallthroughLocked env s vpnNetId add).2.
Proof.
  destruct (modifyFallthroughLocked_state env s vpnNetId add) as [evs ->].
  apply noNewInterfaces_emit.
Qed.

Lemma noNewInterfaces_createVirtualNetwork env s netId secure vpnType excl :
  noNewInterfaces s (createVirtualNetwork env s netId secure vpnType excl).2.
Proof.
  unfold createVirtualNetwork.
  pose proof (noNewInterfaces_modifyFallthroughLocked env s netId true) as Hk.
  repeat (case_match; simpl in *; simplify_eq); ifaces_step.
Qed.

Lemma clearInterfacesFrom_subseteq env netId ifaces :
  (clearInterfacesFrom env netId ifaces).1.2 ⊆ ifaces.
Proof.
  induction ifaces as [|iface rest IH]; simpl; [done|].
  destruct (_ =? 0); [|done].
  destruct (clearInterfacesFrom env netId rest) as [[r remaining] evs].
  simpl in *. intros x Hx. apply list_elem_of_further. by apply IH.
Qed.

Lemma noNewInterfaces_destroyNetwork env s netId :
  noNewInterfaces s (destroyNetwork env s netId).2.
Proof.
  unfold destroyNetwork.
  destruct (_ || _); [apply noNewInterfaces_refl|].
  destruct (isValidNetworkLocked s netId); simpl negb; cbv iota;
    [|apply noNewInterfaces_refl].
  unfold getNetworkLocked.
  destruct (mNetworks s !! netId) as [network|] eqn:Hn; [|apply noNewInterfaces_refl].
  unfold clearInterfaces.
  pose proof (clearInterfacesFrom_subseteq env (mNetId network)
                (mInterfaces network)) as Hsub.
  destruct (clearInterfacesFrom env (mNetId network) (mInterfaces network))
    as [[ret remaining] evs]. simpl in Hsub.
  set (network' := set_mInterfaces network remaining).
  set (s1 := emit (putNetwork s netId network') evs).
  assert (noNewInterfaces s s1) as Hs1.
  { unfold s1. eapply noNewInterfaces_trans; [|apply noNewInterfaces_emit].
    by apply (noNewInterfaces_putNetwork _ _ network). }
  assert (forall (r : Z) s2, noNewInterfaces s s2 ->
    noNewInterfaces s (r, updateTcpSocketMonitorPolling
          (set_mIfindexToLastNetId (set_mNetworks s2 (delete netId (mNetworks s2)))
             (filter (fun kv => kv.2 ≠ netId)
                (mIfindexToLastNetId
                   (set_mNetworks s2 (delete netId (mNetworks s2))))))).2)
    as Hfinish.
  { intros r s2 Hs2. eapply noNewInterfaces_trans; [exact Hs2|].
    eapply noNewInterfaces_trans; [apply noNewInterfaces_erase|].
    by apply noNewInterfaces_same. }
  destruct (mDefaultNetId s1 =? netId).
  - unfold removeAsDefault.
    destruct (_ =? 0).
    + apply (Hfinish _ (set_mDefaultNetId
                          (emit (putNetwork s1 netId (set_mIsDefault network' false))
                             [ReqRemoveAsDefault (mNetId network')]) NETID_UNSET)).
      eapply noNewInterfaces_trans; [exact Hs1|].
      eapply noNewInterfaces_trans; [|apply noNewInterfaces_set_mDefaultNetId].
      eapply noNewInterfaces_trans; [|apply noNewInterfaces_emit].
      apply (noNewInterfaces_putNetwork _ _ network'); [|done].
      unfold s1. simpl. by rewrite lookup_insert_eq.
    + apply (Hfinish _ (set_mDefaultNetId
                          (emit (putNetwork s1 netId network')
                             [ReqRemoveAsDefault (mNetId network')]) NETID_UNSET)).
      eapply noNewInterfaces_trans; [exact Hs1|].
      eapply noNewInterfaces_trans; [|apply noNewInterfaces_set_mDefaultNetId].
      eapply noNewInterfaces_trans; [|apply noNewInterfaces_emit].
      apply (noNewInterfaces_putNetwork _ _ network'); [|done].
      unfold s1. simpl. by rewrite lookup_insert_eq.
  - destruct (isVirtual network').
    + pose proof (noNewInterfaces_modifyFallthroughLocked env s1 netId false) as Hk.
      destruct (modifyFallthroughLocked env s1 netId false) as [err s2].
      apply (Hfinish _ s2). eapply noNewInterfaces_trans; [exact Hs1|exact Hk].
    + by apply (Hfinish _ s1).
Qed.

Lemma noNewInterfaces_removeInterfaceFromNetwork env s netId iface :
  noNewInterfaces s (removeInterfaceFromNetwork env s netId iface).2.
Proof.
  unfold removeInterfaceFromNetwork, removeInterface.
  repeat (case_match; simpl in *; simplify_eq); ifaces_step.
  intros x Hx. by apply list_elem_of_filter in Hx as [_ ?].
Qed.

Lemma noNewInterfaces_setPermissionForUsers s permission uids :
  noNewInterfaces s (setPermissionForUsers s permission uids).
Proof.
  unfold setPermissionForUsers. revert s.
  induction uids as [|uid uids IH]; intros s; simpl; [apply noNewInterfaces_refl|].
  eapply noNewInterfaces_trans; [|apply IH]. apply noNewInterfaces_set_mUsers.
Qed.

Lemma noNewInterfaces_setPermissionForNetworks env s permission netIds :
  noNewInterfaces s (setPermissionForNetworks env s permission netIds).2.
Proof.
  revert s. induction netIds as [|netId netIds IH]; intros s; simpl;
    [apply noNewInterfaces_refl|].
  unfold setPermission.
  repeat (case_match; simpl in *; simplify_eq);
    try (eapply noNewInterfaces_trans; [|apply IH]); ifaces_step.
Qed.

Lemma noNewInterfaces_addUsersToNetwork env s netId ranges subPriority :
  noNewInterfaces s (addUsersToNetwork env s netId ranges subPriority).2.
Proof.
  unfold addUsersToNetwork, addUsers.
  repeat (case_match; simpl in *; simplify_eq); ifaces_step.
Qed.

Lemma noNewInterfaces_removeUsersFromNetwork env s netId ranges subPriority :
  noNewInterfaces s (removeUsersFromNetwork env s netId ranges subPriority).2.
Proof.
  unfold removeUsersFromNetwork, removeUsers.
  repeat (case_match; simpl in *; simplify_eq); ifaces_step.
Qed.

Lemma noNewInterfaces_removeInterfaceAddress s ifindex address :
  noNewInterfaces s (removeInterfaceAddress s ifindex address).2.
Proof.
  apply noNewInterfaces_same.
  unfold removeInterfaceAddress. by repeat (case_match; simpl in *; simplify_eq).
Qed.

Lemma noNewInterfaces_setNetworkAllowlist s rangeConfigs :
  noNewInterfaces s (setNetworkAllowlist s rangeConfigs).2.
Proof.
  unfold setNetworkAllowlist. case_match; simpl; [apply noNewInterfaces_refl|].
  eapply noNewInterfaces_trans with (clearAllowedUidsForAllNetworksLocked s).
  { intros k n' iface Hk Hin. simpl in Hk. rewrite lookup_fmap in Hk.
    destruct (mNetworks s !! k) as [n|]; simpl in Hk; [|done].
    simplify_eq. eauto. }
  generalize (clearAllowedUidsForAllNetworksLocked s). clear.
  induction rangeConfigs as [|c l IH]; intros s; simpl;
    [apply noNewInterfaces_refl|].
  eapply noNewInterfaces_trans; [|apply IH]. unfold applyAllowlist.
  unfold getNetworkLocked. destruct (mNetworks s !! cfgNetId c) as [n|] eqn:Hn;
    [|apply noNewInterfaces_refl].
  by apply (noNewInterfaces_putNetwork _ _ n).
Qed.

Lemma interfacesOk_noNewInterfaces s s' :
  noNewInterfaces s s' -> interfacesOk s -> interfacesOk s'.
Proof.
  intros Hno Hok k1 k2 n1 n2 iface Hk1 Hk2 Hin1 Hin2.
  destruct (Hno _ _ _ Hk1 Hin1) as (m1 & Hm1 & Hi1).
  destruct (Hno _ _ _ Hk2 Hin2) as (m2 & Hm2 & Hi2).
  by apply (Hok k1 k2 m1 m2 iface).
Qed.

Lemma getNetworkForInterfaceLocked_none s iface :
  (forall k n, mNetworks s !! k = Some n -> iface ∉ mInterfaces n) ->
  getNetworkForInterfaceLocked s iface = NETID_UNSET.
Proof.
  intros Hnone. unfold getNetworkForInterfaceLocked.
  destruct (List.find _ _) as [[k n]|] eqn:Hf; [|done].
  apply find_some in Hf as [Hin Hp]. apply In_inKeyOrder in Hin.
  unfold hasInterface in Hp. apply bool_decide_eq_true in Hp.
  by destruct (Hnone k n Hin).
Qed.

Lemma getNetworkForInterfaceLocked_some s iface k n :
  mNetworks s !! k = Some n -> iface ∈ mInterfaces n ->
  exists n0, mNetworks s !! getNetworkForInterfaceLocked s iface = Some n0
             /\ iface ∈ mInterfaces n0
             /\ getNetworkForInterfaceLocked s iface <= k.
Proof.
  intros Hk Hin. unfold getNetworkForInterfaceLocked.
  destruct (List.find _ _) as [[k0 n0]|] eqn:Hf.
  - pose proof (find_sorted_first _ _ _ (inKeyOrder_sorted _) Hf (k, n)) as Hle.
    apply find_some in Hf as [Hin0 Hp]. apply In_inKeyOrder in Hin0.
    unfold hasInterface in Hp. apply bool_decide_eq_true in Hp.
    exists n0. split; [done|]. split; [done|]. apply Hle.
    + by apply elem_of_inKeyOrder.
    + unfold hasInterface. by apply bool_decide_eq_true.
  - pose proof (find_none _ _ Hf (k, n)) as Hno.
    rewrite In_inKeyOrder in Hno. specialize (Hno Hk).
    unfold hasInterface in Hno. apply bool_decide_eq_false in Hno. by destruct Hno.
Qed.

(** X12: [getNetworkForInterface] returns UNSET when no registered network
    holds the interface; when some do, it returns the one with the smallest
    netId. *)
Theorem getNetworkForInterface_smallest s interface :
  ((forall k n, mNetworks s !! k = Some n -> interface ∉ mInterfaces n) ->
   getNetworkForInterface s interface = NETID_UNSET)
  /\ (forall k n, mNetworks s !! k = Some n -> interface ∈ mInterfaces n ->
        exists n0, mNetworks s !! getNetworkForInterface s interface = Some n0
                   /\ interface ∈ mInterfaces n0
                   /\ getNetworkForInterface s interface <= k).
Proof.
  split.
  - apply getNetworkForInterfaceLocked_none.
  - apply getNetworkForInterfaceLocked_some.
Qed.

Lemma interfacesOk_putNetwork_add s netId network network' iface :
  interfacesOk s -> mNetworks s !! netId = Some network ->
  (forall x, x ∈ mInterfaces network' -> x ∈ mInterfaces network \/ x = iface) ->
  (forall k n, mNetworks s !! k = Some n -> iface ∈ mInterfaces n -> k = netId) ->
  interfacesOk (putNetwork s netId network').
Proof.
  intros Hok Hn Hadd Hheld k1 k2 n1 n2 i Hk1 Hk2 Hi1 Hi2. simpl in Hk1, Hk2.
  destruct (decide (k1 = netId)) as [E1|Hne1];
    destruct (decide (k2 = netId)) as [E2|Hne2]; [congruence| | |].
  - rewrite E1, lookup_insert_eq in Hk1. rewrite lookup_insert_ne in Hk2 by done.
    injection Hk1 as <-. rewrite E1. destruct (Hadd _ Hi1) as [Hi|Hi].
    + by apply (Hok netId k2 network n2 i).
    + rewrite Hi in Hi2. symmetry. by apply (Hheld k2 n2).
  - rewrite E2, lookup_insert_eq in Hk2. rewrite lookup_insert_ne in Hk1 by done.
    injection Hk2 as <-. rewrite E2. destruct (Hadd _ Hi2) as [Hi|Hi].
    + by apply (Hok k1 netId n1 network i).
    + rewrite Hi in Hi1. by apply (Hheld k1 n1).
  - rewrite lookup_insert_ne in Hk1, Hk2 by done.
    by apply (Hok k1 k2 n1 n2 i).
Qed.

Lemma addInterface_interfaces env network iface x :
  x ∈ mInterfaces (addInterface env network iface).1.2 ->
  x ∈ mInterfaces network \/ x = iface.
Proof.
  unfold addInterface. repeat case_match; simpl; auto.
  rewrite elem_of_app, list_elem_of_singleton. tauto.
Qed.

Lemma interfacesOk_addInterfaceToNetwork env s netId iface :
  wellFormed s -> interfacesOk s ->
  interfacesOk (addInterfaceToNetwork env s netId iface).2.
Proof.
  intros [Hall _] Hok. unfold addInterfaceToNetwork, getNetworkLocked.
  destruct (mNetworks s !! netId) as [network|] eqn:Hn; [|done].
  assert (getNetworkForInterfaceLocked s iface = NETID_UNSET
          \/ getNetworkForInterfaceLocked s iface = netId ->
          interfacesOk (putNetwork s netId (addInterface env network iface).1.2))
    as Hput.
  { intros Hcase.
    apply (interfacesOk_putNetwork_add s netId network _ iface); [done|done| |].
    - apply addInterface_interfaces.
    - intros k n Hk Hin.
      destruct (getNetworkForInterfaceLocked_some s iface k n Hk Hin)
        as (n0 & Hn0 & Hin0 & _).
      destruct Hcase as [Hunset|Hsame].
      + rewrite Hunset in Hn0. destruct (Hall _ _ Hn0) as [_ ?].
        unfold NETID_UNSET in *. lia.
      + rewrite Hsame in Hn0. by apply (Hok k netId n n0 iface). }
  destruct (Z.eqb_spec (getNetworkForInterfaceLocked s iface) NETID_UNSET)
    as [Hunset|Hset]; simpl.
  - specialize (Hput (or_introl Hunset)).
    destruct (addInterface env network iface) as [[ret network'] evs].
    simpl in Hput. by repeat case_match.
  - destruct (Z.eqb_spec (getNetworkForInterfaceLocked s iface) netId)
      as [Hsame|Hother]; simpl; [|done].
    specialize (Hput (or_intror Hsame)).
    destruct (addInterface env network iface) as [[ret network'] evs].
    simpl in Hput. by repeat case_match.
Qed.

Lemma interfacesOk_execute env c s :
  wellFormed s -> interfacesOk s -> interfacesOk (execute env c s).
Proof.
  intros Hwf Hok. destruct c; simpl;
    try (by apply interfacesOk_addInterfaceToNetwork);
    apply (interfacesOk_noNewInterfaces s); try done.
  - apply noNewInterfaces_setDefaultNetwork.
  - apply noNewInterfaces_createPhysicalNetworkLocked.
  - apply noNewInterfaces_createPhysicalOemNetwork.
  - apply noNewInterfaces_createVirtualNetwork.
  - apply noNewInterfaces_destroyNetwork.
  - apply noNewInterfaces_removeInterfaceFromNetwork.
  - apply noNewInterfaces_setPermissionForUsers.
  - apply noNewInterfaces_setPermissionForNetworks.
  - apply noNewInterfaces_addUsersToNetwork.
  - apply noNewInterfaces_removeUsersFromNetwork.
  - apply noNewInterfaces_same. unfold addInterfaceAddress. by case_match.
  - apply noNewInterfaces_removeInterfaceAddress.
  - apply noNewInterfaces_same. unfold allowProtect. by case_match.
  - apply noNewInterfaces_same. unfold denyProtect. by case_match.
  - apply noNewInterfaces_setNetworkAllowlist.
Qed.

Lemma reachable_interfacesOk s : platformOk -> reachable s -> interfacesOk s.
Proof.
  intros Hplat Hr. induction Hr as [|env c s Hr IH].
  - intros k1 k2 n1 n2 i Hk1 Hk2 Hi1 Hi2. simpl in Hk1.
    repeat (apply lookup_insert_Some in Hk1 as [[_ <-]|[_ Hk1]];
            [by apply elem_of_nil in Hi1|]).
    by rewrite lookup_empty in Hk1.
  - apply interfacesOk_execute; [|done]. by apply reachable_wellFormed.
Qed.

(** X13: in every state the registry can be in, on a platform whose
    sentinels and OEM range are 16-bit handles other than UNSET, an
    interface is held by at most one registered network, and
    [getNetworkForInterface] names that network. *)
Theorem reachable_interface_owner s k n interface :
  platformOk -> reachable s ->
  mNetworks s !! k = Some n -> interface ∈ mInterfaces n ->
  getNetworkForInterface s interface = k
  /\ (forall k' n', mNetworks s !! k' = Some n' -> interface ∈ mInterfaces n' ->
                    k' = k).
Proof.
  intros Hplat Hr Hk Hin.
  pose proof (reachable_interfacesOk s Hplat Hr) as Hok.
  split.
  - destruct (getNetworkForInterfaceLocked_some s interface k n Hk Hin)
      as (n0 & Hn0 & Hin0 & _).
    by apply (Hok _ k n0 n interface).
  - intros k' n' Hk' Hin'. by apply (Hok k' k n' n interface).
Qed.

End Interfaces.

(** ** The network and the mark of a DNS query *)

Section Dns.
Context `{Platform}.

Lemma dns_mark_decode (e : bool) (n : Z) :
  0 <= n < 65536 -> 0 <= PERMISSION_SYSTEM < 4 ->
  Fwmark.decode
    (Fwmark.intValue
       (Fwmark.set_netId
          (if e
           then Fwmark.set_explicitlySelected
                  (Fwmark.set_permission
                     (Fwmark.set_protectedFromVpn Fwmark.zero true)
                     PERMISSION_SYSTEM) true
           else Fwmark.set_permission
                  (Fwmark.set_protectedFromVpn Fwmark.zero true)
                  PERMISSION_SYSTEM) n))
  = {| Fwmark.netId := n; Fwmark.explicitlySelected := e;
       Fwmark.protectedFromVpn := true; Fwmark.permission := PERMISSION_SYSTEM |}.
Proof.
  intros Hn Hperm.
  assert (Z.land n 65535 = n) as Hlow.
  { change 65535 with (Z.ones 16). rewrite Z.land_ones by lia.
    apply Z.mod_small. lia. }
  assert (Z.land PERMISSION_SYSTEM 3 = PERMISSION_SYSTEM) as Hp.
  { change 3 with (Z.ones 2). rewrite Z.land_ones by lia.
    apply Z.mod_small. lia. }
  rewrite FwmarkFacts.decode_intValue.
  - destruct e; unfold Fwmark.set_explicitlySelected, Fwmark.set_netId,
      Fwmark.set_permission, Fwmark.set_protectedFromVpn; simpl;
      by rewrite Hlow, Hp.
  - destruct e; simpl; rewrite Hlow; lia.
  - destruct e; simpl; rewrite Hp; lia.
Qed.

Lemma getNetworkForConnectLocked_kind s uid :
  wellFormed s ->
  0 <= getNetworkForConnectLocked s uid < 65536
  /\ forall n, mNetworks s !! getNetworkForConnectLocked s uid = Some n ->
               isVirtual n = false.
Proof.
  intros Hwf. split; [by apply defaultNetId_range|].
  unfold getNetworkForConnectLocked.
  destruct (getPhysicalOrUnreachableNetworkForUserLocked s uid) as [a|] eqn:E.
  - apply getPhysicalOrUnreachableNetworkForUserLocked_Some in E
      as (k & p & Hk & (Hkind & _) & _).
    destruct (wellFormed_lookup _ _ _ Hwf Hk) as [-> _].
    intros n Hn. rewrite Hk in Hn. injection Hn as <-.
    destruct (isVirtual a) eqn:Hv; [|done].
    by rewrite (virtual_not_candidate_kind _ Hv) in Hkind.
  - destruct (wellFormed_default _ Hwf) as [Hd|(d & Hd & Hp)].
    + intros n Hn. rewrite Hd in Hn.
      destruct (wellFormed_lookup _ _ _ Hwf Hn) as [_ ?].
      unfold NETID_UNSET in *. lia.
    + intros n Hn. rewrite Hd in Hn. injection Hn as <-.
      destruct (isVirtual d) eqn:Hv; [|done].
      pose proof (virtual_not_candidate_kind _ Hv) as Hk. by rewrite Hp in Hk.
Qed.

(** X14: in a well-formed registry, whatever netId a DNS query names,
    [getNetworkForDns] returns a mark that decodes to the netId it
    resolved the query to, with protectedFromVpn set and the permission
    SYSTEM.  The resolved netId is the one named, the one a query without
    netId connects to, or that of the Virtual network of the uid when the
    resolver has nameservers for it; a registered Virtual network is
    never the result unless the resolver has nameservers for it; and
    explicitlySelected is clear only when the uid has no access to the
    named network and the query is sent to the default. *)
Theorem getNetworkForDns_mark env s netId uid :
  wellFormed s -> 0 <= PERMISSION_SYSTEM < 4 ->
  let mark := Fwmark.decode (getNetworkForDnsLocked env s netId uid).1 in
  let resolved := (getNetworkForDnsLocked env s netId uid).2 in
  Fwmark.netId mark = resolved
  /\ Fwmark.protectedFromVpn mark = true
  /\ Fwmark.permission mark = PERMISSION_SYSTEM
  /\ (resolved = netId
      \/ resolved = getNetworkForConnect s uid
      \/ exists v, getVirtualNetworkForUserLocked s uid = Some v
                   /\ resolved = getNetId v)
  /\ (forall n, mNetworks s !! resolved = Some n -> isVirtual n = true ->
                resolv_has_nameservers env resolved = true)
  /\ (Fwmark.explicitlySelected mark = false ->
      resolved = getNetworkForConnect s uid
      /\ checkUserNetworkAccess s uid netId <> 0).
Proof.
  intros Hwf Hperm mark resolved.
  destruct (getNetworkForConnectLocked_kind s uid Hwf) as [Hrange Hkind].
  assert (Hshape : exists e : bool,
             getNetworkForDnsLocked env s netId uid
             = (Fwmark.intValue
                  (Fwmark.set_netId
                     (if e
                      then Fwmark.set_explicitlySelected
                             (Fwmark.set_permission
                                (Fwmark.set_protectedFromVpn Fwmark.zero true)
                                PERMISSION_SYSTEM) true
                      else Fwmark.set_permission
                             (Fwmark.set_protectedFromVpn Fwmark.zero true)
                             PERMISSION_SYSTEM) resolved), resolved)
             /\ 0 <= resolved < 65536
             /\ (resolved = netId
                 \/ resolved = getNetworkForConnect s uid
                 \/ exists v, getVirtualNetworkForUserLocked s uid = Some v
                              /\ resolved = getNetId v)
             /\ (forall n, mNetworks s !! resolved = Some n -> isVirtual n = true ->
                           resolv_has_nameservers env resolved = true)
             /\ (e = false ->
                 resolved = getNetworkForConnect s uid
                 /\ checkUserNetworkAccess s uid netId <> 0)).
  { subst resolved mark. unfold getNetworkForDnsLocked, getNetworkForConnect.
    fold (getNetworkForConnectLocked s uid).
    destruct ((netId =? NETID_UNSET)
              && bool_decide (getVirtualNetworkForUserLocked s uid = None)).
    { exists true. simpl. split; [done|]. split; [done|]. split; [by right; left|].
      split; [|done]. intros n Hn Hv. by rewrite (Hkind n Hn) in Hv. }
    unfold checkUserNetworkAccess.
    destruct (Z.eqb_spec (checkUserNetworkAccessLocked s uid netId) 0) as [Hacc|Hacc].
    - unfold getNetworkLocked.
      assert (exists n, mNetworks s !! netId = Some n) as [n Hn].
      { unfold checkUserNetworkAccessLocked, getNetworkLocked in Hacc.
        destruct (mNetworks s !! netId) as [n|]; [eauto|].
        unfold ENONET in Hacc. lia. }
      rewrite Hn. destruct (wellFormed_lookup _ _ _ Hwf Hn) as [_ Hnr].
      destruct (isVirtual n) eqn:Hv; simpl.
      + destruct (resolv_has_nameservers env netId) eqn:Hns; simpl.
        * exists true. split; [done|]. split; [lia|]. split; [by left|].
          split; [|done]. by intros.
        * exists true. split; [done|]. split; [done|]. split; [by right; left|].
          split; [|done]. intros n' Hn' Hv'. by rewrite (Hkind n' Hn') in Hv'.
      + exists true. split; [done|]. split; [lia|]. split; [by left|].
        split; [|done]. intros n' Hn' Hv'. rewrite Hn in Hn'. congruence.
    - destruct (getVirtualNetworkForUserLocked s uid) as [v|] eqn:Hvpn.
      + destruct (resolv_has_nameservers env (getNetId v)) eqn:Hns; simpl.
        * exists true. split; [done|].
          apply getVirtualNetworkForUserLocked_Some in Hvpn as (k & Hk & _).
          destruct (wellFormed_lookup _ _ _ Hwf Hk) as [Hid ?].
          split; [rewrite Hid; lia|]. split; [right; right; by exists v|].
          split; [|done]. by intros.
        * exists false. split; [done|]. split; [done|]. split; [by right; left|].
          split; [|done]. intros n' Hn' Hv'. by rewrite (Hkind n' Hn') in Hv'.
      + exists false. simpl. split; [done|]. split; [done|].
        split; [by right; left|].
        split; [|done]. intros n' Hn' Hv'. by rewrite (Hkind n' Hn') in Hv'. }
  destruct Hshape as (e & Hr & Hres & Hcases & Hns & He).
  subst mark. rewrite Hr. simpl fst. rewrite dns_mark_decode by done. simpl.
  done.
Qed.

Lemma land_ones_range v n : 0 <= n -> 0 <= Z.land v (Z.ones n) < 2 ^ n.
Proof.
  intros Hn. rewrite Z.land_ones by done. apply Z.mod_pos_bound. lia.
Qed.

(** X15: the context [getNetworkContext] fills in.  The application's
    netId is the one named, or for a query without netId the network the
    uid connects to.  The application's mark decodes to the low 16 bits of
    that netId, to explicitlySelected exactly when a netId was named, to
    protectedFromVpn exactly when a netId was named and the uid can protect
    on it, and to the low two bits of the permission of the uid.  The DNS
    netId and mark are those of [getNetworkForDns] for the netId as it was
    named. *)
Theorem getNetworkContext_marks env s netId uid :
  app_netid (getNetworkContext env s netId uid)
  = (if netId =? NETID_UNSET then getNetworkForConnect s uid else netId)
  /\ Fwmark.decode (app_mark (getNetworkContext env s netId uid))
     = {| Fwmark.netId := Z.land (app_netid (getNetworkContext env s netId uid)) 65535;
          Fwmark.explicitlySelected := negb (netId =? NETID_UNSET);
          Fwmark.protectedFromVpn :=
            negb (netId =? NETID_UNSET) && canProtect s uid netId;
          Fwmark.permission := Z.land (getPermissionForUser s uid) 3 |}
  /\ (dns_mark (getNetworkContext env s netId uid),
      dns_netid (getNetworkContext env s netId uid))
     = getNetworkForDnsLocked env s netId uid
  /\ ctx_uid (getNetworkContext env s netId uid) = uid.
Proof.
  unfold getNetworkContext, getNetworkForConnect, canProtect, getPermissionForUser.
  destruct (getNetworkForDnsLocked env s netId uid) as [mark resolved]. simpl.
  split; [by destruct (netId =? NETID_UNSET)|]. split; [|done].
  rewrite FwmarkFacts.decode_intValue.
  - unfold Fwmark.set_explicitlySelected, Fwmark.set_netId, Fwmark.set_permission,
      Fwmark.set_protectedFromVpn. simpl.
    by destruct (netId =? NETID_UNSET).
  - simpl. change 65535 with (Z.ones 16). change 65536 with (2 ^ 16).
    by apply land_ones_range.
  - simpl. change 3 with (Z.ones 2). change 4 with (2 ^ 2).
    by apply land_ones_range.
Qed.

End Dns.

(** ** Routes *)

Section Routes.
Context `{Platform}.

(** X16: what [modifyRoute] decides in a state the registry can be in.
    For a netId that is not registered it returns -ENONET, whoever holds
    the interface.  For a registered network that does not hold the
    interface it returns -ENODEV when no network holds it and -ENOENT when
    another network does.  In these cases nothing is asked of the route
    controller.  When the network holds the interface, the request goes to
    the route controller with the interface, destination and next hop as
    given and the priority zero, its answer is returned, and the table is
    LOCAL_NETWORK for the local network, otherwise INTERFACE unless the
    route is a legacy one, and for a legacy route LEGACY_SYSTEM or
    LEGACY_NETWORK as the uid has the permission SYSTEM or not. *)
Theorem modifyRoute_decision route s netId interface destination nexthop op
    legacy uid mtu :
  platformOk -> reachable s ->
  (mNetworks s !! netId = None ->
   modifyRoute route s netId interface destination nexthop op legacy uid mtu
   = (- ENONET, None))
  /\ (forall n, mNetworks s !! netId = Some n -> interface ∉ mInterfaces n ->
        ((forall k n', mNetworks s !! k = Some n' -> interface ∉ mInterfaces n') ->
         modifyRoute route s netId interface destination nexthop op legacy uid mtu
         = (- ENODEV, None))
        /\ (forall k n', mNetworks s !! k = Some n' -> interface ∈ mInterfaces n' ->
            modifyRoute route s netId interface destination nexthop op legacy uid mtu
            = (- ENOENT, None)))
  /\ (forall n, mNetworks s !! netId = Some n -> interface ∈ mInterfaces n ->
        let tableType :=
          if bool_decide (netId = LOCAL_NET_ID) then LOCAL_NETWORK
          else if negb legacy then INTERFACE
          else if bool_decide (Z.land (getPermissionForUser s uid) PERMISSION_SYSTEM
                               = PERMISSION_SYSTEM)
               then LEGACY_SYSTEM else LEGACY_NETWORK in
        let request :=
          match op with
          | ROUTE_ADD => RcAddRoute interface destination nexthop tableType mtu 0
          | ROUTE_UPDATE => RcUpdateRoute interface destination nexthop tableType mtu
          | ROUTE_REMOVE => RcRemoveRoute interface destination nexthop tableType 0
          end in
        modifyRoute route s netId interface destination nexthop op legacy uid mtu
        = (route request, Some request)).
Proof.
  intros Hplat Hr.
  pose proof (reachable_wellFormed s Hplat Hr) as Hwf.
  pose proof (reachable_interfacesOk s Hplat Hr) as Hok.
  unfold modifyRoute, isValidNetworkLocked, getNetworkLocked.
  split; [by intros ->|]. split.
  - intros n Hn Hnot. rewrite Hn. simpl. split.
    + intros Hnone. by rewrite getNetworkForInterfaceLocked_none.
    + intros k n' Hk Hin.
      destruct (getNetworkForInterfaceLocked_some s interface k n' Hk Hin)
        as (n0 & Hn0 & Hin0 & _).
      destruct (wellFormed_lookup _ _ _ Hwf Hn0) as [_ Hpos].
      destruct (Z.eqb_spec (getNetworkForInterfaceLocked s interface) NETID_UNSET)
        as [He|_]; [unfold NETID_UNSET in He; lia|].
      destruct (Z.eqb_spec (getNetworkForInterfaceLocked s interface) netId)
        as [He|_]; [|done].
      rewrite He, Hn in Hn0. by injection Hn0 as <-.
  - intros n Hn Hin. cbv zeta. rewrite Hn. simpl.
    destruct (getNetworkForInterfaceLocked_some s interface netId n Hn Hin)
      as (n0 & Hn0 & Hin0 & _).
    assert (getNetworkForInterfaceLocked s interface = netId) as ->.
    { by apply (Hok _ netId n0 n interface). }
    destruct (wellFormed_lookup _ _ _ Hwf Hn) as [_ Hpos].
    destruct (Z.eqb_spec netId NETID_UNSET) as [He|_];
      [unfold NETID_UNSET in He; lia|].
    rewrite Z.eqb_refl. simpl. unfold getPermissionForUser.
    destruct (Z.eqb_spec netId LOCAL_NET_ID) as [Hl|Hl].
    + rewrite bool_decide_eq_true_2 by done. by destruct op.
    + rewrite bool_decide_eq_false_2 by done. destruct legacy; simpl; [|by destruct op].
      destruct (Z.eqb_spec (Z.land (getPermissionForUserLocked s uid) PERMISSION_SYSTEM)
                  PERMISSION_SYSTEM) as [Hp|Hp].
      * rewrite bool_decide_eq_true_2 by done. by destruct op.
      * rewrite bool_decide_eq_false_2 by done. by destruct op.
Qed.

End Routes.

(** ** The permission of networks *)

Section NetworkPermission.
Context `{Platform}.

Lemma setPermission_cases env n permission :
  ((setPermission env n permission).1.1 = 0 ->
   (setPermission env n permission).1.2 = set_mPermission n permission)
  /\ ((setPermission env n permission).1.1 <> 0 ->
      (setPermission env n permission).1.2 = n).
Proof.
  unfold setPermission. destruct (mInterfaces n); simpl; [done|].
  destruct (Z.eqb_spec (kernel env (ReqSetPermission (mNetId n) permission)) 0);
    simpl; by split.
Qed.

Lemma setPermissionForNetworks_steps env permission netIds s :
  (forall k n, mNetworks s !! k = Some n ->
     exists n', mNetworks (setPermissionForNetworks env s permission netIds).2 !! k
                = Some n'
                /\ mType n' = mType n
                /\ (k ∉ netIds -> n' = n)
                /\ (mPermission n = permission -> mPermission n' = permission))
  /\ (forall k, mNetworks s !! k = None ->
        mNetworks (setPermissionForNetworks env s permission netIds).2 !! k = None)
  /\ ((setPermissionForNetworks env s permission netIds).1 = 0 ->
      forall netId, netId ∈ netIds ->
        (exists n, mNetworks s !! netId = Some n /\ isPhysical n = true)
        /\ exists n', mNetworks (setPermissionForNetworks env s permission netIds).2
                      !! netId = Some n'
                      /\ mPermission n' = permission).
Proof.
  revert s. induction netIds as [|x rest IH]; intros s.
  { simpl. split; [eauto|]. split; [done|]. intros _ netId Hin.
    by apply elem_of_nil in Hin. }
  simpl. unfold getNetworkLocked.
  destruct (mNetworks s !! x) as [n|] eqn:Hx.
  2:{ simpl. split; [eauto|]. split; [done|]. unfold ENONET. intros [=]. }
  destruct (isPhysical n) eqn:Hphys; simpl.
  2:{ split; [eauto|]. split; [done|]. unfold EINVAL. intros [=]. }
  destruct (setPermission_cases env n permission) as [Hok Hfail].
  destruct (setPermission env n permission) as [[ret n1] evs]. simpl in Hok, Hfail.
  destruct (Z.eqb_spec ret 0) as [Hret|Hret]; simpl.
  - specialize (Hok Hret). subst n1.
    set (s1 := emit (putNetwork s x (set_mPermission n permission)) evs).
    destruct (IH s1) as (IHa & IHb & IHc).
    assert (Hs1 : forall k, mNetworks s1 !! k
                            = if decide (k = x) then Some (set_mPermission n permission)
                              else mNetworks s !! k).
    { intros k. unfold s1. simpl. destruct (decide (k = x)) as [->|Hne].
      - by rewrite lookup_insert_eq.
      - by rewrite lookup_insert_ne. }
    split; [|split].
    + intros k m Hk. destruct (decide (k = x)) as [->|Hne].
      * rewrite Hx in Hk. injection Hk as <-.
        destruct (IHa x (set_mPermission n permission)) as (n' & Hn' & Hty & _ & Hp).
        { rewrite Hs1. by rewrite decide_True. }
        exists n'. split; [done|]. split; [done|]. split.
        -- intros Hnot. destruct Hnot. by left.
        -- intros _. by apply Hp.
      * destruct (IHa k m) as (n' & Hn' & Hty & Hsame & Hp).
        { rewrite Hs1. by rewrite decide_False. }
        exists n'. split; [done|]. split; [done|]. split; [|done].
        intros Hnot. apply Hsame. intros Hin. apply Hnot. by right.
    + intros k Hk. apply IHb. rewrite Hs1.
      destruct (decide (k = x)) as [->|Hne]; [congruence|done].
    + intros Hzero netId Hin. destruct (decide (netId = x)) as [->|Hne].
      * split; [eauto|].
        destruct (IHa x (set_mPermission n permission)) as (n' & Hn' & _ & _ & Hp).
        { rewrite Hs1. by rewrite decide_True. }
        exists n'. split; [done|]. by apply Hp.
      * apply list_elem_of_In in Hin as [?|Hin]; [congruence|].
        apply list_elem_of_In in Hin.
        destruct (IHc Hzero netId Hin) as [(m & Hm & Hpm) Hafter].
        split; [|done]. rewrite Hs1, decide_False in Hm by done. eauto.
  - specialize (Hfail Hret). subst n1. split; [|split].
    + intros k m Hk. destruct (decide (k = x)) as [->|Hne].
      * rewrite Hx in Hk. injection Hk as <-. exists n.
        by rewrite lookup_insert_eq.
      * exists m. by rewrite lookup_insert_ne.
    + intros k Hk. rewrite lookup_insert_ne; [done|]. congruence.
    + done.
Qed.

(** X17: [setPermissionForNetworks] registers and forgets no network,
    changes the variant of none and leaves the networks that are not
    listed as they are; when it returns success, every listed netId was
    registered as a Physical network and has the permission afterwards.
    A list that starts with a netId that is not registered is answered
    with -ENONET, and one that starts with a network that is not Physical
    with -EINVAL, the registry being left as it is. *)
Theorem setPermissionForNetworks_result env s permission netIds :
  (forall k,
      match mNetworks s !! k,
            mNetworks (setPermissionForNetworks env s permission netIds).2 !! k with
      | Some n, Some n' => mType n' = mType n /\ (k ∉ netIds -> n' = n)
      | None, None => True
      | _, _ => False
      end)
  /\ ((setPermissionForNetworks env s permission netIds).1 = 0 ->
      forall netId, netId ∈ netIds ->
        (exists n, mNetworks s !! netId = Some n /\ isPhysical n = true)
        /\ exists n', mNetworks (setPermissionForNetworks env s permission netIds).2
                      !! netId = Some n'
                      /\ getPermission n' = permission)
  /\ (forall netId rest,
        mNetworks s !! netId = None ->
        setPermissionForNetworks env s permission (netId :: rest) = (- ENONET, s))
  /\ (forall netId rest n,
        mNetworks s !! netId = Some n -> isPhysical n = false ->
        setPermissionForNetworks env s permission (netId :: rest) = (- EINVAL, s)).
Proof.
  destruct (setPermissionForNetworks_steps env permission netIds s)
    as (Ha & Hb & Hc).
  split; [|split; [done|split]].
  - intros k. destruct (mNetworks s !! k) as [n|] eqn:Hk.
    + destruct (Ha k n Hk) as (n' & -> & Hty & Hsame & _). by split.
    + by rewrite (Hb k Hk).
  - intros netId rest Hnone. simpl. unfold getNetworkLocked. by rewrite Hnone.
  - intros netId rest n Hn Hphys. simpl. unfold getNetworkLocked.
    by rewrite Hn, Hphys.
Qed.

End NetworkPermission.

(** ** The allowlist and the resolver *)

Section DomainNames.
Context `{Platform}.

Lemma setNetworkAllowlist_lookup s rangeConfigs k :
  (forall c, c ∈ rangeConfigs -> is_Some (mNetworks s !! cfgNetId c)) ->
  mNetworks (setNetworkAllowlist s rangeConfigs).2 !! k
  = (fun n => setAllowedUids n (listedRanges rangeConfigs k [])) <$> mNetworks s !! k.
Proof.
  intros Hall. unfold setNetworkAllowlist.
  assert (existsb (fun config => negb (isValidNetworkLocked s (cfgNetId config)))
            rangeConfigs = false) as ->.
  { apply not_true_is_false. intros Hex.
    apply existsb_exists in Hex as (c & Hin & Hc).
    apply list_elem_of_In in Hin. destruct (Hall c Hin) as [n Hn].
    unfold isValidNetworkLocked, getNetworkLocked in Hc. rewrite Hn in Hc.
    discriminate. }
  simpl. rewrite applyAllowlists_lookup. simpl. rewrite lookup_fmap.
  by destruct (mNetworks s !! k).
Qed.

(** X18: the resolver's question after an allowlist was set.  In a
    well-formed registry, after a [setNetworkAllowlist] whose netIds are all
    registered, [evaluateDomainNameCallback] on the context that
    [getNetworkContext] fills in for a query answers as follows: yes when
    the query names no network and the uid has no network to connect to;
    no when the network of the application is not registered; otherwise yes
    if no config names that network or the last config that names it has
    no ranges, and else exactly when the uid is in the ranges of the last
    config that names it. *)
Theorem evaluateDomainName_after_allowlist env s rangeConfigs netId uid :
  wellFormed s ->
  (forall c, c ∈ rangeConfigs -> is_Some (mNetworks s !! cfgNetId c)) ->
  let s' := (setNetworkAllowlist s rangeConfigs).2 in
  let nc := getNetworkContext env s' netId uid in
  evaluateDomainNameCallback s' nc
  = if app_netid nc =? NETID_UNSET then true
    else match mNetworks s !! app_netid nc with
         | None => false
         | Some _ =>
             match listedRanges rangeConfigs (app_netid nc) [] with
             | [] => true
             | ranges => hasUid ranges uid
             end
         end.
Proof.
  intros Hwf Hall s' nc.
  assert (wellFormed s') as Hwf' by by apply wellFormed_setNetworkAllowlist.
  assert (app_netid nc = (if netId =? NETID_UNSET
                          then getNetworkForConnectLocked s' uid else netId)
          /\ ctx_uid nc = uid) as [Happ Huid].
  { subst nc. unfold getNetworkContext.
    destruct (getNetworkForDnsLocked env s' netId uid) as [mark resolved]. simpl.
    by destruct (netId =? NETID_UNSET). }
  unfold evaluateDomainNameCallback, NetworkController_isUidAllowed, getNetworkLocked.
  rewrite Huid.
  assert (Hneg : forall b : bool, (if negb b then false else true) = b)
    by by intros [].
  rewrite Hneg. clear Hneg.
  destruct (Z.eqb_spec (app_netid nc) NETID_UNSET) as [Hunset|Hset].
  - (* no network named and none to connect to: the default is unset *)
    assert (mDefaultNetId s' = NETID_UNSET) as ->.
    { rewrite Hunset in Happ.
      destruct (Z.eqb_spec netId NETID_UNSET) as [_|?]; [|congruence].
      unfold getNetworkForConnectLocked in Happ.
      destruct (getPhysicalOrUnreachableNetworkForUserLocked s' uid) as [a|] eqn:E;
        [|done].
      apply getPhysicalOrUnreachableNetworkForUserLocked_Some in E
        as (k & p & Hk & _).
      destruct (wellFormed_lookup _ _ _ Hwf' Hk) as [Hid ?].
      unfold NETID_UNSET in *. lia. }
    by rewrite Hunset.
  - simpl. subst s'. rewrite setNetworkAllowlist_lookup by done.
    destruct (mNetworks s !! app_netid nc) as [n|]; simpl; [|done].
    unfold isUidAllowed, setAllowedUids. simpl. done.
Qed.

End DomainNames.

(** ** Fallthrough rules for an interface of the default network *)

Section Delegate.
Context `{Platform}.

Lemma delegateFallthroughOver_requests env physicalInterface permission
    (add : bool) entries :
  let request (vpnNetId : Z) :=
    if add then ReqAddFallthrough vpnNetId physicalInterface permission
    else ReqRemoveFallthrough vpnNetId physicalInterface permission in
  let wanted :=
    map (fun e : Z * Network => request e.1)
        (List.filter (fun e : Z * Network => isVirtual e.2) entries) in
  let r := delegateFallthroughOver env physicalInterface permission add entries in
  (r.1 = 0 -> r.2 = wanted /\ Forall (fun req => kernel env req = 0) wanted)
  /\ (r.1 <> 0 ->
      exists sent failed rest,
        wanted = sent ++ failed :: rest /\ r.2 = sent ++ [failed]
        /\ Forall (fun req => kernel env req = 0) sent
        /\ kernel env failed = r.1).
Proof.
  intros request. induction entries as [|[k n] rest IH]; simpl.
  { split; [by split|done]. }
  destruct (isVirtual n); simpl; [|exact IH].
  unfold modifyFallthrough. fold (request k).
  destruct (Z.eqb_spec (kernel env (request k)) 0) as [Hk|Hk]; simpl.
  - destruct (delegateFallthroughOver env physicalInterface permission add rest)
      as [ret evs]. simpl in *. destruct IH as [IH0 IH1]. split.
    + intros Hret. destruct (IH0 Hret) as [-> Hall]. split; [done|].
      by constructor.
    + intros Hret. destruct (IH1 Hret) as (sent & failed & rest' & Hall & -> & Hsent & Hf).
      exists (request k :: sent), failed, rest'. rewrite Hall.
      split; [done|]. split; [done|]. split; [by constructor|done].
  - split; [done|]. intros _. eexists [], (request k), _. by repeat split.
Qed.

(** X19: [DelegateImpl::modifyFallthrough] for a physical interface asks
    for one fallthrough rule per registered Virtual network, in the order of
    the netIds.  When it returns success it has asked for all of them and
    each request succeeded; when it fails, the requests before the failing
    one succeeded, the failing one is the last it sent, and the code
    returned is the code of that request. *)
Theorem delegateModifyFallthrough_requests env s physicalInterface permission
    (add : bool) :
  let request (vpnNetId : Z) :=
    if add then ReqAddFallthrough vpnNetId physicalInterface permission
    else ReqRemoveFallthrough vpnNetId physicalInterface permission in
  let wanted :=
    map (fun e : Z * Network => request e.1)
        (List.filter (fun e : Z * Network => isVirtual e.2)
                     (inKeyOrder (mNetworks s))) in
  let r := delegateModifyFallthrough env s physicalInterface permission add in
  (r.1 = 0 -> r.2 = wanted /\ Forall (fun req => kernel env req = 0) wanted)
  /\ (r.1 <> 0 ->
      exists sent failed rest,
        wanted = sent ++ failed :: rest /\ r.2 = sent ++ [failed]
        /\ Forall (fun req => kernel env req = 0) sent
        /\ kernel env failed = r.1)
  /\ (forall vpnNetId, request vpnNetId ∈ wanted <->
        exists n, mNetworks s !! vpnNetId = Some n /\ isVirtual n = true).
Proof.
  intros request wanted r.
  destruct (delegateFallthroughOver_requests env physicalInterface permission add
              (inKeyOrder (mNetworks s))) as [H0 H1].
  split; [exact H0|]. split; [exact H1|].
  intros vpnNetId. subst wanted. rewrite list_elem_of_In, in_map_iff. split.
  - intros ([k n] & Hreq & Hin). apply filter_In in Hin as [Hin Hv].
    apply In_inKeyOrder in Hin. simpl in *.
    assert (k = vpnNetId) as ->.
    { subst request. simpl in Hreq. destruct add; congruence. }
    eauto.
  - intros (n & Hn & Hv). exists (vpnNetId, n). split; [done|].
    apply filter_In. split; [|done]. by apply In_inKeyOrder.
Qed.

End Delegate.

(** ** Polling of the TCP socket monitor *)

Section Polling.
Context `{Platform}.

Lemma updateTcpSocketMonitorPolling_last s :
  mNetworks (updateTcpSocketMonitorPolling s) = mNetworks s
  /\ ((exists k n, mNetworks s !! k = Some n /\ isPhysical n = true
                   /\ MIN_NET_ID <= getNetId n) ->
      last (mEffects (updateTcpSocketMonitorPolling s)) = Some ResumePolling)
  /\ (~ (exists k n, mNetworks s !! k = Some n /\ isPhysical n = true
                     /\ MIN_NET_ID <= getNetId n) ->
      last (mEffects (updateTcpSocketMonitorPolling s)) = Some SuspendPolling).
Proof.
  split; [done|]. unfold updateTcpSocketMonitorPolling. simpl.
  rewrite last_snoc.
  destruct (existsb _ _) eqn:Hex.
  - split; [done|]. intros Hno. destruct Hno.
    apply existsb_exists in Hex as ([k n] & Hin & Hp).
    apply In_inKeyOrder in Hin. apply andb_true_iff in Hp as [Hp Hle].
    apply Z.leb_le in Hle. exists k, n. by repeat split.
  - split; [|done]. intros (k & n & Hk & Hp & Hle).
    assert (existsb (fun e : Z * Network => isPhysical e.2 && (MIN_NET_ID <=? getNetId e.2))
              (inKeyOrder (mNetworks s)) = true) as Hyes.
    { apply existsb_exists. exists (k, n). split; [by apply In_inKeyOrder|].
      simpl. rewrite Hp. simpl. by apply Z.leb_le. }
    congruence.
Qed.

Lemma destroyNetwork_polls env s netId network :
  netId <> LOCAL_NET_ID -> netId <> UNREACHABLE_NET_ID ->
  mNetworks s !! netId = Some network ->
  exists s0, (destroyNetwork env s netId).2 = updateTcpSocketMonitorPolling s0.
Proof.
  intros Hl Hu Hn. unfold destroyNetwork.
  destruct (Z.eqb_spec netId LOCAL_NET_ID) as [?|_]; [done|].
  destruct (Z.eqb_spec netId UNREACHABLE_NET_ID) as [?|_]; [done|].
  unfold isValidNetworkLocked, getNetworkLocked. rewrite Hn. simpl.
  destruct (clearInterfaces env network) as [[ret network'] evs].
  destruct (mDefaultNetId s =? netId).
  - destruct (removeAsDefault env network') as [[err network''] evs2]. simpl. eauto.
  - destruct (isVirtual network').
    + destruct (modifyFallthroughLocked env _ netId false) as [err s2]. simpl. eauto.
    + simpl. eauto.
Qed.

(** X20: the request that ends a change of the set of networks.  After a
    successful [createPhysicalNetwork], and after a [destroyNetwork] of a
    registered network other than LOCAL and UNREACHABLE, the last request
    sent resumes the polling of the TCP socket monitor if the registry then
    holds a Physical network whose netId is at least MIN_NET_ID, and
    suspends it if the registry holds none. *)
Theorem polling_follows_networks env s netId permission local s' :
  ((createPhysicalNetwork env s netId permission local).1 = 0
   /\ s' = (createPhysicalNetwork env s netId permission local).2)
  \/ (netId <> LOCAL_NET_ID /\ netId <> UNREACHABLE_NET_ID
      /\ is_Some (mNetworks s !! netId)
      /\ s' = (destroyNetwork env s netId).2) ->
  ((exists k n, mNetworks s' !! k = Some n /\ isPhysical n = true
                /\ MIN_NET_ID <= getNetId n) ->
   last (mEffects s') = Some ResumePolling)
  /\ (~ (exists k n, mNetworks s' !! k = Some n /\ isPhysical n = true
                     /\ MIN_NET_ID <= getNetId n) ->
      last (mEffects s') = Some SuspendPolling).
Proof.
  intros Hcase.
  assert (exists s0, s' = updateTcpSocketMonitorPolling s0) as [s0 ->].
  { destruct Hcase as [[Hret ->]|(Hl & Hu & [network Hn] & ->)].
    - unfold createPhysicalNetwork, createPhysicalNetworkLocked in *.
      destruct (negb _); [unfold EINVAL in Hret; simpl in Hret; lia|].
      destruct (isValidNetworkLocked s netId);
        [unfold EEXIST in Hret; simpl in Hret; lia|].
      destruct (setPermission env (PhysicalNetwork netId local) permission)
        as [[ret n] evs].
      destruct (Z.eqb_spec ret 0) as [?|Hne]; simpl in *; [eauto|done].
    - by apply (destroyNetwork_polls env s netId network). }
  destruct (updateTcpSocketMonitorPolling_last s0) as (Hnet & Hyes & Hno).
  rewrite Hnet. by split.
Qed.

End Polling.

(** ** Adding an interface *)

Section AddInterface.
Context `{Platform}.

Lemma addInterfaceToNetwork_holds env s netId iface :
  (addInterfaceToNetwork env s netId iface).1 = 0 ->
  exists n', mNetworks (addInterfaceToNetwork env s netId iface).2 !! netId = Some n'
             /\ iface ∈ mInterfaces n'.
Proof.
  unfold addInterfaceToNetwork, getNetworkLocked.
  destruct (mNetworks s !! netId) as [n|]; [|unfold ENONET; simpl; lia].
  destruct (_ && _); [unfold EBUSY; simpl; lia|].
  assert (Hadd : (addInterface env n iface).1.1 = 0 ->
                 iface ∈ mInterfaces (addInterface env n iface).1.2).
  { unfold addInterface.
    destruct (Z.eqb_spec (kernel env (ReqAddInterface (mNetId n) iface)) 0);
      simpl; [|done].
    intros _. unfold hasInterface.
    destruct (decide (iface ∈ mInterfaces n)) as [Hin|Hin];
      [by rewrite bool_decide_eq_true_2|rewrite bool_decide_eq_false_2 by done].
    apply elem_of_app. right. by apply list_elem_of_singleton. }
  destruct (addInterface env n iface) as [[ret n'] evs]. simpl in Hadd.
  destruct (Z.eqb_spec ret 0) as [Hret|Hret]; simpl; [|done].
  intros _. exists n'.
  assert (mNetworks (emit (putNetwork s netId n') evs) !! netId = Some n') as Hput.
  { simpl. by rewrite lookup_insert_eq. }
  split; [|by apply Hadd].
  by repeat case_match.
Qed.

(** X21: [addInterfaceToNetwork] in a state the registry can be in.  It
    answers -ENONET for a netId that is not registered and -EBUSY when
    another network holds the interface, and changes nothing then.  When it
    returns success the network holds the interface and no other network
    does, so that [getNetworkForInterface] names it; the last netId of the
    index of the interface is then this netId, unless the network is the
    local one or the interface has no index, in which cases the table of
    last netIds is as before. *)
Theorem addInterfaceToNetwork_result env s netId interface :
  platformOk -> reachable s ->
  (mNetworks s !! netId = None ->
   addInterfaceToNetwork env s netId interface = (- ENONET, s))
  /\ (forall k n', is_Some (mNetworks s !! netId) -> k <> netId ->
        mNetworks s !! k = Some n' -> interface ∈ mInterfaces n' ->
        addInterfaceToNetwork env s netId interface = (- EBUSY, s))
  /\ ((addInterfaceToNetwork env s netId interface).1 = 0 ->
      getNetworkForInterface (addInterfaceToNetwork env s netId interface).2 interface
      = netId
      /\ (forall k n',
            mNetworks (addInterfaceToNetwork env s netId interface).2 !! k = Some n' ->
            interface ∈ mInterfaces n' -> k = netId)
      /\ (netId <> LOCAL_NET_ID -> getIfIndex env interface <> 0 ->
          mIfindexToLastNetId (addInterfaceToNetwork env s netId interface).2
            !! getIfIndex env interface = Some netId)
      /\ (netId = LOCAL_NET_ID \/ getIfIndex env interface = 0 ->
          mIfindexToLastNetId (addInterfaceToNetwork env s netId interface).2
          = mIfindexToLastNetId s)).
Proof.
  intros Hplat Hr.
  pose proof (reachable_wellFormed s Hplat Hr) as Hwf.
  pose proof (reachable_interfacesOk s Hplat Hr) as Hok.
  split; [|split].
  - intros Hnone. unfold addInterfaceToNetwork, getNetworkLocked. by rewrite Hnone.
  - intros k n' [n Hn] Hne Hk Hin.
    unfold addInterfaceToNetwork, getNetworkLocked. rewrite Hn.
    destruct (getNetworkForInterfaceLocked_some s interface k n' Hk Hin)
      as (n0 & Hn0 & Hin0 & _).
    assert (getNetworkForInterfaceLocked s interface = k) as ->.
    { by apply (Hok _ k n0 n' interface). }
    destruct (wellFormed_lookup _ _ _ Hwf Hk) as [_ Hpos].
    destruct (Z.eqb_spec k NETID_UNSET) as [He|_]; [unfold NETID_UNSET in He; lia|].
    by destruct (Z.eqb_spec k netId).
  - intros Hret.
    destruct (addInterfaceToNetwork_holds env s netId interface Hret)
      as (n' & Hn' & Hin').
    assert (reachable (addInterfaceToNetwork env s netId interface).2) as Hr'.
    { exact (reachable_execute env (AddInterfaceToNetwork netId interface) s Hr). }
    pose proof (reachable_interfacesOk _ Hplat Hr') as Hok'.
    split; [|split; [|split]].
    + destruct (getNetworkForInterfaceLocked_some _ interface netId n' Hn' Hin')
        as (n0 & Hn0 & Hin0 & _).
      by apply (Hok' _ netId n0 n' interface).
    + intros k m Hk Hin. by apply (Hok' k netId m n' interface).
    + intros Hl Hidx. clear Hn' Hin' Hr' Hok'. revert Hret.
      unfold addInterfaceToNetwork, getNetworkLocked.
      destruct (mNetworks s !! netId) as [n|]; [|unfold ENONET; simpl; lia].
      destruct (_ && _); [unfold EBUSY; simpl; lia|].
      destruct (addInterface env n interface) as [[ret n1] evs].
      destruct (Z.eqb_spec ret 0) as [?|?]; simpl; [|done].
      destruct (Z.eqb_spec netId LOCAL_NET_ID) as [?|_]; [done|].
      destruct (Z.eqb_spec (getIfIndex env interface) 0) as [?|_]; [done|].
      simpl. intros _. by rewrite lookup_insert_eq.
    + intros Hcase. clear Hn' Hin' Hr' Hok'. revert Hret.
      unfold addInterfaceToNetwork, getNetworkLocked.
      destruct (mNetworks s !! netId) as [n|]; [|done].
      destruct (_ && _); [done|].
      destruct (addInterface env n interface) as [[ret n1] evs].
      destruct (Z.eqb_spec ret 0) as [?|?]; simpl; [|done].
      destruct (Z.eqb_spec netId LOCAL_NET_ID) as [?|?]; [done|].
      destruct (Z.eqb_spec (getIfIndex env interface) 0) as [?|?]; [done|].
      by destruct Hcase.
Qed.

End AddInterface.

(** ** Listing the children of a chain *)

Module ChildChains.
Import Controllers ControllersFacts.

Lemma CHILD_CHAIN_REGEX_groups (rule g1 g2 : string) :
  CHILD_CHAIN_REGEX rule = Some (g1, g2) ->
  g1 <> EmptyString /\ g2 <> EmptyString
  /\ noneIs " " g1 = true /\ noneIs " " g2 = true.
Proof.
  unfold CHILD_CHAIN_REGEX.
  destruct (stripPrefix "-A " rule) as [r1|] eqn:E1; [|done].
  destruct (spanNonSpace r1) as [w1 r2] eqn:E2.
  destruct (isEmpty w1) eqn:Hw1; [done|].
  destruct (stripPrefix " -j " r2) as [r3|] eqn:E3; [|done].
  destruct (spanNonSpace r3) as [w2 r4] eqn:E4.
  destruct (isEmpty w2) eqn:Hw2; [done|].
  destruct (isEmpty r4) eqn:E5; [|done]. intros [= <- <-].
  apply spanNonSpace_spec in E2 as (_ & Hs1 & _).
  apply spanNonSpace_spec in E4 as (_ & Hs2 & _).
  split; [by intros ->|]. split; [by intros ->|]. done.
Qed.

Lemma CHILD_CHAIN_REGEX_link (g1 g2 : string) :
  g1 <> EmptyString -> g2 <> EmptyString ->
  noneIs " " g1 = true -> noneIs " " g2 = true ->
  CHILD_CHAIN_REGEX (linkLine g1 g2) = Some (g1, g2).
Proof.
  intros Hp Hc Hps Hcs. unfold CHILD_CHAIN_REGEX, linkLine.
  rewrite stripPrefix_append.
  rewrite (spanNonSpace_append g1 (" -j " +:+ g2)) by (done || right; eauto).
  rewrite (isEmpty_false _ Hp), stripPrefix_append.
  replace g2 with (g2 +:+ EmptyString) at 1 by apply append_nil_r.
  rewrite (spanNonSpace_append g2 EmptyString) by (done || by left).
  by rewrite (isEmpty_false _ Hc).
Qed.

(** X22: CHILD_CHAIN_REGEX matches a rule exactly when the rule is
    [-A], a space, a first group, [ -j ], a second group and nothing more,
    both groups being non-empty and without a space; so a rule with an
    option before [-j] or anything after the target is not taken for the
    link of a child. *)
Theorem CHILD_CHAIN_REGEX_matches (rule g1 g2 : string) :
  CHILD_CHAIN_REGEX rule = Some (g1, g2) <->
  rule = linkLine g1 g2
  /\ g1 <> EmptyString /\ g2 <> EmptyString
  /\ noneIs " " g1 = true /\ noneIs " " g2 = true.
Proof.
  split.
  - intros Hm. split; [by apply CHILD_CHAIN_REGEX_Some|].
    by apply (CHILD_CHAIN_REGEX_groups rule).
  - intros (-> & H1 & H2 & H3 & H4). by apply CHILD_CHAIN_REGEX_link.
Qed.

(** X23: [findExistingChildChains] and the call of [abort()].  The
    function aborts exactly for the target V4V6.  Otherwise it sends the
    listing command of the parent chain; if the listing fails with -1 it
    finds no child, and else the children it finds are the names, non-empty
    and without a space, whose link under the parent is a line of the
    output.  [createChildChains] aborts exactly when it is not exclusive and
    the target is V4V6. *)
Theorem findExistingChildChains_children restore target table parentChain :
  (findExistingChildChains restore target table parentChain = None <->
   target = V4V6)
  /\ (target <> V4V6 ->
      exists existing,
        findExistingChildChains restore target table parentChain = Some existing
        /\ forall child,
             child ∈ existing <->
             (restore target (listingCommand table parentChain)).1 <> -1
             /\ linkLine parentChain child
                ∈ getlines (restore target (listingCommand table parentChain)).2
             /\ parentChain <> EmptyString /\ child <> EmptyString
             /\ noneIs " " parentChain = true /\ noneIs " " child = true)
  /\ (forall childChains exclusive,
        createChildChains restore target table parentChain childChains exclusive
        = None <-> exclusive = false /\ target = V4V6).
Proof.
  assert (Hfind : target <> V4V6 ->
            exists existing,
              findExistingChildChains restore target table parentChain = Some existing
              /\ forall child,
                   child ∈ existing <->
                   (restore target (listingCommand table parentChain)).1 <> -1
                   /\ linkLine parentChain child
                      ∈ getlines (restore target (listingCommand table parentChain)).2
                   /\ parentChain <> EmptyString /\ child <> EmptyString
                   /\ noneIs " " parentChain = true /\ noneIs " " child = true).
  { intros Htarget. unfold findExistingChildChains.
    rewrite bool_decide_eq_false_2 by done.
    fold (listingCommand table parentChain).
    destruct (restore target (listingCommand table parentChain)) as [ret output].
    simpl. destruct (Z.eqb_spec ret (-1)) as [->|Hret].
    - eexists. split; [done|]. intros child. split.
      + intros Hin. by apply not_elem_of_empty in Hin.
      + by intros [? _].
    - eexists. split; [done|]. intros child. rewrite noteChild_fold. split.
      + intros [Hin|(rule & Hin & Hm)]; [by apply not_elem_of_empty in Hin|].
        destruct (CHILD_CHAIN_REGEX_groups _ _ _ Hm) as (? & ? & ? & ?).
        apply CHILD_CHAIN_REGEX_Some in Hm as ->. done.
      + intros (_ & Hin & ? & ? & ? & ?). right. exists (linkLine parentChain child).
        split; [done|]. by apply CHILD_CHAIN_REGEX_link. }
  assert (Habort : findExistingChildChains restore target table parentChain = None
                   <-> target = V4V6).
  { split.
    - intros Hnone. destruct (decide (target = V4V6)) as [?|Hne]; [done|].
      destruct (Hfind Hne) as (existing & Hsome & _). congruence.
    - intros ->. unfold findExistingChildChains. by rewrite bool_decide_eq_true_2. }
  split; [exact Habort|]. split; [exact Hfind|].
  intros childChains exclusive. unfold createChildChains.
  destruct exclusive.
  - split; [done|]. by intros [? _].
  - destruct (findExistingChildChains restore target table parentChain)
      as [existing|] eqn:E.
    + split; [done|]. intros [_ Ht]. apply Habort in Ht. congruence.
    + split; [|done]. intros _. split; [done|]. by apply Habort.
Qed.

End ChildChains.

(** ** The network of a connection *)

Section Connect.
Context `{Platform}.

(** X24: in a well-formed registry the network [getNetworkForConnect]
    chooses for a uid is never a Virtual network: it is UNSET, which
    happens only when the default is UNSET, or a registered Physical or
    Unreachable network; and it is the default of the registry unless a
    Physical or Unreachable network nominates itself for the uid. *)
Theorem getNetworkForConnect_kind s uid :
  wellFormed s ->
  (getNetworkForConnect s uid = NETID_UNSET /\ getDefaultNetwork s = NETID_UNSET
   \/ exists n, mNetworks s !! getNetworkForConnect s uid = Some n
                /\ isPhysical n || isUnreachable n = true
                /\ isVirtual n = false)
  /\ (getNetworkForConnect s uid = getDefaultNetwork s
      \/ exists n p, mNetworks s !! getNetworkForConnect s uid = Some n
                     /\ defaultCandidate uid n p).
Proof.
  intros Hwf. unfold getNetworkForConnect, getNetworkForConnectLocked, getDefaultNetwork.
  destruct (getPhysicalOrUnreachableNetworkForUserLocked s uid) as [a|] eqn:E.
  - apply getPhysicalOrUnreachableNetworkForUserLocked_Some in E
      as (k & p & Hk & Hcand & _).
    destruct (wellFormed_lookup _ _ _ Hwf Hk) as [-> _].
    pose proof Hcand as (Hkind & _). split; right.
    + exists a. split; [done|]. split; [done|].
      destruct (isVirtual a) eqn:Hv; [|done].
      by rewrite (virtual_not_candidate_kind _ Hv) in Hkind.
    + by exists a, p.
  - split; [|by left].
    destruct (wellFormed_default _ Hwf) as [Hd|(d & Hd & Hp)]; [by left|right].
    exists d. split; [done|]. rewrite Hp. split; [done|].
    destruct (isVirtual d) eqn:Hv; [|done].
    pose proof (virtual_not_candidate_kind _ Hv) as Hk. by rewrite Hp in Hk.
Qed.

(** X25: every state the registry can be in keeps the data model, on a
    platform whose sentinels and OEM range are 16-bit handles other than
    UNSET: a network is registered under its own netId, a registered netId
    is between 1 and 65535, and the default is UNSET or a registered
    Physical network. *)
Theorem reachable_data_model s :
  platformOk -> reachable s ->
  (forall k n, mNetworks s !! k = Some n -> getNetId n = k /\ 0 < k < 65536)
  /\ (getDefaultNetwork s = NETID_UNSET
      \/ exists n, mNetworks s !! getDefaultNetwork s = Some n
                   /\ isPhysical n = true).
Proof.
  intros Hplat Hr. pose proof (reachable_wellFormed s Hplat Hr) as Hwf.
  split; [intros k n; by apply wellFormed_lookup|].
  by apply wellFormed_default.
Qed.

End Connect.

(** ** The permissions of users across histories *)

Section UserPermissions.
Context `{Platform}.

Ltac users_step := simpl in *; try congruence; try done.

Lemma users_setPermissionForNetworks env s permission netIds :
  mUsers (setPermissionForNetworks env s permission netIds).2 = mUsers s.
Proof.
  revert s. induction netIds as [|netId netIds IH]; intros s; simpl; [done|].
  unfold setPermission.
  repeat (case_match; simpl in *; simplify_eq); try rewrite IH; users_step.
Qed.

Lemma users_setNetworkAllowlist s rangeConfigs :
  mUsers (setNetworkAllowlist s rangeConfigs).2 = mUsers s.
Proof.
  unfold setNetworkAllowlist. case_match; simpl; [done|].
  change (mUsers s) with (mUsers (clearAllowedUidsForAllNetworksLocked s)).
  generalize (clearAllowedUidsForAllNetworksLocked s). clear.
  induction rangeConfigs as [|c l IH]; intros s; simpl; [done|].
  rewrite IH. unfold applyAllowlist. by case_match.
Qed.

Lemma users_destroyNetwork env s netId :
  mUsers (destroyNetwork env s netId).2 = mUsers s.
Proof.
  destruct (decide (netId = LOCAL_NET_ID)) as [?|Hl];
    [by rewrite destroyNetwork_unchanged by auto|].
  destruct (decide (netId = UNREACHABLE_NET_ID)) as [?|Hu];
    [by rewrite destroyNetwork_unchanged by auto|].
  destruct (mNetworks s !! netId) as [network|] eqn:Hn;
    [|by rewrite destroyNetwork_unchanged by auto].
  by destruct (destroyNetwork_state env s netId network Hl Hu Hn)
    as (_ & _ & _ & ? & _).
Qed.

Lemma execute_users env c s uid :
  (forall permission uids, c = SetPermissionForUsers permission uids -> uid ∉ uids) ->
  mUsers (execute env c s) !! uid = mUsers s !! uid.
Proof.
  intros Hc. destruct c; simpl.
  - f_equal. unfold setDefaultNetwork, addAsDefault, removeAsDefault.
    repeat (case_match; simpl in *; simplify_eq); users_step.
  - f_equal. unfold createPhysicalNetwork, createPhysicalNetworkLocked, setPermission.
    repeat (case_match; simpl in *; simplify_eq); users_step.
  - f_equal. unfold createPhysicalOemNetwork, createPhysicalNetworkLocked, setPermission.
    repeat (case_match; simpl in *; simplify_eq); users_step.
  - f_equal. unfold createVirtualNetwork.
    destruct (modifyFallthroughLocked_state env s netId true) as [evs Hs1].
    repeat (case_match; simpl in *; simplify_eq); users_step.
  - f_equal. apply users_destroyNetwork.
  - f_equal. unfold addInterfaceToNetwork, addInterface.
    repeat (case_match; simpl in *; simplify_eq); users_step.
  - f_equal. unfold removeInterfaceFromNetwork, removeInterface.
    repeat (case_match; simpl in *; simplify_eq); users_step.
  - rewrite setPermissionForUsers_lookup.
    rewrite bool_decide_eq_false_2; [done|]. by apply (Hc permission uids).
  - f_equal. apply users_setPermissionForNetworks.
  - f_equal. unfold addUsersToNetwork, addUsers.
    repeat (case_match; simpl in *; simplify_eq); users_step.
  - f_equal. unfold removeUsersFromNetwork, removeUsers.
    repeat (case_match; simpl in *; simplify_eq); users_step.
  - f_equal. unfold addInterfaceAddress. by case_match.
  - f_equal. unfold removeInterfaceAddress.
    repeat (case_match; simpl in *; simplify_eq); users_step.
  - f_equal. unfold allowProtect. by case_match.
  - f_equal. unfold denyProtect. by case_match.
  - f_equal. apply users_setNetworkAllowlist.
Qed.

(** X26: a uid that no [setPermissionForUsers] of a history lists has the
    permission of the constructor's registry after the history: SYSTEM if
    the uid is below FIRST_APPLICATION_UID, and NONE otherwise. *)
Theorem getPermissionForUser_default history uid :
  Forall (fun step : Env * Command =>
            forall permission uids,
              step.2 = SetPermissionForUsers permission uids -> uid ∉ uids)
         history ->
  getPermissionForUser (run history initial) uid
  = if uid <? FIRST_APPLICATION_UID then PERMISSION_SYSTEM else PERMISSION_NONE.
Proof.
  intros Hall.
  assert (Hrun : forall s, mUsers (run history s) !! uid = mUsers s !! uid).
  { induction Hall as [|[env c] history Hc _ IH]; intros s; simpl; [done|].
    rewrite IH. by apply execute_users. }
  unfold getPermissionForUser, getPermissionForUserLocked. rewrite Hrun. simpl.
  by rewrite lookup_empty.
Qed.

End UserPermissions.

(** ** The further properties on the sample registries *)

Lemma secureVpnState_reachable : reachable (H := android) secureVpnState.
Proof. apply run_reachable, reachable_initial. Qed.

Lemma handoverState_reachable : reachable (H := android) handoverState.
Proof. apply run_reachable, reachable_initial. Qed.

Lemma physicalState_reachable : reachable (H := android) physicalState.
Proof. apply run_reachable, reachable_initial. Qed.

(** Scenario S2: destroying the VPN 101. *)
Lemma destroyNetwork_cleans_up_witness :
  101 <> LOCAL_NET_ID (Platform := android)
  /\ 101 <> UNREACHABLE_NET_ID (Platform := android)
  /\ is_Some (mNetworks secureVpnState !! 101)
  /\ mNetworks (destroyNetwork (H := android) quietEnv secureVpnState 101).2 !! 101
     = None
  /\ getDefaultNetwork (destroyNetwork (H := android) quietEnv secureVpnState 101).2
     = 100
  /\ checkUserNetworkAccess (H := android)
       (destroyNetwork (H := android) quietEnv secureVpnState 101).2 10001 101
     = - ENONET.
Proof.
  assert (101 <> LOCAL_NET_ID (Platform := android)) as Hl by (simpl; lia).
  assert (101 <> UNREACHABLE_NET_ID (Platform := android)) as Hu by (simpl; lia).
  assert (exists network, mNetworks secureVpnState !! 101 = Some network)
    as [network Hn] by (vm_compute; eauto).
  destruct (destroyNetwork_cleans_up (H := android) quietEnv secureVpnState 101
              network Hl Hu Hn) as (Hgone & _ & _ & _ & Hdef & Hacc).
  split; [exact Hl|]. split; [exact Hu|]. split; [by exists network|].
  split; [exact Hgone|]. split; [|exact (Hacc 10001)].
  rewrite Hdef. vm_compute. reflexivity.
Defined.

(** Destroying the physical network 100, and a netId that is not
    registered. *)
Lemma destroyNetwork_result_witness :
  100 <> LOCAL_NET_ID (Platform := android)
  /\ 100 <> UNREACHABLE_NET_ID (Platform := android)
  /\ is_Some (mNetworks physicalState !! 100)
  /\ wellFormed physicalState
  /\ (destroyNetwork (H := android) quietEnv physicalState 100).1 = 0.
Proof.
  assert (100 <> LOCAL_NET_ID (Platform := android)) as Hl by (simpl; lia).
  assert (100 <> UNREACHABLE_NET_ID (Platform := android)) as Hu by (simpl; lia).
  assert (is_Some (mNetworks physicalState !! 100)) as Hn by (vm_compute; eauto).
  assert (wellFormed physicalState) as Hwf.
  { apply (reachable_wellFormed (H := android)); [apply android_platformOk|].
    apply physicalState_reachable. }
  split; [exact Hl|]. split; [exact Hu|]. split; [exact Hn|]. split; [exact Hwf|].
  exact (proj2 (destroyNetwork_result (H := android) quietEnv physicalState 100 Hl Hu)
           Hn Hwf (fun _ => eq_refl)).
Defined.

(** Creating the physical network 100 in the constructor's registry and
    destroying it again. *)
Lemma createPhysicalNetwork_then_destroy_witness :
  (createPhysicalNetwork (H := android) quietEnv (initial (H := android)) 100
     PERMISSION_NONE false).1 = 0
  /\ mNetworks
       (destroyNetwork (H := android) quietEnv
          (createPhysicalNetwork (H := android) quietEnv (initial (H := android)) 100
             PERMISSION_NONE false).2 100).2
     = mNetworks (initial (H := android)).
Proof.
  assert ((createPhysicalNetwork (H := android) quietEnv (initial (H := android)) 100
             PERMISSION_NONE false).1 = 0) as Hret by (vm_compute; reflexivity).
  split; [exact Hret|].
  refine (proj1 (proj2 (proj2 (proj2
            (createPhysicalNetwork_then_destroy (H := android) quietEnv quietEnv
               (initial (H := android)) 100 PERMISSION_NONE false Hret _ _ _))))).
  - simpl. lia.
  - simpl. lia.
  - vm_compute. discriminate.
Defined.

(** Scenario S5: the tables of the registry with the two tunnels. *)
Lemma reachable_tables_witness :
  reachable (H := android) handoverState
  /\ mAddressToIfindices handoverState !! "2001:db8::1" = Some {[10; 11]}
  /\ mIfindexToLastNetId handoverState !! 10 = Some 101
  /\ ({[10; 11]} : gset Z) <> ∅
  /\ (101 = 0 \/ (101 <> LOCAL_NET_ID (Platform := android)
                  /\ is_Some (mNetworks handoverState !! 101))).
Proof.
  pose proof handoverState_reachable as Hr.
  assert (mAddressToIfindices handoverState !! "2001:db8::1" = Some {[10; 11]})
    as Ha by (vm_compute; reflexivity).
  assert (mIfindexToLastNetId handoverState !! 10 = Some 101)
    as Hi by (vm_compute; reflexivity).
  destruct (reachable_tables (H := android) handoverState Hr) as [Haddr Hidx].
  split; [exact Hr|]. split; [exact Ha|]. split; [exact Hi|].
  split; [exact (proj1 (Haddr _ _ Ha))|exact (Hidx _ _ Hi)].
Defined.

(** Scenario S5: tunA belongs to the VPN 101 and to no other network. *)
Lemma reachable_interface_owner_witness :
  platformOk (H := android)
  /\ reachable (H := android) handoverState
  /\ (exists n, mNetworks handoverState !! 101 = Some n /\ "tunA" ∈ mInterfaces n)
  /\ getNetworkForInterface handoverState "tunA" = 101.
Proof.
  pose proof handoverState_reachable as Hr.
  assert (exists n, mNetworks handoverState !! 101 = Some n /\ "tunA" ∈ mInterfaces n)
    as (n & Hn & Hin).
  { eexists. split; [vm_compute; reflexivity|]. simpl.
    apply list_elem_of_here. }
  split; [apply android_platformOk|]. split; [exact Hr|]. split; [by exists n|].
  exact (proj1 (reachable_interface_owner (H := android) handoverState 101 n "tunA"
                  android_platformOk Hr Hn Hin)).
Defined.

(** Scenario S2: a DNS query of uid 10001 that names no network goes to
    the VPN 101. *)
Lemma getNetworkForDns_mark_witness :
  wellFormed secureVpnState
  /\ 0 <= PERMISSION_SYSTEM (Platform := android) < 4
  /\ (getNetworkForDnsLocked (H := android) quietEnv secureVpnState NETID_UNSET 10001).2
     = 101
  /\ Fwmark.netId
       (Fwmark.decode
          (getNetworkForDnsLocked (H := android) quietEnv secureVpnState
             NETID_UNSET 10001).1)
     = (getNetworkForDnsLocked (H := android) quietEnv secureVpnState
          NETID_UNSET 10001).2
  /\ Fwmark.protectedFromVpn
       (Fwmark.decode
          (getNetworkForDnsLocked (H := android) quietEnv secureVpnState
             NETID_UNSET 10001).1)
     = true.
Proof.
  assert (wellFormed secureVpnState) as Hwf.
  { apply (reachable_wellFormed (H := android)); [apply android_platformOk|].
    apply secureVpnState_reachable. }
  assert (0 <= PERMISSION_SYSTEM (Platform := android) < 4) as Hperm by (simpl; lia).
  destruct (getNetworkForDns_mark (H := android) quietEnv secureVpnState NETID_UNSET
              10001 Hwf Hperm) as (Hid & Hprot & _).
  split; [exact Hwf|]. split; [exact Hperm|].
  split; [vm_compute; reflexivity|]. split; [exact Hid|exact Hprot].
Defined.

(** Scenario S5: a route through tunA in the VPN 101. *)
Lemma modifyRoute_decision_witness :
  platformOk (H := android)
  /\ reachable (H := android) handoverState
  /\ (exists n, mNetworks handoverState !! 101 = Some n /\ "tunA" ∈ mInterfaces n)
  /\ modifyRoute (H := android) (fun _ => 0) handoverState 101 "tunA" "10.0.0.0/8"
       "10.0.0.1" ROUTE_ADD false 10001 1500
     = (0, Some (RcAddRoute "tunA" "10.0.0.0/8" "10.0.0.1" INTERFACE 1500 0)).
Proof.
  pose proof handoverState_reachable as Hr.
  assert (exists n, mNetworks handoverState !! 101 = Some n /\ "tunA" ∈ mInterfaces n)
    as (n & Hn & Hin).
  { eexists. split; [vm_compute; reflexivity|]. simpl.
    apply list_elem_of_here. }
  split; [apply android_platformOk|]. split; [exact Hr|]. split; [by exists n|].
  exact (proj2 (proj2 (modifyRoute_decision (H := android) (fun _ => 0) handoverState
                         101 "tunA" "10.0.0.0/8" "10.0.0.1" ROUTE_ADD false 10001 1500
                         android_platformOk Hr)) n Hn Hin).
Defined.

(** The allowlist of network 100 admits uid 1 and not uid 2. *)
Lemma evaluateDomainName_after_allowlist_witness :
  wellFormed physicalState
  /\ (forall c, c ∈ [ {| cfgNetId := 100;
                         cfgUidRanges := [ {| start := 1; stop := 1 |} ];
                         cfgSubPriority := 0 |} ] ->
                is_Some (mNetworks physicalState !! cfgNetId c))
  /\ evaluateDomainNameCallback
       (setNetworkAllowlist physicalState
          [ {| cfgNetId := 100; cfgUidRanges := [ {| start := 1; stop := 1 |} ];
               cfgSubPriority := 0 |} ]).2
       (getNetworkContext (H := android) quietEnv
          (setNetworkAllowlist physicalState
             [ {| cfgNetId := 100; cfgUidRanges := [ {| start := 1; stop := 1 |} ];
                  cfgSubPriority := 0 |} ]).2 100 2)
     = false.
Proof.
  assert (wellFormed physicalState) as Hwf.
  { apply (reachable_wellFormed (H := android)); [apply android_platformOk|].
    apply physicalState_reachable. }
  assert (forall c, c ∈ [ {| cfgNetId := 100;
                             cfgUidRanges := [ {| start := 1; stop := 1 |} ];
                             cfgSubPriority := 0 |} ] ->
                    is_Some (mNetworks physicalState !! cfgNetId c)) as Hall.
  { intros c Hc. apply list_elem_of_singleton in Hc as ->. vm_compute. eauto. }
  split; [exact Hwf|]. split; [exact Hall|].
  rewrite (evaluateDomainName_after_allowlist (H := android) quietEnv physicalState
             _ 100 2 Hwf Hall).
  vm_compute. reflexivity.
Defined.

(** Creating the physical network 100 resumes the polling. *)
Lemma polling_follows_networks_witness :
  (createPhysicalNetwork (H := android) quietEnv (initial (H := android)) 100
     PERMISSION_NONE false).1 = 0
  /\ last (mEffects
             (createPhysicalNetwork (H := android) quietEnv (initial (H := android))
                100 PERMISSION_NONE false).2)
     = Some ResumePolling.
Proof.
  assert ((createPhysicalNetwork (H := android) quietEnv (initial (H := android)) 100
             PERMISSION_NONE false).1 = 0) as Hret by (vm_compute; reflexivity).
  split; [exact Hret|].
  apply (proj1 (polling_follows_networks (H := android) quietEnv
                  (initial (H := android)) 100 PERMISSION_NONE false _
                  (or_introl (conj Hret eq_refl)))).
  exists 100. eexists. split; [vm_compute; reflexivity|].
  split; [vm_compute; reflexivity|]. vm_compute. discriminate.
Defined.

(** Scenario S5: adding tunA to the VPN 101. *)
Lemma addInterfaceToNetwork_result_witness :
  platformOk (H := android)
  /\ reachable (H := android)
       (run (H := android) [ (tunEnv, CreateVirtualNetwork 101 false 1 false) ]
            (initial (H := android)))
  /\ (addInterfaceToNetwork (H := android) tunEnv
        (run (H := android) [ (tunEnv, CreateVirtualNetwork 101 false 1 false) ]
             (initial (H := android))) 101 "tunA").1 = 0
  /\ getNetworkForInterface
       (addInterfaceToNetwork (H := android) tunEnv
          (run (H := android) [ (tunEnv, CreateVirtualNetwork 101 false 1 false) ]
               (initial (H := android))) 101 "tunA").2 "tunA"
     = 101.
Proof.
  assert (reachable (H := android)
            (run (H := android) [ (tunEnv, CreateVirtualNetwork 101 false 1 false) ]
                 (initial (H := android)))) as Hr.
  { apply run_reachable, reachable_initial. }
  assert ((addInterfaceToNetwork (H := android) tunEnv
             (run (H := android) [ (tunEnv, CreateVirtualNetwork 101 false 1 false) ]
                  (initial (H := android))) 101 "tunA").1 = 0) as Hret
    by (vm_compute; reflexivity).
  split; [apply android_platformOk|]. split; [exact Hr|]. split; [exact Hret|].
  exact (proj1 (proj2 (proj2 (addInterfaceToNetwork_result (H := android) tunEnv _
                                101 "tunA" android_platformOk Hr)) Hret)).
Defined.

(** Scenario S2: uid 10001 connects through the default network 100. *)
Lemma getNetworkForConnect_kind_witness :
  wellFormed secureVpnState
  /\ (getNetworkForConnect secureVpnState 10001 = NETID_UNSET
      /\ getDefaultNetwork secureVpnState = NETID_UNSET
      \/ exists n, mNetworks secureVpnState !! getNetworkForConnect secureVpnState 10001
                   = Some n
                   /\ isPhysical n || isUnreachable n = true
                   /\ isVirtual n = false).
Proof.
  assert (wellFormed secureVpnState) as Hwf.
  { apply (reachable_wellFormed (H := android)); [apply android_platformOk|].
    apply secureVpnState_reachable. }
  split; [exact Hwf|].
  exact (proj1 (getNetworkForConnect_kind secureVpnState 10001 Hwf)).
Defined.

(** Scenario S2 keeps the data model. *)
Lemma reachable_data_model_witness :
  platformOk (H := android)
  /\ reachable (H := android) secureVpnState
  /\ (getDefaultNetwork secureVpnState = NETID_UNSET
      \/ exists n, mNetworks secureVpnState !! getDefaultNetwork secureVpnState = Some n
                   /\ isPhysical n = true).
Proof.
  split; [apply android_platformOk|]. split; [apply secureVpnState_reachable|].
  exact (proj2 (reachable_data_model (H := android) secureVpnState
                  android_platformOk secureVpnState_reachable)).
Defined.

(** Scenario S2 grants no permission: uid 10001 has none and uid 1000 has
    SYSTEM. *)
Lemma getPermissionForUser_default_witness :
  Forall (fun step : Env * Command =>
            forall permission uids,
              step.2 = SetPermissionForUsers permission uids -> 10001 ∉ uids)
         secureVpnHistory
  /\ getPermissionForUser (H := android) secureVpnState 10001 = PERMISSION_NONE.
Proof.
  assert (Forall (fun step : Env * Command =>
                    forall permission uids,
                      step.2 = SetPermissionForUsers permission uids -> 10001 ∉ uids)
            secureVpnHistory) as Hall.
  { unfold secureVpnHistory. repeat constructor; simpl; discriminate. }
  split; [exact Hall|].
  exact (getPermissionForUser_default (H := android) secureVpnHistory 10001 Hall).
Defined.

(** Creating the VPN 101 beside the physical network 100. *)
Lemma createVirtualNetwork_result_witness :
  (createVirtualNetwork (H := android) quietEnv physicalState 101 true 1 false).1 = 0
  /\ mNetworks physicalState !! 101 = None
  /\ mNetworks
       (createVirtualNetwork (H := android) quietEnv physicalState 101 true 1 false).2
     = <[101 := VirtualNetwork 101 true false]> (mNetworks physicalState).
Proof.
  assert ((createVirtualNetwork (H := android) quietEnv physicalState 101 true 1
             false).1 = 0) as Hret by (vm_compute; reflexivity).
  destruct (proj1 (createVirtualNetwork_result (H := android) quietEnv physicalState
                     101 true 1 false) Hret) as (_ & Hfree & _ & Hins).
  split; [exact Hret|]. split; [exact Hfree|exact Hins].
Defined.

(** Making a netId that is not registered the default. *)
Lemma setDefaultNetwork_failure_witness :
  200 <> getDefaultNetwork physicalState
  /\ 200 <> NETID_UNSET
  /\ mNetworks physicalState !! 200 = None
  /\ setDefaultNetwork quietEnv physicalState 200 = (- ENONET, physicalState).
Proof.
  assert (200 <> getDefaultNetwork physicalState) as Hd by (vm_compute; discriminate).
  assert (200 <> NETID_UNSET) as Hu by (vm_compute; discriminate).
  assert (mNetworks physicalState !! 200 = None) as Hn by (vm_compute; reflexivity).
  split; [exact Hd|]. split; [exact Hu|]. split; [exact Hn|].
  exact (proj1 (proj2 (setDefaultNetwork_failure quietEnv physicalState 200))
           Hd Hu Hn).
Defined.

(** Allowing uid 10001 to protect on network 100, and taking it back. *)
Lemma allowProtect_denyProtect_witness :
  ((10001, 100) ∉ mProtectableUsers (initial (H := android)))
  /\ (allowProtect (initial (H := android)) 10001 100).1 = 0
  /\ mProtectableUsers
       (denyProtect (allowProtect (initial (H := android)) 10001 100).2 10001 100).2
     = mProtectableUsers (initial (H := android)).
Proof.
  assert ((10001, 100) ∉ mProtectableUsers (initial (H := android))) as Hnot.
  { simpl. rewrite elem_of_singleton. intros [=]. }
  destruct (proj2 (proj2 (allowProtect_denyProtect (initial (H := android)) 10001 100))
              Hnot) as (Hret & _ & Hback).
  split; [exact Hnot|]. split; [exact Hret|exact Hback].
Defined.

(** Uid 10001 cannot protect on network 100 before it is allowed to, and
    can afterwards. *)
Lemma allowProtect_canProtect_witness :
  hasSystem (H := android)
    (getPermissionForUser (H := android) (initial (H := android)) 10001) = false
  /\ canProtect (H := android) (initial (H := android)) 10001 100 = false
  /\ canProtect (H := android) (allowProtect (initial (H := android)) 10001 100).2
       10001 100 = true.
Proof.
  assert (hasSystem (H := android)
            (getPermissionForUser (H := android) (initial (H := android)) 10001)
          = false) as Hperm by (vm_compute; reflexivity).
  destruct (allowProtect_canProtect (H := android) (initial (H := android)) 10001 100)
    as (Hcan & _ & Hcannot).
  split; [exact Hperm|]. split; [|exact Hcan].
  apply Hcannot; [exact Hperm| |].
  - simpl. rewrite elem_of_singleton. intros [=].
  - simpl. rewrite elem_of_singleton. intros [=].
Defined.

(** Granting SYSTEM to uid 10001 gives it access to the local network. *)
Lemma setPermissionForUsers_effect_witness :
  10001 ∈ [10001]
  /\ 10001 <> INVALID_UID (Platform := android)
  /\ is_Some (mNetworks (initial (H := android)) !! 99)
  /\ checkUserNetworkAccess (H := android)
       (setPermissionForUsers (initial (H := android))
          (PERMISSION_SYSTEM (Platform := android)) [10001]) 10001 99 = 0.
Proof.
  assert (10001 ∈ [10001]) as Hin by apply list_elem_of_here.
  assert (10001 <> INVALID_UID (Platform := android)) as Hv by (simpl; lia).
  assert (is_Some (mNetworks (initial (H := android)) !! 99)) as Hn
    by (vm_compute; eauto).
  split; [exact Hin|]. split; [exact Hv|]. split; [exact Hn|].
  exact (proj1 (proj2 (setPermissionForUsers_effect (H := android)
                         (initial (H := android))
                         (PERMISSION_SYSTEM (Platform := android)) [10001] 10001)
                  Hin eq_refl Hv 99) Hn).
Defined.

(** Recording the index 10 under an address and removing it again. *)
Lemma addInterfaceAddress_then_remove_witness :
  10 <> 0
  /\ mAddressToIfindices (initial (H := android)) !! "2001:db8::1" = None
  /\ removeInterfaceAddress
       (addInterfaceAddress (initial (H := android)) 10 "2001:db8::1") 10 "2001:db8::1"
     = (true, initial (H := android)).
Proof.
  assert (10 <> 0) as Hne by lia.
  assert (mAddressToIfindices (initial (H := android)) !! "2001:db8::1" = None)
    as Hnone by (vm_compute; reflexivity).
  split; [exact Hne|]. split; [exact Hnone|].
  exact (proj2 (proj2 (proj2 (addInterfaceAddress_then_remove (initial (H := android))
                                10 "2001:db8::1") Hne)) Hnone).
Defined.

(** Scenario S5: removing the address from tunA leaves it on tunB. *)
Lemma removeInterfaceAddress_tables_witness :
  mAddressToIfindices handoverState !! "2001:db8::1" = Some {[10; 11]}
  /\ 10 ∈ ({[10; 11]} : gset Z)
  /\ mAddressToIfindices (removeInterfaceAddress handoverState 10 "2001:db8::1").2
       !! "2001:db8::1"
     = (if bool_decide (({[10; 11]} : gset Z) ∖ {[10]} = ∅) then None
        else Some ({[10; 11]} ∖ {[10]})).
Proof.
  assert (mAddressToIfindices handoverState !! "2001:db8::1" = Some {[10; 11]})
    as Ha by (vm_compute; reflexivity).
  assert (10 ∈ ({[10; 11]} : gset Z)) as Hin
    by (apply elem_of_union_l, elem_of_singleton; reflexivity).
  split; [exact Ha|]. split; [exact Hin|].
  exact (proj1 (proj2 (proj2 (proj2 (proj2 (proj2
           (removeInterfaceAddress_tables handoverState 10 "2001:db8::1"))))))
           _ Ha Hin).
Defined.

(** Scenario S5: tunA is found in the VPN 101. *)
Lemma getNetworkForInterface_smallest_witness :
  exists n, mNetworks handoverState !! 101 = Some n
            /\ "tunA" ∈ mInterfaces n
            /\ getNetworkForInterface handoverState "tunA" <= 101.
Proof.
  assert (exists n, mNetworks handoverState !! 101 = Some n /\ "tunA" ∈ mInterfaces n)
    as (n & Hn & Hin).
  { eexists. split; [vm_compute; reflexivity|]. simpl. apply list_elem_of_here. }
  destruct (proj2 (getNetworkForInterface_smallest handoverState "tunA") 101 n Hn Hin)
    as (n0 & _ & _ & Hle).
  exists n. split; [exact Hn|]. split; [exact Hin|exact Hle].
Defined.

(** Giving the physical network 100 the permission SYSTEM. *)
Lemma setPermissionForNetworks_result_witness :
  (setPermissionForNetworks quietEnv physicalState 3 [100]).1 = 0
  /\ 100 ∈ [100]
  /\ exists n', mNetworks (setPermissionForNetworks quietEnv physicalState 3 [100]).2
                 !! 100 = Some n'
                /\ getPermission n' = 3.
Proof.
  assert ((setPermissionForNetworks quietEnv physicalState 3 [100]).1 = 0) as Hret
    by (vm_compute; reflexivity).
  assert (100 ∈ [100]) as Hin by apply list_elem_of_here.
  split; [exact Hret|]. split; [exact Hin|].
  exact (proj2 (proj1 (proj2 (setPermissionForNetworks_result quietEnv physicalState
                                3 [100])) Hret 100 Hin)).
Defined.

(** Scenario S2: one fallthrough rule is asked for, that of the VPN 101. *)
Lemma delegateModifyFallthrough_requests_witness :
  (delegateModifyFallthrough quietEnv secureVpnState "wlan0" 0 true).1 = 0
  /\ (delegateModifyFallthrough quietEnv secureVpnState "wlan0" 0 true).2
     = [ReqAddFallthrough 101 "wlan0" 0].
Proof.
  assert ((delegateModifyFallthrough quietEnv secureVpnState "wlan0" 0 true).1 = 0)
    as Hret by (vm_compute; reflexivity).
  split; [exact Hret|].
  rewrite (proj1 (proj1 (delegateModifyFallthrough_requests quietEnv secureVpnState
                           "wlan0" 0 true) Hret)).
  vm_compute. reflexivity.
Defined.

(** The link of oem_out under OUTPUT matches; a rule with an option does
    not. *)
Lemma CHILD_CHAIN_REGEX_matches_witness :
  Controllers.CHILD_CHAIN_REGEX "-A OUTPUT -j oem_out" = Some ("OUTPUT", "oem_out")
  /\ Controllers.CHILD_CHAIN_REGEX "-A OUTPUT -o lo -j oem_out" = None.
Proof.
  split.
  - apply (proj2 (ChildChains.CHILD_CHAIN_REGEX_matches "-A OUTPUT -j oem_out"
                    "OUTPUT" "oem_out")).
    split; [vm_compute; reflexivity|]. split; [discriminate|].
    split; [discriminate|]. split; vm_compute; reflexivity.
  - vm_compute. reflexivity.
Defined.

(** Scenario S4: oem_out is found under OUTPUT, the vendor chain too. *)
Lemma findExistingChildChains_children_witness :
  Controllers.V4 <> Controllers.V4V6
  /\ exists existing,
       Controllers.findExistingChildChains outputListing Controllers.V4 "filter"
         "OUTPUT" = Some existing
       /\ "oem_out" ∈ existing.
Proof.
  assert (Controllers.V4 <> Controllers.V4V6) as Ht by discriminate.
  destruct (proj1 (proj2 (ChildChains.findExistingChildChains_children outputListing
                            Controllers.V4 "filter" "OUTPUT")) Ht)
    as (existing & Hfound & Hiff).
  split; [exact Ht|]. exists existing. split; [exact Hfound|].
  apply Hiff. split; [vm_compute; discriminate|].
  split; [|split; [discriminate|split; [discriminate|split; vm_compute; reflexivity]]].
  assert (Controllers.getlines
            (outputListing Controllers.V4
               (Controllers.listingCommand "filter" "OUTPUT")).2
          = [ "-P OUTPUT ACCEPT"; "-A OUTPUT -j vendor_chain";
              "-A OUTPUT -j oem_out" ]) as -> by (vm_compute; reflexivity).
  do 2 apply list_elem_of_further. apply list_elem_of_here.
Defined.

(** ** The chains installed at startup *)

Module ControllersInitFacts.
Import Controllers ControllersFacts ControllersInit.

Lemma createChildChains_exclusive_any restore restore' target table parentChain
    childChains :
  createChildChains restore target table parentChain childChains true
  = createChildChains restore' target table parentChain childChains true
  /\ is_Some (createChildChains restore target table parentChain childChains true).
Proof. unfold createChildChains. split; [done|eauto]. Qed.

Lemma createChildChains_cooperative_listing restore restore' target table
    parentChain childChains :
  target <> V4V6 ->
  is_Some (createChildChains restore target table parentChain childChains false)
  /\ (restore target (listingCommand table parentChain)
      = restore' target (listingCommand table parentChain) ->
      createChildChains restore target table parentChain childChains false
      = createChildChains restore' target table parentChain childChains false).
Proof.
  intros Ht. unfold createChildChains, findExistingChildChains.
  rewrite bool_decide_eq_false_2 by done.
  fold (listingCommand table parentChain). split.
  - destruct (restore target (listingCommand table parentChain)) as [ret output].
    destruct (ret =? -1); eauto.
  - by intros ->.
Qed.

Lemma runChildChainCalls_some restore calls :
  Forall (fun call => callExclusive call = true \/ callTarget call <> V4V6) calls ->
  exists commands,
    runChildChainCalls restore calls = Some commands
    /\ commands.*1 = callTarget <$> calls.
Proof.
  induction 1 as [|call calls Hcall _ (commands & IH & Htargets)]; simpl.
  { by exists []. }
  assert (is_Some (createChildChains restore (callTarget call) (callTable call)
                     (callParent call) (callChildren call) (callExclusive call)))
    as [command ->].
  { destruct Hcall as [->|Ht].
    - apply (createChildChains_exclusive_any restore restore).
    - destruct (callExclusive call).
      + apply (createChildChains_exclusive_any restore restore).
      + by apply (createChildChains_cooperative_listing restore restore). }
  rewrite IH. eexists. split; [done|]. rewrite fmap_cons. simpl. by f_equal.
Qed.

Lemma runChildChainCalls_listing restore restore' calls :
  Forall (fun call =>
            callExclusive call = true
            \/ (callTarget call <> V4V6
                /\ restore (callTarget call)
                     (listingCommand (callTable call) (callParent call))
                   = restore' (callTarget call)
                       (listingCommand (callTable call) (callParent call))))
         calls ->
  runChildChainCalls restore calls = runChildChainCalls restore' calls.
Proof.
  induction 1 as [|call calls Hcall _ IH]; simpl; [done|].
  rewrite IH.
  assert (createChildChains restore (callTarget call) (callTable call)
            (callParent call) (callChildren call) (callExclusive call)
          = createChildChains restore' (callTarget call) (callTable call)
              (callParent call) (callChildren call) (callExclusive call)) as ->;
    [|done].
  destruct Hcall as [->|[Ht Heq]].
  - apply createChildChains_exclusive_any.
  - destruct (callExclusive call).
    + apply createChildChains_exclusive_any.
    + by apply createChildChains_cooperative_listing.
Qed.

(** X27: [initChildChains] never reaches the call of [abort()]: whatever
    the packet filter answers and whatever the lists of module chains, its
    twelve calls of [createChildChains] all hand a command to the packet
    filter, six for both protocols, then two for IPv4, then two pairs of one
    for IPv4 and one for IPv6.  The commands depend on the packet filter
    only through the listings of filter OUTPUT and of mangle POSTROUTING,
    each for IPv4 and for IPv6. *)
Theorem initChildChains_runs restore chains :
  (exists commands,
      initChildChains restore chains = Some commands
      /\ commands.*1 = [V4V6; V4V6; V4V6; V4V6; V4V6; V4V6; V4; V4; V4; V6; V4; V6])
  /\ (forall restore',
        restore V4 (listingCommand "filter" "OUTPUT")
        = restore' V4 (listingCommand "filter" "OUTPUT") ->
        restore V6 (listingCommand "filter" "OUTPUT")
        = restore' V6 (listingCommand "filter" "OUTPUT") ->
        restore V4 (listingCommand "mangle" "POSTROUTING")
        = restore' V4 (listingCommand "mangle" "POSTROUTING") ->
        restore V6 (listingCommand "mangle" "POSTROUTING")
        = restore' V6 (listingCommand "mangle" "POSTROUTING") ->
        initChildChains restore chains = initChildChains restore' chains).
Proof.
  split.
  - apply (runChildChainCalls_some restore (childChainCalls chains)).
    unfold childChainCalls.
    repeat (apply Forall_cons; split; [simpl; (by left) || (by right)|]).
    apply Forall_nil_2.
  - intros restore' H1 H2 H3 H4.
    apply (runChildChainCalls_listing restore restore' (childChainCalls chains)).
    unfold childChainCalls.
    repeat (apply Forall_cons; split; [simpl; (by left) || (right; by split)|]).
    apply Forall_nil_2.
Qed.

End ControllersInitFacts.

(** Scenario S4 at startup: the twelve commands are issued when filter
    OUTPUT is installed with its four children. *)
Lemma initChildChains_runs_witness :
  exists commands,
    ControllersInit.initChildChains outputListing
      {| ControllersInit.FILTER_INPUT := []; ControllersInit.FILTER_FORWARD := [];
         ControllersInit.FILTER_OUTPUT := outputChildren;
         ControllersInit.RAW_PREROUTING := [];
         ControllersInit.MANGLE_POSTROUTING := [];
         ControllersInit.MANGLE_INPUT := []; ControllersInit.MANGLE_FORWARD := [];
         ControllersInit.MANGLE_OUTPUT := []; ControllersInit.NAT_PREROUTING := [];
         ControllersInit.NAT_POSTROUTING := [] |} = Some commands
    /\ length commands = 12%nat.
Proof.
  destruct (proj1 (ControllersInitFacts.initChildChains_runs outputListing
                     {| ControllersInit.FILTER_INPUT := [];
                        ControllersInit.FILTER_FORWARD := [];
                        ControllersInit.FILTER_OUTPUT := outputChildren;
                        ControllersInit.RAW_PREROUTING := [];
                        ControllersInit.MANGLE_POSTROUTING := [];
                        ControllersInit.MANGLE_INPUT := [];
                        ControllersInit.MANGLE_FORWARD := [];
                        ControllersInit.MANGLE_OUTPUT := [];
                        ControllersInit.NAT_PREROUTING := [];
                        ControllersInit.NAT_POSTROUTING := [] |}))
    as (commands & Hrun & Htargets).
  exists commands. split; [exact Hrun|].
  rewrite <- (length_fmap fst), Htargets. reflexivity.
Defined.

(** ** The local network *)

Section LocalNetwork.
Context `{Platform}.

Lemma keepsTypes_refl s : keepsTypes s s.
Proof. intros k n Hk. eauto. Qed.

Lemma keepsTypes_trans s1 s2 s3 :
  keepsTypes s1 s2 -> keepsTypes s2 s3 -> keepsTypes s1 s3.
Proof.
  intros H12 H23 k n Hk. destruct (H12 k n Hk) as (n2 & Hk2 & Ht2).
  destruct (H23 k n2 Hk2) as (n3 & Hk3 & Ht3). exists n3. split; [done|congruence].
Qed.

Lemma keepsTypes_same s s' : mNetworks s' = mNetworks s -> keepsTypes s s'.
Proof. intros Heq k n Hk. rewrite Heq. eauto. Qed.

Lemma keepsTypes_emit s evs : keepsTypes s (emit s evs).
Proof. by apply keepsTypes_same. Qed.

Lemma keepsTypes_set_mDefaultNetId s v : keepsTypes s (set_mDefaultNetId s v).
Proof. by apply keepsTypes_same. Qed.

Lemma keepsTypes_set_mUsers s v : keepsTypes s (set_mUsers s v).
Proof. by apply keepsTypes_same. Qed.

Lemma keepsTypes_updateTcpSocketMonitorPolling s :
  keepsTypes s (updateTcpSocketMonitorPolling s).
Proof. by apply keepsTypes_same. Qed.

Lemma keepsTypes_set_mIfindexToLastNetId s v :
  keepsTypes s (set_mIfindexToLastNetId s v).
Proof. by apply keepsTypes_same. Qed.

Lemma keepsTypes_putNetwork s k n n' :
  mNetworks s !! k = Some n -> mType n' = mType n ->
  keepsTypes s (putNetwork s k n').
Proof.
  intros Hn Hty k' m Hk. simpl. destruct (decide (k = k')) as [->|Hne].
  - rewrite lookup_insert_eq. exists n'. split; [done|]. congruence.
  - rewrite lookup_insert_ne by done. eauto.
Qed.

Lemma keepsTypes_putNetwork_new s k n' :
  mNetworks s !! k = None -> keepsTypes s (putNetwork s k n').
Proof.
  intros Hn k' m Hk. simpl. destruct (decide (k = k')) as [->|Hne]; [congruence|].
  rewrite lookup_insert_ne by done. eauto.
Qed.

(** Peels the writes off the state on the right, outermost first. *)
Ltac types_step :=
  lazy beta iota delta [fst snd];
  unfold isValidNetworkLocked, getNetworkLocked in *;
  repeat match goal with
    | |- keepsTypes ?s ?s => apply keepsTypes_refl
    | |- keepsTypes _ (emit _ _) =>
        eapply keepsTypes_trans; [|apply keepsTypes_emit]
    | |- keepsTypes _ (set_mDefaultNetId _ _) =>
        eapply keepsTypes_trans; [|apply keepsTypes_set_mDefaultNetId]
    | |- keepsTypes _ (set_mUsers _ _) =>
        eapply keepsTypes_trans; [|apply keepsTypes_set_mUsers]
    | |- keepsTypes _ (updateTcpSocketMonitorPolling _) =>
        eapply keepsTypes_trans; [|apply keepsTypes_updateTcpSocketMonitorPolling]
    | |- keepsTypes _ (set_mIfindexToLastNetId _ _) =>
        eapply keepsTypes_trans; [|apply keepsTypes_set_mIfindexToLastNetId]
    | |- keepsTypes _ (putNetwork _ _ _) =>
        eapply keepsTypes_trans;
        [|first [ eapply keepsTypes_putNetwork; [simpl in *; eassumption|done]
                | apply keepsTypes_putNetwork_new; simpl in *;
                  repeat case_match; simplify_eq; done ]]
    end;
  try eassumption.

Lemma keepsTypes_setDefaultNetwork env s netId :
  keepsTypes s (setDefaultNetwork env s netId).2.
Proof.
  unfold setDefaultNetwork, addAsDefault, removeAsDefault.
  repeat (case_match; simpl in *; simplify_eq); types_step.
Qed.

Lemma keepsTypes_createPhysicalNetworkLocked env s netId permission local :
  keepsTypes s (createPhysicalNetworkLocked env s netId permission local).2.
Proof.
  unfold createPhysicalNetworkLocked, setPermission.
  repeat (case_match; simpl in *; simplify_eq); types_step.
Qed.

Lemma keepsTypes_createPhysicalOemNetwork env s permission :
  keepsTypes s (createPhysicalOemNetwork env s permission).2.
Proof.
  unfold createPhysicalOemNetwork.
  destruct (MAX_OEM_ID <? _); [apply keepsTypes_refl|].
  pose proof (keepsTypes_createPhysicalNetworkLocked env s
                (scanOemIds s (Z.to_nat (MAX_OEM_ID + 1 - MIN_OEM_ID)) MIN_OEM_ID)
                permission false) as Hk.
  by destruct (createPhysicalNetworkLocked _ _ _ _ _).
Qed.

Lemma keepsTypes_createVirtualNetwork env s netId secure vpnType excl :
  keepsTypes s (createVirtualNetwork env s netId secure vpnType excl).2.
Proof.
  unfold createVirtualNetwork.
  destruct (negb _); [apply keepsTypes_refl|].
  unfold isValidNetworkLocked, getNetworkLocked.
  destruct (mNetworks s !! netId) eqn:Hn; [apply keepsTypes_refl|].
  destruct (_ || _); [apply keepsTypes_refl|].
  destruct (modifyFallthroughLocked_state env s netId true) as [evs Hs1].
  destruct (modifyFallthroughLocked env s netId true) as [ret s1]. simpl in Hs1.
  subst s1. destruct (negb _); simpl; [apply keepsTypes_emit|].
  eapply keepsTypes_trans; [apply keepsTypes_emit|].
  by apply keepsTypes_putNetwork_new.
Qed.

Lemma keepsTypes_destroyNetwork env s netId k n :
  k <> netId \/ k = LOCAL_NET_ID \/ k = UNREACHABLE_NET_ID ->
  mNetworks s !! k = Some n ->
  exists n', mNetworks (destroyNetwork env s netId).2 !! k = Some n'
             /\ mType n' = mType n.
Proof.
  intros Hk Hn.
  destruct (decide (netId = LOCAL_NET_ID)) as [?|Hl];
    [rewrite destroyNetwork_unchanged by auto; eauto|].
  destruct (decide (netId = UNREACHABLE_NET_ID)) as [?|Hu];
    [rewrite destroyNetwork_unchanged by auto; eauto|].
  destruct (mNetworks s !! netId) as [network|] eqn:Hnet;
    [|rewrite destroyNetwork_unchanged by auto; eauto].
  destruct (destroyNetwork_state env s netId network Hl Hu Hnet) as (-> & _).
  exists n. split; [|done]. rewrite lookup_delete_ne; [done|].
  destruct Hk as [?|[->| ->]]; congruence.
Qed.

Lemma keepsTypes_addInterfaceToNetwork env s netId iface :
  keepsTypes s (addInterfaceToNetwork env s netId iface).2.
Proof.
  unfold addInterfaceToNetwork, addInterface.
  repeat (case_match; simpl in *; simplify_eq); types_step.
Qed.

Lemma keepsTypes_removeInterfaceFromNetwork env s netId iface :
  keepsTypes s (removeInterfaceFromNetwork env s netId iface).2.
Proof.
  unfold removeInterfaceFromNetwork, removeInterface.
  repeat (case_match; simpl in *; simplify_eq); types_step.
Qed.

Lemma keepsTypes_setPermissionForNetworks env s permission netIds :
  keepsTypes s (setPermissionForNetworks env s permission netIds).2.
Proof.
  intros k n Hk.
  destruct (proj1 (setPermissionForNetworks_steps env permission netIds s) k n Hk)
    as (n' & Hn' & Hty & _). eauto.
Qed.

Lemma keepsTypes_addUsersToNetwork env s netId ranges subPriority :
  keepsTypes s (addUsersToNetwork env s netId ranges subPriority).2.
Proof.
  unfold addUsersToNetwork, addUsers.
  repeat (case_match; simpl in *; simplify_eq); types_step.
Qed.

Lemma keepsTypes_removeUsersFromNetwork env s netId ranges subPriority :
  keepsTypes s (removeUsersFromNetwork env s netId ranges subPriority).2.
Proof.
  unfold removeUsersFromNetwork, removeUsers.
  repeat (case_match; simpl in *; simplify_eq); types_step.
Qed.

Lemma keepsTypes_setNetworkAllowlist s rangeConfigs :
  keepsTypes s (setNetworkAllowlist s rangeConfigs).2.
Proof.
  unfold setNetworkAllowlist. case_match; simpl; [apply keepsTypes_refl|].
  eapply keepsTypes_trans with (clearAllowedUidsForAllNetworksLocked s).
  { intros k n Hk. simpl. rewrite lookup_fmap, Hk. simpl. eauto. }
  generalize (clearAllowedUidsForAllNetworksLocked s). clear.
  induction rangeConfigs as [|c l IH]; intros s; simpl; [apply keepsTypes_refl|].
  eapply keepsTypes_trans; [|apply IH]. unfold applyAllowlist.
  unfold getNetworkLocked. destruct (mNetworks s !! cfgNetId c) as [n|] eqn:Hn;
    [|apply keepsTypes_refl].
  by apply (keepsTypes_putNetwork _ _ n).
Qed.

Lemma execute_type env c s k n :
  k = LOCAL_NET_ID \/ k = UNREACHABLE_NET_ID ->
  mNetworks s !! k = Some n ->
  exists n', mNetworks (execute env c s) !! k = Some n' /\ mType n' = mType n.
Proof.
  intros Hk Hn. destruct c; simpl.
  - by apply keepsTypes_setDefaultNetwork.
  - by apply keepsTypes_createPhysicalNetworkLocked.
  - by apply keepsTypes_createPhysicalOemNetwork.
  - by apply keepsTypes_createVirtualNetwork.
  - apply keepsTypes_destroyNetwork; [by right|done].
  - by apply keepsTypes_addInterfaceToNetwork.
  - by apply keepsTypes_removeInterfaceFromNetwork.
  - apply (keepsTypes_same s); [|done].
    unfold setPermissionForUsers. clear. revert s.
    induction uids as [|uid uids IH]; intros s; simpl; [done|]. by rewrite IH.
  - by apply keepsTypes_setPermissionForNetworks.
  - by apply keepsTypes_addUsersToNetwork.
  - by apply keepsTypes_removeUsersFromNetwork.
  - apply (keepsTypes_same s); [|done]. unfold addInterfaceAddress. by case_match.
  - apply (keepsTypes_same s); [|done].
    unfold removeInterfaceAddress. by repeat (case_match; simpl in *; simplify_eq).
  - apply (keepsTypes_same s); [|done]. unfold allowProtect. by case_match.
  - apply (keepsTypes_same s); [|done]. unfold denyProtect. by case_match.
  - by apply keepsTypes_setNetworkAllowlist.
Qed.

(** X28: the local and the unreachable network keep their variant.  On a
    platform whose sentinels are distinct 16-bit handles other than UNSET,
    in every state the registry can be in the network under LOCAL_NET_ID
    is the Local one and the network under UNREACHABLE_NET_ID the
    Unreachable one.  So the local network is never Virtual, it is refused
    as the default and as a network whose permission is set with -EINVAL,
    and users are neither added to it nor removed from it: these calls
    return -EINVAL and change nothing. *)
Theorem local_network_refuses s :
  platformOk -> LOCAL_NET_ID <> DUMMY_NET_ID ->
  LOCAL_NET_ID <> UNREACHABLE_NET_ID -> reachable s ->
  (exists n, mNetworks s !! LOCAL_NET_ID = Some n /\ mType n = Local)
  /\ (exists n, mNetworks s !! UNREACHABLE_NET_ID = Some n /\ mType n = Unreachable)
  /\ isVirtualNetwork s LOCAL_NET_ID = false
  /\ (forall env, setDefaultNetwork env s LOCAL_NET_ID = (- EINVAL, s))
  /\ (forall env permission rest,
        setPermissionForNetworks env s permission (LOCAL_NET_ID :: rest)
        = (- EINVAL, s))
  /\ (forall env ranges subPriority,
        addUsersToNetwork env s LOCAL_NET_ID ranges subPriority = (- EINVAL, s))
  /\ (forall env ranges subPriority,
        removeUsersFromNetwork env s LOCAL_NET_ID ranges subPriority = (- EINVAL, s)).
Proof.
  intros Hplat Hld Hlu Hr.
  assert ((exists n, mNetworks s !! LOCAL_NET_ID = Some n /\ mType n = Local)
          /\ (exists n, mNetworks s !! UNREACHABLE_NET_ID = Some n
                        /\ mType n = Unreachable)) as [(l & Hl & Hlt) Hun].
  { induction Hr as [|env c s Hr [(l & Hl & Hlt) (u & Hu & Hut)]].
    - simpl. split.
      + rewrite lookup_insert_ne by congruence.
        rewrite lookup_insert_ne by congruence.
        rewrite lookup_insert_eq. eauto.
      + rewrite lookup_insert_eq. eauto.
    - split.
      + destruct (execute_type env c s LOCAL_NET_ID l) as (n' & ? & ?); [by left|done|].
        exists n'. split; [done|congruence].
      + destruct (execute_type env c s UNREACHABLE_NET_ID u) as (n' & ? & ?);
          [by right|done|].
        exists n'. split; [done|congruence]. }
  pose proof (reachable_wellFormed s Hplat Hr) as Hwf.
  assert (isPhysical l = false) as Hphys.
  { unfold isPhysical. rewrite Hlt. by rewrite bool_decide_eq_false_2. }
  split; [eauto|]. split; [exact Hun|]. split; [|split; [|split; [|split]]].
  - unfold isVirtualNetwork, isVirtualNetworkLocked, getNetworkLocked.
    rewrite Hl. unfold isVirtual. rewrite Hlt. by rewrite bool_decide_eq_false_2.
  - intros env. unfold setDefaultNetwork.
    destruct (Z.eqb_spec LOCAL_NET_ID (mDefaultNetId s)) as [Hd|Hd].
    { destruct (wellFormed_default s Hwf) as [Hu|(d & Hd' & Hp)].
      - destruct Hplat as (Hpos & _). unfold NETID_UNSET in Hu. lia.
      - rewrite <- Hd, Hl in Hd'. injection Hd' as <-. congruence. }
    destruct (Z.eqb_spec LOCAL_NET_ID NETID_UNSET) as [Hu|_].
    { destruct Hplat as (Hpos & _). unfold NETID_UNSET in Hu. lia. }
    unfold getNetworkLocked. simpl. rewrite Hl, Hphys. reflexivity.
  - intros env permission rest. simpl. unfold getNetworkLocked.
    by rewrite Hl, Hphys.
  - intros env ranges subPriority.
    unfold addUsersToNetwork, getNetworkLocked, isWrongNetworkForUidRanges.
    rewrite Hl. unfold canAddUsers. rewrite Hlt. reflexivity.
  - intros env ranges subPriority.
    unfold removeUsersFromNetwork, getNetworkLocked, isWrongNetworkForUidRanges.
    rewrite Hl. unfold canAddUsers. rewrite Hlt. reflexivity.
Qed.

End LocalNetwork.

(** Scenario S2 on the Android platform: the local network 99 is refused
    as the default. *)
Lemma local_network_refuses_witness :
  platformOk (H := android)
  /\ LOCAL_NET_ID (Platform := android) <> DUMMY_NET_ID (Platform := android)
  /\ LOCAL_NET_ID (Platform := android) <> UNREACHABLE_NET_ID (Platform := android)
  /\ reachable (H := android) secureVpnState
  /\ setDefaultNetwork quietEnv secureVpnState 99 = (- EINVAL, secureVpnState).
Proof.
  assert (LOCAL_NET_ID (Platform := android) <> DUMMY_NET_ID (Platform := android))
    as Hld by (simpl; lia).
  assert (LOCAL_NET_ID (Platform := android)
          <> UNREACHABLE_NET_ID (Platform := android)) as Hlu by (simpl; lia).
  split; [apply android_platformOk|]. split; [exact Hld|]. split; [exact Hlu|].
  split; [apply secureVpnState_reachable|].
  exact (proj1 (proj2 (proj2 (proj2
           (local_network_refuses (H := android) secureVpnState android_platformOk
              Hld Hlu secureVpnState_reachable)))) quietEnv).
Defined.
